(** * CopyQ: message framing, server probe, content hash and clipboard history

    A shallow embedding of the parts of CopyQ that carry its protocol and
    its history data structure:

    - [client_server.cpp]: [readBytes], [readMessage], [writeMessage],
      [newServer], [hash];
    - [clipboardmodel.cpp]: the list model ([getRowNumber], [setMaxItems],
      [move], [sortItems], [findItem], [append], the stream operators);
    - [clipboardbrowser.cpp]: [ClipboardBrowser::add], [select],
      [moveToClipboard].

    C++ [int] values are integers of [Z]; [uint]/[quint32] arithmetic is
    written with its wrap-around modulo [2^32].  Qt containers are lists.
    Qt primitives whose code is not part of CopyQ ([qHash], [qSort], string
    decoding) and the methods of [ClipboardItem], whose file is not among the
    sources, are taken as parameters through two classes. *)

From Stdlib Require Import ZArith Lia.
From Stdlib.Strings Require Import Byte.
From stdpp Require Import base tactics option list strings gmap sorting.

Local Open Scope Z_scope.

(** ** Qt value types *)

Definition QByteArray := list byte.
Definition QString := string.
Definition QStringList := list QString.

#[global] Instance byte_eq_dec : EqDecision byte := Byte.byte_eq_dec.

Definition uint_modulus : Z := 2 ^ 32.

(** Conversion to [uint]/[quint32]. *)
Definition to_uint (z : Z) : Z := z mod uint_modulus.

Definition Z_of_byte (b : byte) : Z := Z.of_N (Byte.to_N b).

Definition byte_of_Z (z : Z) : byte :=
  default "000"%byte (Byte.of_N (Z.to_N (z mod 256))).

(** [QDataStream << quint32]: four bytes, most significant first (the
    default byte order of [QDataStream]). *)
Definition put_quint32 (n : Z) : QByteArray :=
  [byte_of_Z (n ≫ 24); byte_of_Z (n ≫ 16); byte_of_Z (n ≫ 8); byte_of_Z n].

(** [QDataStream >> quint32] on a byte array: the first four bytes; a
    shorter array reads as 0 (status [ReadPastEnd]). *)
Definition get_quint32 (bs : QByteArray) : Z :=
  match bs with
  | b3 :: b2 :: b1 :: b0 :: _ =>
      Z.lor (Z_of_byte b3 ≪ 24)
        (Z.lor (Z_of_byte b2 ≪ 16) (Z.lor (Z_of_byte b1 ≪ 8) (Z_of_byte b0)))
  | _ => 0
  end.

(** [QDataStream << int] and [>> int]: the same four bytes, read back in
    two's complement. *)
Definition put_int (n : Z) : QByteArray := put_quint32 (to_uint n).

Definition to_int (u : Z) : Z := if u <? 2 ^ 31 then u else u - uint_modulus.

Definition get_int (stream : QByteArray) : Z * QByteArray :=
  (to_int (get_quint32 stream), drop 4 stream).

(** ** QIODevice

    A device holds the bytes that can be read now, the chunks still on
    their way (each with the delay in milliseconds after which it arrives)
    and the bytes written to it. *)
Record QIODevice := mkDevice {
  readBuffer : QByteArray;
  incoming : list (Z * QByteArray);
  written : QByteArray
}.

Definition bytesAvailable (d : QIODevice) : Z := Z.of_nat (length (readBuffer d)).

(** [waitForReadyRead(msecs)]: true when the next chunk arrives in time. *)
Definition waitForReadyRead (d : QIODevice) (msecs : Z) : bool * QIODevice :=
  match incoming d with
  | [] => (false, d)
  | (delay, chunk) :: rest =>
      if delay <=? msecs
      then (true, mkDevice (readBuffer d ++ chunk) rest (written d))
      else (false, mkDevice (readBuffer d) ((delay - msecs, chunk) :: rest) (written d))
  end.

(** [read(maxSize)]: at most [maxSize] bytes off the front of the buffer. *)
Definition read (d : QIODevice) (maxSize : Z) : QByteArray * QIODevice :=
  let n := Z.to_nat maxSize in
  (take n (readBuffer d), mkDevice (drop n (readBuffer d)) (incoming d) (written d)).

Definition write (d : QIODevice) (bytes : QByteArray) : QIODevice :=
  mkDevice (readBuffer d) (incoming d) (written d ++ bytes).

(** All bytes a reader can still obtain from the device. *)
Definition pendingBytes (d : QIODevice) : QByteArray :=
  readBuffer d ++ concat (incoming d).*2.

(** ** QMimeData

    A bundle of named formats: the payloads in insertion order, one per
    format name. *)
Definition QMimeData := list (QString * QByteArray).

Module MimeData.

Definition formats (d : QMimeData) : QStringList := d.*1.

(** [QMimeData::data(mimeType)]: the payload, or an empty array when the
    bundle has no such format. *)
Fixpoint data (d : QMimeData) (mime : QString) : QByteArray :=
  match d with
  | [] => []
  | (f, bytes) :: d' => if decide (f = mime) then bytes else data d' mime
  end.

Definition hasFormat (d : QMimeData) (mime : QString) : bool :=
  bool_decide (mime ∈ formats d).

Fixpoint setData (d : QMimeData) (mime : QString) (bytes : QByteArray) : QMimeData :=
  match d with
  | [] => [(mime, bytes)]
  | (f, b) :: d' =>
      if decide (f = mime) then (f, bytes) :: d' else (f, b) :: setData d' mime bytes
  end.

End MimeData.

(** ** Qt primitives taken as parameters

    [qHash] differs between Qt 4 and Qt 5 (the sources build with both),
    string decoding and collation depend on codecs and the locale, and
    [qSort] is Qt's algorithm. *)
Class QtApi := {
  qHash_bytes : QByteArray → Z;
  qHash_string : QString → Z;
  hasText : QMimeData → bool;
  text : QMimeData → QString;
  fromUtf8 : QByteArray → QString;
  isNull : QString → bool;
  localeAwareCompare : QString → QString → Z;
  qSort : ∀ A : Type, (A → A → bool) → list A → list A
}.
Arguments qSort {_ _} _ _.

(** [QRegExp], seen through [indexIn]: the position of the first match,
    -1 when there is none. *)
Definition QRegExp := QString → Z.

(** ** QList operations *)

(** [QList::insert(i, value)]: prepends when [i <= 0], appends when
    [i >= size()]. *)
Definition QList_insert {A} (i : Z) (value : A) (l : list A) : list A :=
  take (Z.to_nat i) l ++ value :: drop (Z.to_nat i) l.

(** [QList::move(from, to)]: the item at [from] ends up at [to]. *)
Definition QList_move {A} (from to : nat) (l : list A) : list A :=
  match l !! from with
  | Some x => take to (delete from l) ++ x :: drop to (delete from l)
  | None => l
  end.

(** [QAbstractItemModel::beginMoveRows] within one parent: the move is
    refused when the destination lies in the moved range or just after it. *)
Definition beginMoveRows (sourceFirst sourceLast destinationChild : Z) : bool :=
  negb ((sourceFirst <=? destinationChild) && (destinationChild <=? sourceLast + 1)).

(** ** Local sockets

    The names registered on the host: a live server answers a connection
    after [responseMs] milliseconds, a stale entry is what a crashed
    server left behind.  [delivered] collects what clients have written to
    each name. *)
Inductive Endpoint := Live (responseMs : Z) | Stale.

Record LocalSockets := mkSockets {
  registry : gmap string Endpoint;
  delivered : gmap string QByteArray
}.

(** [QLocalSocket::connectToServer(name)] followed by
    [waitForConnected(msecs)]. *)
Definition waitForConnected (w : LocalSockets) (name : QString) (msecs : Z) : bool :=
  match registry w !! name with
  | Some (Live responseMs) => bool_decide (responseMs ≤ msecs)
  | _ => false
  end.

Definition socketWrite (w : LocalSockets) (name : QString) (bytes : QByteArray)
  : LocalSockets :=
  mkSockets (registry w) (<[name := default [] (delivered w !! name) ++ bytes]> (delivered w)).

Record QLocalServer := mkServer { listeningOn : option QString }.

Definition isListening (s : QLocalServer) : bool := bool_decide (is_Some (listeningOn s)).

(** [QLocalServer::removeServer(name)]. *)
Definition removeServer (w : LocalSockets) (name : QString) : LocalSockets :=
  mkSockets (delete name (registry w)) (delivered w).

(** [QLocalServer::listen(name)]: fails when the name is taken. *)
Definition listen (s : QLocalServer) (name : QString) (w : LocalSockets)
  : bool * QLocalServer * LocalSockets :=
  match registry w !! name with
  | Some _ => (false, s, w)
  | None => (true, mkServer (Some name), mkSockets (<[name := Live 0]> (registry w)) (delivered w))
  end.

(** The process environment and the platform the sources are built for. *)
Inductive Platform := Q_OS_WIN | Q_OS_OTHER.

(** ** More Qt primitives taken as parameters

    [QString::trimmed], [QString::simplified] and
    [QFontMetrics::elidedText] (at a pixel width), [QMimeData::setText], and
    [QChar::isLower]. *)
Class QtTextApi := {
  trimmed : QString → QString;
  simplified : QString → QString;
  elidedText : QString → Z → QString;
  setText : QString → QMimeData;
  isLower : Ascii.ascii → bool
}.

(** ** QString operations *)

(** [QString::replace(QChar before, const QString &after)] *)
Fixpoint QString_replace (before : Ascii.ascii) (after : QString) (s : QString) : QString :=
  match s with
  | EmptyString => EmptyString
  | String c s' =>
      if Ascii.eqb c before
      then after +:+ QString_replace before after s'
      else String c (QString_replace before after s')
  end.

Fixpoint QString_indexOf_from (c : Ascii.ascii) (s : QString) (i : Z) : Z :=
  match s with
  | EmptyString => -1
  | String c' s' => if Ascii.eqb c' c then i else QString_indexOf_from c s' (i + 1)
  end.

(** [QString::indexOf(QChar)]: the first position, or -1. *)
Definition QString_indexOf (s : QString) (c : Ascii.ascii) : Z := QString_indexOf_from c s 0.

Fixpoint string_take (n : nat) (s : QString) : QString :=
  match n, s with
  | S n', String c s' => String c (string_take n' s')
  | _, _ => EmptyString
  end.

Fixpoint string_drop (n : nat) (s : QString) : QString :=
  match n, s with
  | S n', String _ s' => string_drop n' s'
  | _, _ => s
  end.

(** [QString::left(n)]: the whole string when [n] is negative or not less
    than the size. *)
Definition QString_left (n : Z) (s : QString) : QString :=
  if n <? 0 then s else string_take (Z.to_nat n) s.

(** [QString::mid(position)]: from [position] to the end; nothing when
    [position] is past the end. *)
Definition QString_mid (position : Z) (s : QString) : QString :=
  string_drop (Z.to_nat position) s.

Module ClientServer.

(** The loop of [readBytes].  [fuel] bounds the number of iterations; the
    result is [None] only when it runs out. *)
Fixpoint readBytes_loop (fuel : nat) (socket : QIODevice) (size read_ : Z)
    (bytes : QByteArray) : option (bool * QIODevice * QByteArray) :=
  if read_ <? size then
    match fuel with
    | O => None
    | S fuel' =>
        let '(ready, socket) :=
          if bytesAvailable socket =? 0
          then waitForReadyRead socket 1000
          else (true, socket) in
        if negb ready then Some (false, socket, bytes)
        else
          let avail := Z.min (bytesAvailable socket) (size - read_) in
          let '(chunk, socket) := read socket avail in
          readBytes_loop fuel' socket size (read_ + avail) (bytes ++ chunk)
    end
  else Some (true, socket, bytes).

(** Every iteration consumes a byte of the request or a pending chunk. *)
Definition readBytes_fuel (socket : QIODevice) (size : Z) : nat :=
  S (Z.to_nat size + length (incoming socket)).

Definition readBytes (socket : QIODevice) (size : Z)
  : option (bool * QIODevice * QByteArray) :=
  readBytes_loop (readBytes_fuel socket size) socket size 0 [].

(** [readMessage]: [msg] starts out as the caller's array, here empty. *)
Definition readMessage (socket : QIODevice)
  : option (bool * QIODevice * QByteArray) :=
  match readBytes socket 4 with
  | None => None
  | Some (false, socket, _) => Some (false, socket, [])
  | Some (true, socket, bytes) =>
      let len := get_quint32 bytes in
      readBytes socket len
  end.

(** [QDataStream::writeBytes(s, len)]: the length as [quint32], then the
    bytes. *)
Definition writeBytes (out : QIODevice) (s : QByteArray) (len : Z) : QIODevice :=
  write (write out (put_quint32 len)) (take (Z.to_nat len) s).

Definition writeMessage (socket : QIODevice) (msg : QByteArray) : QIODevice :=
  writeBytes socket msg (to_uint (Z.of_nat (length msg))).

(** [newServer]: the server object is created first; it listens only when
    the probe found nobody. *)
Definition newServer (name : QString) (w : LocalSockets) : QLocalServer * LocalSockets :=
  let server := mkServer None in
  if waitForConnected w name 2000 then
    (server, socketWrite w name (put_quint32 0))
  else
    let w := removeServer w name in
    let '(_, server, w) := listen server name w in
    (server, w).

Definition serverName (platform : Platform) (env : QString → QString) (name : QString)
  : QString :=
  let envName := match platform with Q_OS_WIN => "USERNAME" | Q_OS_OTHER => "USER" end in
  name +:+ "_" +:+ env envName.

Definition clipboardServerName platform env : QString :=
  serverName platform env "CopyQ_server".

Definition clipboardMonitorServerName platform env : QString :=
  serverName platform env "CopyQ_monitor_server".

(** [hash]: [uint] arithmetic, so the sum wraps modulo [2^32]. *)
Definition hash `{QtApi} (data : QMimeData) (formats : QStringList) : Z :=
  fold_left
    (λ hash mime,
       let bytes := MimeData.data data mime in
       Z.lxor hash (to_uint (qHash_bytes bytes + qHash_string mime)))
    formats 0.

(** [cloneData]: [None] is the null pointer for [formats]. *)
Definition cloneData `{QtTextApi} (data : QMimeData) (formats : option QStringList)
  : QMimeData :=
  match formats with
  | Some formats =>
      fold_left
        (λ newdata mime,
           let bytes := MimeData.data data mime in
           if negb (bool_decide (bytes = [])) then MimeData.setData newdata mime bytes
           else newdata)
        formats []
  | None =>
      fold_left
        (λ newdata mime,
           if match mime with
              | EmptyString => false
              | String c _ => isLower c
              end
           then MimeData.setData newdata mime (MimeData.data data mime)
           else newdata)
        (MimeData.formats data) []
  end.

(** The character [&] (code 38). *)
Definition ampersand : Ascii.ascii := Ascii.ascii_of_nat 38.

(** [elideText], from the text of the action to the text set on it. *)
Definition elideText `{QtTextApi} (actText : QString) : QString :=
  let text_ := trimmed actText in
  let text_ := elidedText (simplified (QString_left 512 text_)) 240 in
  let text_ := QString_replace ampersand "&&" text_ in
  let i := QString_indexOf text_ ampersand in
  QString_left (Z.max 0 i) text_ +:+ QString_mid (i + 1) text_.

End ClientServer.


(** ** ClipboardItem

    An item owns one bundle.  Its methods live in [clipboarditem.cpp], which
    is not among the sources; the model takes them as parameters. *)
Record ClipboardItem := mkItem { m_data : QMimeData }.

#[global] Instance ClipboardItem_eq_dec : EqDecision ClipboardItem.
Proof. solve_decision. Defined.

#[global] Instance ClipboardItem_inhabited : Inhabited ClipboardItem := populate (mkItem []).

Class ClipboardItemApi := {
  (** [ClipboardItem::operator==(const QMimeData &)] *)
  item_eq_data : ClipboardItem → QMimeData → bool;
  (** [ClipboardItem::dataHash()] *)
  dataHash : ClipboardItem → Z;
  (** [operator<<(QDataStream &, const ClipboardItem &)]: the bytes written *)
  item_put : ClipboardItem → QByteArray;
  (** [operator>>(QDataStream &, ClipboardItem &)] on a new item: the item
      read and the rest of the stream *)
  item_get : QByteArray → ClipboardItem * QByteArray
}.

(** [new ClipboardItem()] *)
Definition newClipboardItem : ClipboardItem := mkItem [].

(** [ClipboardItem::setData] on a bundle *)
Definition item_setData (item : ClipboardItem) (value : QMimeData) : ClipboardItem :=
  mkItem value.

(** ** ClipboardModel *)

Record ClipboardModel := mkModel {
  m_clipboardList : list ClipboardItem;
  m_max : Z
}.

(** [QPair<int, ClipboardItem*>] and the comparison passed to [sortItems]. *)
Definition ComparisonItem : Type := Z * ClipboardItem.
Definition CompareItems : Type := ComparisonItem → ComparisonItem → bool.

(** The keys [moveItems] is called with; [Key_Home] takes the [default]
    branch of its [switch]. *)
Inductive Key := Key_Down | Key_Up | Key_End | Key_Home.

Module ClipboardModel.

(** The constructor: an empty list, [m_max = 100]. *)
Definition new : ClipboardModel := mkModel [] 100.

Definition with_list (m : ClipboardModel) (l : list ClipboardItem) : ClipboardModel :=
  mkModel l (m_max m).

Definition rowCount (m : ClipboardModel) : Z := Z.of_nat (length (m_clipboardList m)).

Definition maxItems (m : ClipboardModel) : Z := m_max m.

(** [at(row)], for a row of the list. *)
Definition at_ (m : ClipboardModel) (row : Z) : option ClipboardItem :=
  if row <? 0 then None else m_clipboardList m !! Z.to_nat row.

(** [setData] of a bundle at an index: an index is valid when its row is one of
    the model's. *)
Definition setData (row : Z) (value : QMimeData) (m : ClipboardModel)
  : bool * ClipboardModel :=
  if (0 <=? row) && (row <? rowCount m) then
    (true, with_list m (alter (λ item, item_setData item value) (Z.to_nat row)
                          (m_clipboardList m)))
  else (false, m).

(** [append]: the new item is the last row, whose number stands for the
    pointer returned. *)
Definition append (m : ClipboardModel) : Z * ClipboardModel :=
  let rows := rowCount m in
  (rows, with_list m (m_clipboardList m ++ [newClipboardItem])).

Definition insertRows (position rows : Z) (m : ClipboardModel) : bool * ClipboardModel :=
  (true, with_list m
           (Nat.iter (Z.to_nat rows) (QList_insert position newClipboardItem)
              (m_clipboardList m))).

(** [QAbstractItemModel::insertRow(row)] *)
Definition insertRow (row : Z) (m : ClipboardModel) : bool * ClipboardModel :=
  insertRows row 1 m.

(** [removeRows]: [takeAt(position)] once per row from [position] to [last].
    Callers pass a position that is not negative. *)
Definition removeRows (position rows : Z) (m : ClipboardModel) : bool * ClipboardModel :=
  let count := rowCount m in
  if position >=? count then (false, m)
  else
    let last := Z.min (position + rows - 1) (count - 1) in
    (true, with_list m
             (Nat.iter (Z.to_nat (last - position + 1)) (delete (Z.to_nat position))
                (m_clipboardList m))).

(** [QAbstractItemModel::removeRow(row)] *)
Definition removeRow (row : Z) (m : ClipboardModel) : bool * ClipboardModel :=
  removeRows row 1 m.

Definition getRowNumber (m : ClipboardModel) (row : Z) (cycle : bool) : Z :=
  let n := rowCount m in
  if n =? 0 then -1
  else if row >=? n then (if cycle then 0 else n - 1)
  else if row <? 0 then (if cycle then n - 1 else 0)
  else row.

(** The cropping loop of [setMaxItems]: [takeLast] while [rows > max].
    [n] is the length of the list, so [None] is [takeLast] on an empty
    list. *)
Fixpoint cropList (n : nat) (max rows : Z) (l : list ClipboardItem)
  : option (list ClipboardItem) :=
  if rows >? max then
    match n with
    | O => None
    | S n' => cropList n' max (rows - 1) (removelast l)
    end
  else Some l.

Definition setMaxItems (max : Z) (m : ClipboardModel) : option ClipboardModel :=
  let m_max' := if max >? 0 then max else 0 in
  let rows := Z.of_nat (length (m_clipboardList m)) in
  if max >=? rows then Some (mkModel (m_clipboardList m) m_max')
  else
    l ← cropList (length (m_clipboardList m)) max rows (m_clipboardList m);
    Some (mkModel l m_max').

Definition move (pos newpos : Z) (m : ClipboardModel) : bool * ClipboardModel :=
  let from := getRowNumber m pos true in
  let to := getRowNumber m newpos true in
  if (from =? -1) || (to =? -1) then (false, m)
  else if negb (beginMoveRows from from (if from <? to then to + 1 else to))
  then (false, m)
  else (true, with_list m (QList_move (Z.to_nat from) (Z.to_nat to) (m_clipboardList m))).

(** First loop of [sortItems].  [Some None] is the early [return] at a row
    past the end; [None] is [m_clipboardList[row]] at a negative row, which
    [QList] does not define. *)
Fixpoint collectRows (items : list ClipboardItem) (indexList : list Z)
    (list_ : list ComparisonItem) (rows : list Z)
  : option (option (list ComparisonItem * list Z)) :=
  match indexList with
  | [] => Some (Some (list_, rows))
  | row :: indexList' =>
      if row >=? Z.of_nat (length items) then Some None
      else if row <? 0 then None
      else
        item ← items !! Z.to_nat row;
        collectRows items indexList' (list_ ++ [(row, item)]) (rows ++ [row])
  end.

(** Last loop of [sortItems]: [list_] and [rows] have the same length. *)
Fixpoint writeBack (items : list ClipboardItem) (list_ : list ComparisonItem)
    (rows : list Z) : list ClipboardItem :=
  match list_, rows with
  | (row1, item) :: list', row2 :: rows' =>
      writeBack (if row1 =? row2 then items else <[Z.to_nat row2 := item]> items)
        list' rows'
  | _, _ => items
  end.

Definition sortItems `{QtApi} (indexList : list Z) (compare : CompareItems)
    (m : ClipboardModel) : option ClipboardModel :=
  collected ← collectRows (m_clipboardList m) indexList [] [];
  match collected with
  | None => Some m
  | Some (list_, rows) =>
      let rows := qSort Z.ltb rows in
      let list_ := qSort compare list_ in
      Some (with_list m (writeBack (m_clipboardList m) list_ rows))
  end.

Fixpoint findItem_from `{ClipboardItemApi} (i : Z) (l : list ClipboardItem)
    (item_hash : Z) : Z :=
  match l with
  | [] => -1
  | item :: l' =>
      if dataHash item =? item_hash then i else findItem_from (i + 1) l' item_hash
  end.

Definition findItem `{ClipboardItemApi} (m : ClipboardModel) (item_hash : Z) : Z :=
  findItem_from 0 (m_clipboardList m) item_hash.

(** [operator<<(QDataStream &, const ClipboardModel &)]: the bytes the
    stream holds afterwards. *)
Definition operator_out `{ClipboardItemApi} (stream : QByteArray) (model : ClipboardModel)
  : QByteArray :=
  let length := rowCount model in
  fold_left (λ stream item, stream ++ item_put item) (m_clipboardList model)
    (stream ++ put_int length).

(** The loop of [operator>>]: [append], then read into the new item. *)
Fixpoint readItems `{ClipboardItemApi} (n : nat) (stream : QByteArray)
    (model : ClipboardModel) : QByteArray * ClipboardModel :=
  match n with
  | O => (stream, model)
  | S n' =>
      let '(row, model) := append model in
      let '(item, stream) := item_get stream in
      readItems n' stream
        (with_list model (<[Z.to_nat row := item]> (m_clipboardList model)))
  end.

(** [operator>>(QDataStream &, ClipboardModel &)]: what is left of the
    stream, and the model. *)
Definition operator_in `{ClipboardItemApi} (stream : QByteArray) (model : ClipboardModel)
  : QByteArray * ClipboardModel :=
  let '(length, stream) := get_int stream in
  let length := Z.min length (maxItems model) - rowCount model in
  readItems (Z.to_nat length) stream model.

(** [mimeDataInRow]: [None] is [NULL].  Callers pass a row that is not
    negative. *)
Definition mimeDataInRow (m : ClipboardModel) (row : Z) : option QMimeData :=
  if row <? rowCount m then m_data <$> m_clipboardList m !! Z.to_nat row else None.

(** The loop of [moveItems] over the sorted rows: on a failed [move] the
    function returns false at once, keeping the moves already made. *)
Fixpoint moveItems_loop (key : Key) (list_ : list Z) (i d : Z) (res : bool)
    (m : ClipboardModel) : bool * ClipboardModel :=
  match list_ with
  | [] => (res, m)
  | row :: list' =>
      let from := row + d in
      let to :=
        match key with
        | Key_Down => from + 1
        | Key_Up => from - 1
        | Key_End => rowCount m - i - 1
        | Key_Home => 0 + i
        end in
      let d := if to <? 0 then d - 1 else if to >=? rowCount m then d + 1 else d in
      let '(moved, m') := move from to m in
      if negb moved then (false, m')
      else
        let res := if res then res else (to =? 0) || (from =? 0) || (to =? rowCount m') in
        moveItems_loop key list' (i + 1) d res m'
  end.

Definition moveItems `{QtApi} (indexList : list Z) (key : Key) (m : ClipboardModel)
  : bool * ClipboardModel :=
  let list_ := indexList in
  let list_ :=
    match key with
    | Key_Down | Key_End => qSort Z.gtb list_
    | _ => qSort Z.ltb list_
    end in
  moveItems_loop key list_ 0 0 false m.

End ClipboardModel.

(** ** ClipboardBrowser *)

Record Command := mkCommand {
  re : QRegExp;
  wndre : QRegExp;
  automatic : bool;
  ignore : bool;
  input : QString;
  tab : QString;
  outputTab : QString
}.

Definition with_outputTab (c : Command) (t : QString) : Command :=
  mkCommand (re c) (wndre c) (automatic c) (ignore c) (input c) (tab c) t.

Record ClipboardBrowserShared := mkShared {
  maxItems : Z;
  commands : list Command
}.

(** The signals [add] emits. *)
Inductive Signal :=
  | requestActionDialog (data : QMimeData) (cmd : Command)
  | addToTab (data : QMimeData) (tabName : QString).

(** The browser: its model [m], its tab name, the shared settings, and the
    signals emitted so far.  The view (hidden rows, scroll offset, the save
    timer) does not act on the model and is left out. *)
Record ClipboardBrowser := mkBrowser {
  m : ClipboardModel;
  m_id : QString;
  m_sharedData : ClipboardBrowserShared;
  emitted : list Signal
}.

Definition QString_isEmpty (s : QString) : bool := bool_decide (s = EmptyString).

Module ClipboardBrowser.

Definition with_model (c : ClipboardBrowser) (model : ClipboardModel) : ClipboardBrowser :=
  mkBrowser model (m_id c) (m_sharedData c) (emitted c).

Definition emit (c : ClipboardBrowser) (s : list Signal) : ClipboardBrowser :=
  mkBrowser (m c) (m_id c) (m_sharedData c) (emitted c ++ s).

Definition alphaSort `{QtApi} (lhs rhs : ComparisonItem) : bool :=
  localeAwareCompare (text (m_data lhs.2)) (text (m_data rhs.2)) <? 0.

Definition reverseSort (lhs rhs : ComparisonItem) : bool := lhs.1 >? rhs.1.

(** The [foreach] over the commands in [add]: the signals emitted, and
    whether a matching command has [ignore] set (the [return false]). *)
Fixpoint runCommands `{QtApi} (cs : list Command) (m_id : QString) (data : QMimeData)
    (text_ windowTitle : QString) : list Signal * bool :=
  match cs with
  | [] => ([], false)
  | c :: cs' =>
      if (automatic c || ignore c || negb (QString_isEmpty (tab c)))
         && negb (re c text_ =? -1)
         && (isNull windowTitle || negb (wndre c windowTitle =? -1))
      then
        let s1 :=
          if automatic c then
            let cmd := if QString_isEmpty (outputTab c) then with_outputTab c m_id else c in
            if QString_isEmpty (input cmd) || MimeData.hasFormat data (input cmd)
            then [requestActionDialog data cmd] else []
          else [] in
        let s2 := if negb (QString_isEmpty (tab c)) then [addToTab data (tab c)] else [] in
        if ignore c then (s1 ++ s2, true)
        else
          let '(s, ignored) := runCommands cs' m_id data text_ windowTitle in
          (s1 ++ s2 ++ s, ignored)
      else runCommands cs' m_id data text_ windowTitle
  end.

(** [add(QMimeData *data, bool force, int row)] *)
Definition add `{QtApi} `{ClipboardItemApi} (data : QMimeData) (force : bool) (row : Z)
    (c : ClipboardBrowser) : bool * ClipboardBrowser :=
  let same_as_first :=
    negb force
    && (ClipboardModel.rowCount (m c) >? 0)
    && match ClipboardModel.at_ (m c) 0 with
       | Some item => item_eq_data item data
       | None => false
       end in
  if same_as_first then (false, c)
  else
    let '(signals, ignored) :=
      if negb force && hasText data then
        let windowTitle :=
          fromUtf8 (MimeData.data data "application/x-copyq-owner-window-title") in
        runCommands (commands (m_sharedData c)) (m_id c) data (text data) windowTitle
      else ([], false) in
    let c := emit c signals in
    if ignored then (false, c)
    else
      let model := m c in
      let newRow := Z.max 0 (Z.min row (ClipboardModel.rowCount model)) in
      let model := (ClipboardModel.insertRow newRow model).2 in
      let model := (ClipboardModel.setData newRow data model).2 in
      let model :=
        if ClipboardModel.rowCount model >? maxItems (m_sharedData c)
        then (ClipboardModel.removeRow (ClipboardModel.rowCount model - 1) model).2
        else model in
      (true, with_model c model).

(** [select(item_hash)] *)
Definition select `{ClipboardItemApi} (item_hash : Z) (c : ClipboardBrowser)
  : bool * ClipboardBrowser :=
  let row := ClipboardModel.findItem (m c) item_hash in
  if row <? 0 then (false, c)
  else
    let '(moved, model) := ClipboardModel.move row 0 (m c) in
    (moved, with_model c model).

(** [loadSettings]: the model takes the shared item limit. *)
Definition loadSettings (c : ClipboardBrowser) : option ClipboardBrowser :=
  model ← ClipboardModel.setMaxItems (maxItems (m_sharedData c)) (m c);
  Some (with_model c model).



(** [updateClipboard]: the item passed to [changeClipboard], if the signal
    is emitted. *)
Definition updateClipboard (c : ClipboardBrowser) : option ClipboardItem :=
  if ClipboardModel.rowCount (m c) >? 0 then ClipboardModel.at_ (m c) 0 else None.

(** [moveToClipboard(int i)]: the browser, and the item announced as the
    new clipboard when [autoUpdate] is on. *)
Definition moveToClipboard (autoUpdate : bool) (i : Z) (c : ClipboardBrowser)
  : ClipboardBrowser * option ClipboardItem :=
  let c := with_model c (ClipboardModel.move i 0 (m c)).2 in
  (c, if autoUpdate then updateClipboard c else None).

(** [removeRow(int row)] of the browser. *)
Definition removeRow (row : Z) (c : ClipboardBrowser) : ClipboardBrowser :=
  if (row <? 0) && (row >=? ClipboardModel.rowCount (m c)) then c
  else with_model c (ClipboardModel.removeRow row (m c)).2.

(** [remove]: [list] is the selection, [isRowHidden] the view's hidden
    rows.  Returns the browser and the item announced by [updateClipboard]
    when the lowest selected row is 0 and [autoUpdate] is on. *)
Definition remove `{QtApi} (autoUpdate : bool) (isRowHidden : Z → bool) (list_ : list Z)
    (c : ClipboardBrowser) : ClipboardBrowser * option ClipboardItem :=
  match list_ with
  | [] => (c, None)
  | _ =>
      let rows := qSort Z.gtb list_ in
      let model :=
        fold_left
          (λ model row,
             if negb (isRowHidden row) then (ClipboardModel.removeRow row model).2
             else model)
          rows (m c) in
      let c := with_model c model in
      let current := List.last rows 0 in
      (c, if autoUpdate && (current =? 0) then updateClipboard c else None)
  end.

(** [clear] *)
Definition clear (c : ClipboardBrowser) : ClipboardBrowser :=
  with_model c (ClipboardModel.removeRows 0 (ClipboardModel.rowCount (m c)) (m c)).2.

(** [sortItems(indexes)] and [reverseItems(indexes)] *)
Definition sortItems `{QtApi} (indexes : list Z) (c : ClipboardBrowser)
  : option ClipboardBrowser :=
  with_model c <$> ClipboardModel.sortItems indexes alphaSort (m c).

Definition reverseItems `{QtApi} (indexes : list Z) (c : ClipboardBrowser)
  : option ClipboardBrowser :=
  with_model c <$> ClipboardModel.sortItems indexes reverseSort (m c).

End ClipboardBrowser.

(** ** The operations of the history, by the names the design uses *)

(** [insertAtFront]: [add] with its default row 0. *)
Definition insertAtFront `{QtApi} `{ClipboardItemApi} (bundle : QMimeData) (force : bool)
    (h : ClipboardBrowser) : bool * ClipboardBrowser :=
  ClipboardBrowser.add bundle force 0 h.

(** [moveToFront]: [move(index, 0)], as [moveToClipboard] and [select] call it. *)
Definition moveToFront (index : Z) (h : ClipboardModel) : bool * ClipboardModel :=
  ClipboardModel.move index 0 h.

(** [findByFingerprint]: [findItem]. *)
Definition findByFingerprint `{ClipboardItemApi} (h : ClipboardModel) (fp : Z) : Z :=
  ClipboardModel.findItem h fp.

(** The items of a browser's history. *)
Definition history (h : ClipboardBrowser) : list ClipboardItem := m_clipboardList (m h).

(** A run of [insertAtFront] calls, one after the other. *)
Fixpoint insertAll `{QtApi} `{ClipboardItemApi} (calls : list (QMimeData * bool))
    (h : ClipboardBrowser) : ClipboardBrowser :=
  match calls with
  | [] => h
  | (bundle, force) :: calls' => insertAll calls' (insertAtFront bundle force h).2
  end.

(** ** An instance of the Qt primitives: Qt 4 *)

Module Qt4.

(** [qSwap] of the elements at two positions of the array. *)
Definition qSwap {A} (i j : nat) (l : list A) : list A :=
  match l !! i, l !! j with
  | Some x, Some y => <[i := y]> (<[j := x]> l)
  | _, _ => l
  end.

Section sort.
Context {A : Type} (lessThan : A → A → bool).

(** [lessThan] on the elements at two positions. *)
Definition lessThan_at (l : list A) (i j : nat) : bool :=
  match l !! i, l !! j with
  | Some x, Some y => lessThan x y
  | _, _ => false
  end.

(** The loop advancing [low] while it is below [high] and its element is
    less than the pivot at [end]. *)
Fixpoint advanceLow (fuel : nat) (l : list A) (low high end_ : nat) : nat :=
  match fuel with
  | O => low
  | S fuel' =>
      if (low <? high)%nat && lessThan_at l low end_
      then advanceLow fuel' l (S low) high end_
      else low
  end.

(** The loop retreating [high] while it is above [low] and the pivot at
    [end] is less than its element. *)
Fixpoint retreatHigh (fuel : nat) (l : list A) (low high end_ : nat) : nat :=
  match fuel with
  | O => high
  | S fuel' =>
      if (low <? high)%nat && lessThan_at l end_ high
      then retreatHigh fuel' l low (high - 1)%nat end_
      else high
  end.

(** The partition loop of [qSortHelper]: the array and the final [low]. *)
Fixpoint partitionLoop (fuel : nat) (l : list A) (low high end_ : nat) : list A * nat :=
  match fuel with
  | O => (l, low)
  | S fuel' =>
      if (low <? high)%nat then
        let low := advanceLow (high - low) l low high end_ in
        let high := retreatHigh (high - low) l low high end_ in
        if (low <? high)%nat
        then partitionLoop fuel' (qSwap low high l) (S low) (high - 1)%nat end_
        else (l, low)
      else (l, low)
  end.

(** [qSortHelper(start, end, t, lessThan)] of [qalgorithms.h]: quicksort
    with the median of three as pivot; [goto top] is the second recursive
    call.  A span is sorted with fuel equal to its length. *)
Fixpoint qSortHelper (fuel : nat) (l : list A) (start end_ : nat) : list A :=
  match fuel with
  | O => l
  | S fuel' =>
      let span := (end_ - start)%nat in
      if (span <? 2)%nat then l
      else
        let e := (end_ - 1)%nat in
        let pivot := (start + span / 2)%nat in
        let l := if lessThan_at l e start then qSwap e start l else l in
        if (span =? 2)%nat then l
        else
          let l := if lessThan_at l pivot start then qSwap pivot start l else l in
          let l := if lessThan_at l e pivot then qSwap e pivot l else l in
          if (span =? 3)%nat then l
          else
            let l := qSwap pivot e l in
            let '(l, low) := partitionLoop span l start (e - 1)%nat e in
            let low := if lessThan_at l low e then S low else low in
            let l := qSwap e low l in
            let l := qSortHelper fuel' l start low in
            qSortHelper fuel' l (S low) end_
  end.

Definition qSort (l : list A) : list A := qSortHelper (length l) l 0 (length l).

End sort.

(** [qHash] of Qt 4 on the bytes of an array, and on the characters of a
    string. *)
Definition qHash_step (h c : Z) : Z :=
  let h := to_uint ((h ≪ 4) + c) in
  let h := Z.lxor h (Z.land h 0xf0000000 ≫ 23) in
  Z.land h 0x0fffffff.

Definition qHash_bytes (bytes : QByteArray) : Z :=
  fold_left (λ h c, qHash_step h (Z_of_byte c)) bytes 0.

Definition qHash_string (s : QString) : Z :=
  qHash_bytes (String.list_byte_of_string s).

(** Text is the payload of [text/plain]; strings are compared by code
    point. *)
Definition compare_strings (a b : QString) : Z :=
  match String.compare a b with
  | Lt => -1
  | Eq => 0
  | Gt => 1
  end.

Definition api : QtApi :=
  Build_QtApi qHash_bytes qHash_string
    (λ d, MimeData.hasFormat d "text/plain")
    (λ d, String.string_of_list_byte (MimeData.data d "text/plain"))
    String.string_of_list_byte
    (λ _, false)
    compare_strings
    (@qSort).

End Qt4.

(** ** An instance of the item methods *)

Module SpecItem.

(** A length-prefixed byte array on a stream. *)
Definition put_bytes (b : QByteArray) : QByteArray :=
  put_quint32 (Z.of_nat (length b)) ++ b.

Definition get_bytes (stream : QByteArray) : QByteArray * QByteArray :=
  let n := Z.to_nat (get_quint32 stream) in
  (take n (drop 4 stream), drop n (drop 4 stream)).

Fixpoint put_formats (d : QMimeData) : QByteArray :=
  match d with
  | [] => []
  | (f, bytes) :: d' =>
      put_bytes (String.list_byte_of_string f) ++ put_bytes bytes ++ put_formats d'
  end.

Fixpoint get_formats (n : nat) (stream : QByteArray) : QMimeData * QByteArray :=
  match n with
  | O => ([], stream)
  | S n' =>
      let '(f, stream) := get_bytes stream in
      let '(bytes, stream) := get_bytes stream in
      let '(d, stream) := get_formats n' stream in
      ((String.string_of_list_byte f, bytes) :: d, stream)
  end.

(** Modelled from the spec: the methods of [ClipboardItem]
    ([clipboarditem.cpp] is not among the sources).  Equality with a bundle
    is exact, over all formats; the fingerprint is [hash] over a fixed list
    of formats to hash; an item is stored as its bundle, the number of
    formats followed by (name, payload length, payload) for each. *)
Definition api `{QtApi} (formatsToHash : QStringList) : ClipboardItemApi := {|
  item_eq_data := λ item d, bool_decide (m_data item = d);
  dataHash := λ item, ClientServer.hash (m_data item) formatsToHash;
  item_put := λ item,
    put_quint32 (Z.of_nat (length (m_data item))) ++ put_formats (m_data item);
  item_get := λ stream,
    let '(d, stream) := get_formats (Z.to_nat (get_quint32 stream)) (drop 4 stream) in
    (mkItem d, stream)
|}.

End SpecItem.

(** ** Sample data *)

Module Sample.

(** [QMimeData::setText] on a new bundle, as [add(const QString &, bool)]
    builds it. *)
Definition textBundle (txt : QString) : QMimeData :=
  MimeData.setData [] "text/plain" (String.list_byte_of_string txt).

Definition A : QMimeData := textBundle "A".
Definition B : QMimeData := textBundle "B".
Definition C : QMimeData := textBundle "C".
Definition D : QMimeData := textBundle "D".

(** Two bundles with the same text "b" and different markup, and the
    text "a". *)
Definition b1 : QMimeData := [("text/plain", ["b"%byte]); ("text/html", ["1"%byte])].
Definition b2 : QMimeData := [("text/plain", ["b"%byte]); ("text/html", ["2"%byte])].
Definition a : QMimeData := textBundle "a".

(** Items hashed over their text. *)
Definition items : ClipboardItemApi := @SpecItem.api Qt4.api ["text/plain"].

End Sample.

(** ** More sample data *)

Module SampleMore.

(** Text primitives for plain ASCII: no trimming or eliding, text stored
    as the payload of [text/plain], lower case by code. *)
Definition text_api : QtTextApi := {|
  trimmed := λ s, s;
  simplified := λ s, s;
  elidedText := λ s _, s;
  setText := Sample.textBundle;
  isLower := λ c, (97 <=? Z.of_nat (Ascii.nat_of_ascii c))
                  && (Z.of_nat (Ascii.nat_of_ascii c) <=? 122)
|}.

(** A command that ignores every text. *)
Definition ignoreAll : Command :=
  mkCommand (λ _, 0) (λ _, 0) false true EmptyString EmptyString EmptyString.

End SampleMore.

(** ** The fingerprint in the words of the design

    Stated from the specification, for comparison with [ClientServer.hash]:
    a running XOR over the requested formats that the bundle has, each
    contributing the hash of its payload XOR the hash of its name; a format
    the bundle lacks is skipped. *)
Definition fingerprint_spec `{QtApi} (bundle : QMimeData) (formats : QStringList) : Z :=
  fold_left
    (λ acc format,
       if MimeData.hasFormat bundle format
       then Z.lxor acc (Z.lxor (qHash_bytes (MimeData.data bundle format))
                               (qHash_string format))
       else acc)
    formats 0.

(** ** Predicates used in the statements *)

(** Every pending chunk arrives within the poll timeout of [readBytes]. *)
Definition timely (d : QIODevice) : Prop :=
  Forall (λ c, c.1 ≤ 1000) (incoming d).

(** The history of a browser is no longer than its item limit. *)
Definition within_capacity (h : ClipboardBrowser) : Prop :=
  Z.of_nat (length (history h)) ≤ maxItems (m_sharedData h).

(** The term one format contributes to [hash]. *)
Definition hash_term `{QtApi} (data : QMimeData) (mime : QString) : Z :=
  to_uint (qHash_bytes (MimeData.data data mime) + qHash_string mime).

(** Reading back what was written for an item gives the item and leaves
    the rest of the stream. *)
Definition readsBack `{ClipboardItemApi} (item : ClipboardItem) : Prop :=
  ∀ stream, item_get (item_put item ++ stream) = (item, stream).

(** ** Runs of messages *)

(** Writing messages one after the other, and reading [n] messages in a
    row; [None] when one of the reads fails. *)
Definition writeMessages (socket : QIODevice) (msgs : list QByteArray) : QIODevice :=
  fold_left ClientServer.writeMessage msgs socket.

Fixpoint readMessages (n : nat) (socket : QIODevice) : option (list QByteArray * QIODevice) :=
  match n with
  | O => Some ([], socket)
  | S n' =>
      match ClientServer.readMessage socket with
      | Some (true, socket, msg) =>
          '(msgs, socket) ← readMessages n' socket; Some (msg :: msgs, socket)
      | _ => None
      end
  end.

(** The test [cloneData] makes on a format name when no list of formats is
    given: not empty, and the first character is lower case. *)
Definition startsLower `{QtTextApi} (mime : QString) : bool :=
  match mime with
  | EmptyString => false
  | String c _ => isLower c
  end.

(** A string holds no ampersand. *)
Definition noAmpersand (s : QString) : Prop :=
  Forall (λ c, c ≠ ClientServer.ampersand) (String.list_ascii_of_string s).

(** The items of a list whose positions, counted from [i], are not among
    [rows]. *)
Fixpoint withoutRows {A} (rows : list Z) (i : Z) (l : list A) : list A :=
  match l with
  | [] => []
  | x :: l' =>
      if decide (i ∈ rows) then withoutRows rows (i + 1) l'
      else x :: withoutRows rows (i + 1) l'
  end.
(** * Properties *)

Lemma Z_of_byte_range b : 0 ≤ Z_of_byte b < 256.
Proof.
  unfold Z_of_byte. pose proof (Byte.to_N_bounded b). lia.
Qed.

Lemma Z_of_byte_of_Z z : Z_of_byte (byte_of_Z z) = z mod 256.
Proof.
  unfold Z_of_byte, byte_of_Z.
  assert (Hr : 0 ≤ z mod 256 < 256) by (apply Z.mod_pos_bound; lia).
  destruct (Byte.of_N (Z.to_N (z mod 256))) as [b|] eqn:Hb; simpl.
  - apply Byte.to_of_N in Hb. rewrite Hb. lia.
  - apply Byte.of_N_None_iff in Hb. lia.
Qed.

Lemma get_put_quint32 n rest :
  0 ≤ n < uint_modulus → get_quint32 (put_quint32 n ++ rest) = n.
Proof.
  intros Hn. unfold get_quint32, put_quint32. simpl.
  rewrite !Z_of_byte_of_Z.
  apply Z.bits_inj'. intros i Hi.
  rewrite !Z.lor_spec.
  change 256 with (2 ^ 8).
  destruct (Z.lt_ge_cases i 8); [|destruct (Z.lt_ge_cases i 16);
    [|destruct (Z.lt_ge_cases i 24); [|destruct (Z.lt_ge_cases i 32)]]].
  all: repeat first
    [ rewrite Z.shiftl_spec by lia
    | rewrite Z.mod_pow2_bits_low by lia
    | rewrite Z.mod_pow2_bits_high by lia
    | rewrite Z.shiftr_spec by lia
    | rewrite Z.testbit_neg_r by lia ].
  all: rewrite ?orb_false_r, ?orb_false_l; try (f_equal; lia).
  symmetry. destruct (Z.eq_dec n 0) as [->|Hn0]; [apply Z.bits_0|].
  apply Z.bits_above_log2; [lia|].
  assert (Z.log2 n < 32); [|lia].
  apply Z.log2_lt_pow2; unfold uint_modulus in Hn; lia.
Qed.

(** ** Framing *)

Section framing.
Import ClientServer.

Lemma common_prefix_split {A} (buf tail want rest : list A) k :
  buf ++ tail = want ++ rest →
  k = (length buf `min` length want)%nat →
  take k buf = take k want ∧ drop k buf ++ tail = drop k want ++ rest.
Proof.
  intros Heq ->. split.
  - rewrite <- (take_app_le buf tail), <- (take_app_le want rest) by lia.
    by rewrite Heq.
  - rewrite <- (drop_app_le buf tail), <- (drop_app_le want rest) by lia.
    by rewrite Heq.
Qed.

(** With the wanted bytes pending and enough fuel, the loop of [readBytes]
    delivers exactly those bytes and leaves the rest pending. *)
Lemma readBytes_loop_ok fuel : ∀ socket size read_ bytes want rest,
  timely socket →
  pendingBytes socket = want ++ rest →
  size - read_ = Z.of_nat (length want) →
  (length want + length (incoming socket) < fuel)%nat →
  ∃ socket',
    readBytes_loop fuel socket size read_ bytes = Some (true, socket', bytes ++ want)
    ∧ timely socket' ∧ pendingBytes socket' = rest
    ∧ written socket' = written socket.
Proof.
  induction fuel as [|fuel IH]; intros socket size read_ bytes want rest
    Htime Hpend Hsize Hfuel; [lia|].
  simpl. destruct (Z.ltb_spec read_ size) as [Hlt|Hge].
  2: { assert (want = []) as -> by (apply length_zero_iff_nil; lia).
       exists socket. by rewrite app_nil_r. }
  destruct socket as [buf inc wr]; unfold bytesAvailable, pendingBytes in *;
    simpl in *.
  destruct buf as [|b buf]; simpl.
  - unfold waitForReadyRead; simpl.
    destruct inc as [|[delay chunk] inc]; simpl in *.
    { destruct want; [simpl in *; lia | discriminate]. }
    unfold timely in Htime; simpl in Htime.
    apply Forall_cons in Htime as [Hd Htime]; simpl in Hd.
    destruct (Z.leb_spec delay 1000); [|lia]. simpl.
    unfold read; simpl.
    set (k := (length chunk `min` length want)%nat).
    replace (Z.to_nat (Z.of_nat (length chunk) `min` (size - read_))) with k by lia.
    destruct (common_prefix_split chunk (concat inc.*2) want rest k Hpend eq_refl)
      as [Htake Hdrop].
    destruct (IH (mkDevice (drop k chunk) inc wr) size
                (read_ + Z.of_nat (length chunk) `min` (size - read_))
                (bytes ++ take k chunk) (drop k want) rest)
      as (socket' & Hrun & Ht' & Hp' & Hw'); simpl; try done.
    + rewrite length_drop. lia.
    + rewrite length_drop. lia.
    + exists socket'. rewrite Hrun, Htake, <- app_assoc, take_drop. done.
  - unfold read; simpl.
    set (k := (length (b :: buf) `min` length want)%nat).
    replace (Z.to_nat (Z.of_nat (S (length buf)) `min` (size - read_))) with k
      by (unfold k; cbn [length]; lia).
    destruct (common_prefix_split (b :: buf) (concat inc.*2) want rest k Hpend eq_refl)
      as [Htake Hdrop].
    assert (0 < k)%nat by (unfold k; cbn [length]; lia).
    destruct (IH (mkDevice (drop k (b :: buf)) inc wr) size
                (read_ + Z.of_nat (S (length buf)) `min` (size - read_))
                (bytes ++ take k (b :: buf)) (drop k want) rest)
      as (socket' & Hrun & Ht' & Hp' & Hw'); simpl; try done.
    + rewrite length_drop. unfold k; cbn [length]; lia.
    + rewrite length_drop. lia.
    + exists socket'. rewrite Hrun, Htake, <- app_assoc, take_drop. done.
Qed.

Lemma readBytes_ok socket size want rest :
  timely socket →
  pendingBytes socket = want ++ rest →
  size = Z.of_nat (length want) →
  ∃ socket',
    readBytes socket size = Some (true, socket', want)
    ∧ timely socket' ∧ pendingBytes socket' = rest
    ∧ written socket' = written socket.
Proof.
  intros Htime Hpend ->. unfold readBytes, readBytes_fuel.
  apply (readBytes_loop_ok _ socket _ 0 [] want rest); try done; lia.
Qed.

(** The loop of [readBytes] never runs out of the fuel [readBytes] gives it. *)
Lemma readBytes_loop_total fuel : ∀ socket size read_ bytes,
  (Z.to_nat (size - read_) + length (incoming socket) < fuel)%nat →
  is_Some (readBytes_loop fuel socket size read_ bytes).
Proof.
  induction fuel as [|fuel IH]; intros socket size read_ bytes Hfuel; [lia|].
  simpl. destruct (Z.ltb_spec read_ size) as [Hlt|Hge]; [|done].
  destruct socket as [buf inc wr]; unfold bytesAvailable; simpl in *.
  destruct buf as [|b buf]; simpl.
  - unfold waitForReadyRead; simpl.
    destruct inc as [|[delay chunk] inc]; simpl in *; [done|].
    destruct (delay <=? 1000); simpl; [|done].
    apply IH; simpl. lia.
  - apply IH; simpl. lia.
Qed.

Lemma readBytes_total socket size : is_Some (readBytes socket size).
Proof.
  apply readBytes_loop_total. unfold readBytes_fuel. lia.
Qed.

Lemma readMessage_total socket : is_Some (readMessage socket).
Proof.
  unfold readMessage.
  destruct (readBytes_total socket 4) as [[[[] s] bs] ->]; [|done].
  apply readBytes_total.
Qed.

Lemma writeMessage_written socket msg :
  Z.of_nat (length msg) < uint_modulus →
  written (writeMessage socket msg)
  = written socket ++ put_quint32 (Z.of_nat (length msg)) ++ msg.
Proof.
  intros Hlen. unfold writeMessage, writeBytes, write, to_uint; simpl.
  rewrite Z.mod_small by lia. rewrite Nat2Z.id, firstn_all, <- app_assoc. done.
Qed.

(** A frame, however it is split into chunks that arrive in time, is read
    back whole; what follows it stays pending. *)
Lemma readMessage_frame reader msg rest :
  Z.of_nat (length msg) < uint_modulus →
  timely reader →
  pendingBytes reader = (put_quint32 (Z.of_nat (length msg)) ++ msg) ++ rest →
  ∃ reader',
    readMessage reader = Some (true, reader', msg)
    ∧ timely reader' ∧ pendingBytes reader' = rest.
Proof.
  intros Hlen Htime Hpend. unfold readMessage.
  rewrite <- app_assoc in Hpend.
  destruct (readBytes_ok reader 4 (put_quint32 (Z.of_nat (length msg))) (msg ++ rest))
    as (r1 & -> & Ht1 & Hp1 & _); try done.
  cbv beta iota zeta.
  pose proof (get_put_quint32 (Z.of_nat (length msg)) []) as Hget.
  rewrite app_nil_r in Hget. rewrite Hget by lia.
  destruct (readBytes_ok r1 (Z.of_nat (length msg)) msg rest)
    as (r2 & -> & Ht2 & Hp2 & _); try done.
  by exists r2.
Qed.

End framing.

(** C3.  Framing round trip: for every byte sequence [b] of at most 65536
    bytes, what [writeMessage] adds to the writer's output is the length
    of [b] as four bytes, most significant first, followed by [b]; a reader
    fed with these bytes (at once or in chunks that arrive within the poll
    timeout) gets [true] and exactly [b] from [readMessage], and nothing
    is left over.  A frame whose length field is 0, with no body, is read
    successfully as the empty payload. *)
Theorem framing_round_trip :
  (∀ (b frame : QByteArray) (writer reader : QIODevice),
     Z.of_nat (length b) ≤ 65536 →
     written (ClientServer.writeMessage writer b) = written writer ++ frame →
     timely reader →
     pendingBytes reader = frame →
     frame = put_quint32 (Z.of_nat (length b)) ++ b
     ∧ ∃ reader',
         ClientServer.readMessage reader = Some (true, reader', b)
         ∧ pendingBytes reader' = [])
  ∧ (∀ reader : QIODevice,
       timely reader →
       pendingBytes reader = ["000"; "000"; "000"; "000"]%byte →
       ∃ reader', ClientServer.readMessage reader = Some (true, reader', [])).
Proof.
  split.
  - intros b frame writer reader Hlen Hw Htime Hpend.
    assert (Hlt : Z.of_nat (length b) < uint_modulus) by (unfold uint_modulus; lia).
    rewrite writeMessage_written in Hw by done.
    apply app_inv_head in Hw. subst frame.
    split; [done|].
    destruct (readMessage_frame reader b []) as (r & Hr & _ & Hp); try done.
    + by rewrite app_nil_r.
    + by exists r.
  - intros reader Htime Hpend.
    destruct (readMessage_frame reader [] []) as (r & Hr & _); try done.
    by exists r.
Qed.

(** The round trip at the two-byte message "hi", delivered in two chunks
    after two bytes that are already there, and at the ping frame. *)
Lemma framing_round_trip_witness :
  let b := ["h"; "i"]%byte in
  let frame := ["000"; "000"; "000"; "002"; "h"; "i"]%byte in
  let writer := mkDevice [] [] ["x"%byte] in
  let reader :=
    mkDevice ["000"; "000"]%byte [(5, ["000"; "002"; "h"]%byte); (900, ["i"]%byte)] [] in
  (∃ reader', ClientServer.readMessage reader = Some (true, reader', b))
  ∧ (∃ reader', ClientServer.readMessage
                  (mkDevice ["000"; "000"; "000"; "000"]%byte [] [])
                = Some (true, reader', [])).
Proof.
  intros b frame writer reader. split.
  - destruct (proj1 framing_round_trip b frame writer reader) as [_ (r & Hr & _)].
    + simpl; lia.
    + reflexivity.
    + unfold timely; simpl. repeat constructor; simpl; lia.
    + reflexivity.
    + by exists r.
  - apply (proj2 framing_round_trip).
    + unfold timely; simpl. constructor.
    + reflexivity.
Defined.

(** ** Insertion at the front *)

Section insertion.
Context `{QtApi} `{ClipboardItemApi}.

Lemma insertRow_front l mx :
  ClipboardModel.insertRow 0 (mkModel l mx) = (true, mkModel (newClipboardItem :: l) mx).
Proof. reflexivity. Qed.

Lemma setData_front item l mx data :
  ClipboardModel.setData 0 data (mkModel (item :: l) mx)
  = (true, mkModel (mkItem data :: l) mx).
Proof. reflexivity. Qed.

Lemma removeRow_last item l mx :
  ClipboardModel.removeRow (ClipboardModel.rowCount (mkModel (item :: l) mx) - 1)
    (mkModel (item :: l) mx)
  = (true, mkModel (take (length l) (item :: l)) mx).
Proof.
  unfold ClipboardModel.removeRow, ClipboardModel.removeRows, ClipboardModel.rowCount,
    ClipboardModel.with_list.
  cbn [m_clipboardList m_max].
  replace (Z.of_nat (length (item :: l)) - 1) with (Z.of_nat (length l))
    by (cbn [length]; lia).
  destruct (Z.geb_spec (Z.of_nat (length l)) (Z.of_nat (length (item :: l))));
    [cbn [length] in *; lia|].
  replace (Z.to_nat (_ - _ + 1)) with 1%nat by lia.
  rewrite Nat2Z.id.
  change (Nat.iter 1 (delete (length l)) (item :: l))
    with (delete (length l) (item :: l)).
  rewrite delete_take_drop.
  rewrite (drop_ge _ (S (length l))) by (simpl; lia).
  by rewrite app_nil_r.
Qed.

(** Row 0 of a model: a new item holding [data] goes in front, and the last
    row is removed when the model then has more than [max] rows. *)
Lemma insert_front_model (model : ClipboardModel) (data : QMimeData) (max : Z) :
  let newRow := Z.max 0 (Z.min 0 (ClipboardModel.rowCount model)) in
  let model1 := (ClipboardModel.insertRow newRow model).2 in
  let model2 := (ClipboardModel.setData newRow data model1).2 in
  let model3 :=
    if ClipboardModel.rowCount model2 >? max
    then (ClipboardModel.removeRow (ClipboardModel.rowCount model2 - 1) model2).2
    else model2 in
  m_max model3 = m_max model
  ∧ m_clipboardList model3 =
      if Z.of_nat (length (m_clipboardList model)) + 1 >? max
      then take (length (m_clipboardList model)) (mkItem data :: m_clipboardList model)
      else mkItem data :: m_clipboardList model.
Proof.
  destruct model as [l mx]. cbv zeta.
  replace (Z.max 0 (Z.min 0 (ClipboardModel.rowCount (mkModel l mx)))) with 0
    by (unfold ClipboardModel.rowCount; lia).
  rewrite insertRow_front. cbn [snd]. rewrite setData_front. cbn [snd].
  rewrite removeRow_last. cbn [snd m_clipboardList m_max].
  replace (ClipboardModel.rowCount (mkModel (mkItem data :: l) mx))
    with (Z.of_nat (length l) + 1)
    by (unfold ClipboardModel.rowCount; cbn [m_clipboardList length]; lia).
  by destruct (_ >? max).
Qed.

(** What one call of [insertAtFront] does to the history: either nothing
    (the call returns false), or the new item is put in front and the list
    is cut by its last row when it then exceeds [maxItems]. *)
Lemma insertAtFront_step (h : ClipboardBrowser) (x : QMimeData) (force : bool) :
  let r := insertAtFront x force h in
  m_sharedData r.2 = m_sharedData h
  ∧ m_max (m r.2) = m_max (m h)
  ∧ history r.2 =
      if r.1 then
        if Z.of_nat (length (history h)) + 1 >? maxItems (m_sharedData h)
        then take (length (history h)) (mkItem x :: history h)
        else mkItem x :: history h
      else history h.
Proof.
  unfold insertAtFront, ClipboardBrowser.add, history.
  destruct (negb force && _ && _); [done|].
  destruct (if negb force && hasText x then _ else _) as [signals ignored].
  destruct ignored; [done|].
  cbn [fst snd ClipboardBrowser.with_model ClipboardBrowser.emit m m_sharedData].
  pose proof (insert_front_model (m h) x (maxItems (m_sharedData h))) as Hm.
  cbv zeta in Hm. destruct Hm as [Hmax Hlist]. done.
Qed.

(** An unforced call with a bundle that the first item compares equal to
    is rejected before anything is changed. *)
Lemma insertAtFront_same (h : ClipboardBrowser) (x : QMimeData) (first : ClipboardItem) :
  history h !! 0%nat = Some first →
  item_eq_data first x = true →
  insertAtFront x false h = (false, h).
Proof.
  intros Hfirst Heq.
  unfold insertAtFront, ClipboardBrowser.add, ClipboardModel.rowCount.
  unfold history in Hfirst. cbn [negb andb].
  change (ClipboardModel.at_ (m h) 0) with (m_clipboardList (m h) !! 0%nat).
  rewrite Hfirst, Heq.
  destruct (m_clipboardList (m h)); [done|]. done.
Qed.

(** A forced call always inserts. *)
Lemma insertAtFront_force (h : ClipboardBrowser) (x : QMimeData) :
  (insertAtFront x true h).1 = true ∧ emitted (insertAtFront x true h).2 = emitted h.
Proof.
  unfold insertAtFront, ClipboardBrowser.add. cbn. by rewrite app_nil_r.
Qed.

Lemma insertAtFront_within_capacity h x force :
  within_capacity h →
  within_capacity (insertAtFront x force h).2
  ∧ history (insertAtFront x force h).2 =
      if (insertAtFront x force h).1
      then take (Z.to_nat (maxItems (m_sharedData h))) (mkItem x :: history h)
      else history h.
Proof.
  unfold within_capacity. intros Hcap.
  destruct (insertAtFront_step h x force) as (Hs & _ & Hh). cbv zeta in *.
  rewrite Hs, Hh. destruct (insertAtFront x force h).1; [|done].
  destruct (Z.gtb_spec (Z.of_nat (length (history h)) + 1) (maxItems (m_sharedData h))).
  - replace (Z.to_nat (maxItems (m_sharedData h))) with (length (history h)) by lia.
    split; [|done]. rewrite length_take. simpl. lia.
  - split; [simpl; lia|]. rewrite take_ge; [done|simpl; lia].
Qed.

Lemma insertAll_app calls1 calls2 h :
  insertAll (calls1 ++ calls2) h = insertAll calls2 (insertAll calls1 h).
Proof.
  revert h. induction calls1 as [|[x force] calls1 IH]; intros h; [done|].
  simpl. apply IH.
Qed.

Lemma insertAll_within_capacity calls h :
  within_capacity h →
  within_capacity (insertAll calls h)
  ∧ m_sharedData (insertAll calls h) = m_sharedData h.
Proof.
  revert h. induction calls as [|[x force] calls IH]; intros h Hcap; [done|].
  simpl.
  destruct (insertAtFront_within_capacity h x force Hcap) as [Hcap' _].
  destruct (IH _ Hcap') as [Hc Hs]. split; [done|].
  rewrite Hs. apply insertAtFront_step.
Qed.

End insertion.

(** C1.  Dedup: on a populated history whose item at index 0 equals the
    bundle [x] (by the item's comparison with a bundle),
    [insertAtFront x false] returns false and leaves the history unchanged;
    [insertAtFront x true] returns true and the history is [x] followed by
    the old items, without the last of them when that exceeds [maxItems];
    so below capacity the history grows by one. *)
Theorem dedup_front {Qt : QtApi} {Items : ClipboardItemApi}
    (h : ClipboardBrowser) (x : QMimeData) (first : ClipboardItem) :
  history h !! 0%nat = Some first →
  item_eq_data first x = true →
  insertAtFront x false h = (false, h)
  ∧ ∃ h',
      insertAtFront x true h = (true, h')
      ∧ history h' =
          (if Z.of_nat (length (history h)) + 1 >? maxItems (m_sharedData h)
           then take (length (history h)) (mkItem x :: history h)
           else mkItem x :: history h)
      ∧ (Z.of_nat (length (history h)) < maxItems (m_sharedData h) →
         length (history h') = S (length (history h))).
Proof.
  intros Hfirst Heq. split.
  - by apply (insertAtFront_same h x first).
  - destruct (insertAtFront_step h x true) as (_ & _ & Hh).
    destruct (insertAtFront_force h x) as [Hr _]. cbv zeta in Hh.
    destruct (insertAtFront x true h) as [inserted h']. simpl in Hr, Hh. subst inserted.
    exists h'. split; [done|]. split; [done|].
    intros Hlt. rewrite Hh.
    destruct (Z.gtb_spec (Z.of_nat (length (history h)) + 1)
                (maxItems (m_sharedData h))); [lia|done].
Qed.

(** The dedup property on a one-item history holding the text "A", with
    room for three items. *)
Lemma dedup_front_witness :
  let h := mkBrowser (mkModel [mkItem Sample.A] 100) "tab" (mkShared 3 []) [] in
  @insertAtFront Qt4.api Sample.items Sample.A false h = (false, h)
  ∧ ∃ h',
      @insertAtFront Qt4.api Sample.items Sample.A true h = (true, h')
      ∧ history h' = [mkItem Sample.A; mkItem Sample.A].
Proof.
  intros h.
  destruct (dedup_front (Qt := Qt4.api) (Items := Sample.items) h Sample.A
              (mkItem Sample.A)) as (Hno & h' & Hyes & Hh & _).
  - reflexivity.
  - reflexivity.
  - split; [exact Hno|]. exists h'. split; [exact Hyes|]. exact Hh.
Defined.

(** With the comparison of the design, exact equality of bundles, a bundle
    that is the one held by the first item is rejected. *)
Lemma insertAtFront_same_bundle {Qt : QtApi} (formatsToHash : QStringList)
    (h : ClipboardBrowser) (x : QMimeData) :
  history h !! 0%nat = Some (mkItem x) →
  @insertAtFront Qt (SpecItem.api formatsToHash) x false h = (false, h).
Proof.
  intros Hfirst. apply (insertAtFront_same h x (mkItem x) Hfirst).
  by apply bool_decide_eq_true.
Qed.

(** C2.  Capacity: start from a history no longer than [maxItems] and make
    any run of [insertAtFront] calls.  After each call the history is no
    longer than [maxItems]; a call that inserts leaves the first [maxItems]
    items of the new bundle followed by the old items, so what is removed
    is the tail of that list, its highest-index items; a call that returns
    false leaves the history as it was. *)
Theorem capacity_invariant {Qt : QtApi} {Items : ClipboardItemApi}
    (calls : list (QMimeData * bool)) (h : ClipboardBrowser) :
  Z.of_nat (length (history h)) ≤ maxItems (m_sharedData h) →
  ∀ (n : nat) (bundle : QMimeData) (force : bool),
    calls !! n = Some (bundle, force) →
    let capacity := maxItems (m_sharedData h) in
    let before := insertAll (take n calls) h in
    let result := insertAtFront bundle force before in
    let after := result.2 in
    insertAll (take (S n) calls) h = after
    ∧ maxItems (m_sharedData after) = capacity
    ∧ Z.of_nat (length (history after)) ≤ capacity
    ∧ (if result.1
       then history after = take (Z.to_nat capacity) (mkItem bundle :: history before)
            ∧ mkItem bundle :: history before
              = history after ++ drop (Z.to_nat capacity) (mkItem bundle :: history before)
       else history after = history before).
Proof.
  intros Hcap n bundle force Hn. cbv zeta.
  destruct (insertAll_within_capacity (take n calls) h Hcap) as [Hc Hs].
  destruct (insertAtFront_within_capacity _ bundle force Hc) as [Hc' Hh].
  destruct (insertAtFront_step (insertAll (take n calls) h) bundle force)
    as (Hs' & _ & _). cbv zeta in Hs'.
  split; [|split; [|split]].
  - rewrite (take_S_r _ _ _ Hn), insertAll_app. done.
  - by rewrite Hs', Hs.
  - unfold within_capacity in Hc'. by rewrite Hs', Hs in Hc'.
  - rewrite Hs in Hh. destruct (insertAtFront bundle force _).1; [|done].
    split; [done|]. by rewrite Hh, take_drop.
Qed.

(** The capacity property on the run A, B, C, D (all forced) into an empty
    history of capacity 3, at its last call: the history stays within 3. *)
Lemma capacity_invariant_witness :
  let h := mkBrowser ClipboardModel.new "tab" (mkShared 3 []) [] in
  let calls := [(Sample.A, true); (Sample.B, true); (Sample.C, true); (Sample.D, true)] in
  let after :=
    (@insertAtFront Qt4.api Sample.items Sample.D true
       (@insertAll Qt4.api Sample.items (take 3 calls) h)).2 in
  @insertAll Qt4.api Sample.items (take 4 calls) h = after
  ∧ Z.of_nat (length (history after)) ≤ 3.
Proof.
  intros h calls after.
  destruct (capacity_invariant (Qt := Qt4.api) (Items := Sample.items) calls h)
    with (n := 3%nat) (bundle := Sample.D) (force := true)
    as (Hrun & _ & Hlen & _).
  - simpl. lia.
  - reflexivity.
  - exact (conj Hrun Hlen).
Defined.

(** ** Changing the item limit *)

Lemma cropList_take (max : Z) : ∀ (l : list ClipboardItem),
  0 ≤ max →
  ClipboardModel.cropList (length l) max (Z.of_nat (length l)) l
  = Some (take (Z.to_nat max) l).
Proof.
  intros l Hmax. remember (length l) as n eqn:Hn. revert l Hn.
  induction n as [|n IH]; intros l Hn; cbn [ClipboardModel.cropList].
  - destruct (Z.gtb_spec (Z.of_nat 0) max); [lia|]. by rewrite take_ge by lia.
  - destruct (Z.gtb_spec (Z.of_nat (S n)) max) as [Hgt|Hle].
    + replace (Z.of_nat (S n) - 1) with (Z.of_nat n) by lia.
      rewrite IH by (rewrite removelast_firstn_len, length_take; lia).
      rewrite removelast_firstn_len, take_take. f_equal. f_equal. lia.
    + by rewrite take_ge by lia.
Qed.

(** [setMaxItems] with a limit that is not negative keeps the first [max]
    rows, so the rows removed are the last ones; with a negative limit the
    loop reaches [takeLast] on an empty list. *)
Lemma setMaxItems_crops (max : Z) (h : ClipboardModel) :
  (0 ≤ max →
   ClipboardModel.setMaxItems max h
   = Some (mkModel (take (Z.to_nat max) (m_clipboardList h)) max))
  ∧ (max < 0 → ClipboardModel.setMaxItems max h = None).
Proof.
  unfold ClipboardModel.setMaxItems. split; intros Hmax.
  - destruct (Z.geb_spec max (Z.of_nat (length (m_clipboardList h)))).
    + rewrite take_ge by lia. destruct (Z.gtb_spec max 0); [done|].
      by replace max with 0 by lia.
    + rewrite cropList_take by done. simpl.
      destruct (Z.gtb_spec max 0); [done|]. by replace max with 0 by lia.
  - destruct (Z.geb_spec max (Z.of_nat (length (m_clipboardList h)))); [lia|].
    assert (Hnone : ∀ n l rows, rows = Z.of_nat n →
              ClipboardModel.cropList n max rows l = None).
    { induction n as [|n IH]; intros l rows ->; cbn [ClipboardModel.cropList].
      - by destruct (Z.gtb_spec (Z.of_nat 0) max); [|lia].
      - destruct (Z.gtb_spec (Z.of_nat (S n)) max); [|lia].
        apply IH. lia. }
    by rewrite Hnone.
Qed.

(** ** Moving a row to the front *)

Lemma QList_move_front {A} (from : nat) (l : list A) (x : A) :
  l !! from = Some x → QList_move from 0 l = x :: delete from l.
Proof. intros Hx. unfold QList_move. by rewrite Hx. Qed.

(** [move(index, 0)] in closed form: the row taken is [index] itself when it
    is a row of the list, row 0 when [index] is past the end and the last
    row when [index] is negative; row 0 is never moved. *)
Lemma moveToFront_eval (h : ClipboardModel) (index : Z) :
  let n := Z.of_nat (length (m_clipboardList h)) in
  let from := if index >=? n then 0 else if index <? 0 then n - 1 else index in
  moveToFront index h =
    if (n =? 0) || (from =? 0) then (false, h)
    else (true, ClipboardModel.with_list h
                  (QList_move (Z.to_nat from) 0 (m_clipboardList h))).
Proof.
  unfold moveToFront, ClipboardModel.move, ClipboardModel.getRowNumber,
    ClipboardModel.rowCount, beginMoveRows.
  cbv zeta. set (n := Z.of_nat (length (m_clipboardList h))).
  assert (0 ≤ n) by (unfold n; lia).
  destruct (Z.eqb_spec n 0) as [Hn|Hn]; [done|].
  destruct (Z.geb_spec 0 n); [lia|].
  change (0 <? 0) with false. cbv iota.
  destruct (Z.geb_spec index n); [done|].
  destruct (Z.ltb_spec index 0).
  - destruct (Z.eqb_spec (n - 1) (-1)); [lia|].
    destruct (Z.ltb_spec (n - 1) 0); [lia|].
    destruct (Z.eqb_spec (n - 1) 0) as [->|]; [done|].
    destruct (Z.leb_spec (n - 1) 0); [lia|]. done.
  - destruct (Z.eqb_spec index (-1)); [lia|].
    destruct (Z.ltb_spec index 0); [lia|].
    destruct (Z.eqb_spec index 0) as [->|]; [done|].
    destruct (Z.leb_spec index 0); [lia|]. done.
Qed.

(** C6 (as the code has it).  For an index from 1 to length-1,
    [moveToFront] puts that item at position 0, keeps the other items in
    their order and returns true.  For index 0 and for every index at or
    past the length it returns false and the history is unchanged.  A
    negative index wraps around to the last row: with two items or more the
    last item is moved to the front and true is returned; with fewer the
    call returns false and changes nothing. *)
Theorem moveToFront_cases (h : ClipboardModel) (index : Z) :
  let items := m_clipboardList h in
  let n := Z.of_nat (length items) in
  (1 ≤ index < n →
   ∃ item, items !! Z.to_nat index = Some item
     ∧ moveToFront index h
       = (true, ClipboardModel.with_list h (item :: delete (Z.to_nat index) items)))
  ∧ (index = 0 ∨ n ≤ index → moveToFront index h = (false, h))
  ∧ (index < 0 → 2 ≤ n →
     ∃ item, items !! (length items - 1)%nat = Some item
       ∧ moveToFront index h
         = (true, ClipboardModel.with_list h (item :: delete (length items - 1)%nat items)))
  ∧ (index < 0 → n < 2 → moveToFront index h = (false, h)).
Proof.
  cbv zeta. rewrite moveToFront_eval. cbv zeta.
  set (items := m_clipboardList h). set (n := Z.of_nat (length items)).
  assert (0 ≤ n) by (unfold n; lia).
  split; [|split; [|split]].
  - intros Hi.
    destruct (lookup_lt_is_Some_2 items (Z.to_nat index)) as [item Hitem];
      [unfold n in Hi; lia|].
    exists item. split; [done|].
    destruct (Z.eqb_spec n 0); [lia|].
    destruct (Z.geb_spec index n); [lia|].
    destruct (Z.ltb_spec index 0); [lia|].
    destruct (Z.eqb_spec index 0); [lia|].
    cbn [orb]. by rewrite (QList_move_front _ _ item).
  - intros [->|Hi].
    + destruct (Z.geb_spec 0 n); [by rewrite orb_true_r|].
      change (0 <? 0) with false. by rewrite orb_true_r.
    + destruct (Z.geb_spec index n); [|lia]. by rewrite orb_true_r.
  - intros Hi Hn.
    destruct (lookup_lt_is_Some_2 items (length items - 1)) as [item Hitem];
      [unfold n in Hn; lia|].
    exists item. split; [done|].
    destruct (Z.eqb_spec n 0); [lia|].
    destruct (Z.geb_spec index n); [lia|].
    destruct (Z.ltb_spec index 0); [|lia].
    destruct (Z.eqb_spec (n - 1) 0); [lia|].
    cbn [orb]. replace (Z.to_nat (n - 1)) with (length items - 1)%nat by (unfold n; lia).
    by rewrite (QList_move_front _ _ item).
  - intros Hi Hn.
    destruct (Z.eqb_spec n 0); [done|].
    destruct (Z.geb_spec index n); [lia|].
    destruct (Z.ltb_spec index 0); [|lia].
    destruct (Z.eqb_spec (n - 1) 0); [done|lia].
Qed.

(** The cases of [moveToFront] on the history D, C, B: index 2 brings B
    to the front, index 3 and index 0 change nothing, index -4 wraps to the
    last row. *)
Lemma moveToFront_cases_witness :
  let h := mkModel [mkItem Sample.D; mkItem Sample.C; mkItem Sample.B] 100 in
  (∃ item, m_clipboardList h !! 2%nat = Some item
     ∧ moveToFront 2 h = (true, ClipboardModel.with_list h (item :: delete 2%nat (m_clipboardList h))))
  ∧ moveToFront 3 h = (false, h)
  ∧ moveToFront 0 h = (false, h)
  ∧ (∃ item, m_clipboardList h !! 2%nat = Some item
     ∧ moveToFront (-4) h
       = (true, ClipboardModel.with_list h (item :: delete 2%nat (m_clipboardList h))))
  ∧ moveToFront (-1) (mkModel [mkItem Sample.A] 100) = (false, mkModel [mkItem Sample.A] 100).
Proof.
  intros h.
  split; [|split; [|split; [|split]]].
  - apply (proj1 (moveToFront_cases h 2)). simpl. lia.
  - apply (proj1 (proj2 (moveToFront_cases h 3))). right. simpl. lia.
  - apply (proj1 (proj2 (moveToFront_cases h 0))). by left.
  - apply (proj1 (proj2 (proj2 (moveToFront_cases h (-4))))); simpl; lia.
  - apply (proj2 (proj2 (proj2 (moveToFront_cases (mkModel [mkItem Sample.A] 100) (-1)))));
      simpl; lia.
Defined.

(** C6 as stated fails at a negative index: on the history A, B,
    [moveToFront (-1)] returns true and moves B to the front, where the
    claim has it return false and change nothing. *)
Lemma moveToFront_negative_counterexample :
  let h := mkModel [mkItem Sample.A; mkItem Sample.B] 100 in
  -1 < 0
  ∧ moveToFront (-1) h = (true, mkModel [mkItem Sample.B; mkItem Sample.A] 100)
  ∧ moveToFront (-1) h ≠ (false, h).
Proof. intros h. split; [lia|]. split; [reflexivity|discriminate]. Qed.

(** ** Lookup by fingerprint *)

Section find.
Context {Items : ClipboardItemApi}.

Lemma findItem_from_spec (l : list ClipboardItem) (fp i : Z) :
  let r := ClipboardModel.findItem_from i l fp in
  (r = -1 ∧ 0 ≤ i → Forall (λ item, dataHash item ≠ fp) l)
  ∧ (0 ≤ i → r = -1 ∨ i ≤ r)
  ∧ (0 ≤ i → i ≤ r →
     ∃ item, l !! Z.to_nat (r - i) = Some item ∧ dataHash item = fp
       ∧ Forall (λ item', dataHash item' ≠ fp) (take (Z.to_nat (r - i)) l)).
Proof.
  revert i. induction l as [|item l IH]; intros i; cbn [ClipboardModel.findItem_from].
  - cbv zeta. split; [by intros|]. split; [by left|]. lia.
  - destruct (Z.eqb_spec (dataHash item) fp) as [Hfp|Hfp]; cbv zeta.
    + split; [lia|]. split; [right; lia|]. intros _ _.
      rewrite Z.sub_diag. exists item. by repeat split.
    + destruct (IH (i + 1)) as (IH1 & IH2 & IH3). cbv zeta in IH1, IH2, IH3.
      split; [|split].
      * intros [Hr Hi]. constructor; [done|]. apply IH1. lia.
      * intros Hi. destruct IH2 as [?|?]; [lia|by left|right; lia].
      * intros Hi Hr. destruct IH3 as (item' & Hl & Hh & Hbefore); [lia|lia|].
        exists item'.
        replace (Z.to_nat (ClipboardModel.findItem_from (i + 1) l fp - i))
          with (S (Z.to_nat (ClipboardModel.findItem_from (i + 1) l fp - (i + 1))))
          by lia.
        split; [done|]. split; [done|]. rewrite firstn_cons. by constructor.
Qed.

(** [findItem] scans from row 0 and returns the first row whose hash is the
    one asked for, -1 when no row has it. *)
Lemma findItem_lowest (h : ClipboardModel) (fp : Z) :
  let r := findByFingerprint h fp in
  (r = -1 ∧ Forall (λ item, dataHash item ≠ fp) (m_clipboardList h))
  ∨ (0 ≤ r
     ∧ ∃ item, m_clipboardList h !! Z.to_nat r = Some item ∧ dataHash item = fp
         ∧ Forall (λ item', dataHash item' ≠ fp) (take (Z.to_nat r) (m_clipboardList h))).
Proof.
  unfold findByFingerprint, ClipboardModel.findItem. cbv zeta.
  destruct (findItem_from_spec (m_clipboardList h) fp 0) as (H1 & H2 & H3).
  cbv zeta in H1, H2, H3.
  destruct H2 as [Hr|Hr]; [lia| |].
  - left. split; [done|]. apply H1. lia.
  - right. split; [done|]. rewrite Z.sub_0_r in H3. apply H3; lia.
Qed.

End find.

(** C9 (as the code has it).  Capacity 3, empty history, bundles A, B, C, D
    inserted in that order with force: the history is D, C, B, with A
    evicted.  [moveToFront 1] then moves C, the item at index 1, and gives
    C, D, B; it is [moveToFront 2] that moves B and gives B, D, C.  In
    both, when the fingerprint of D differs from that of the item now in
    front, [findByFingerprint] on the fingerprint of D returns index 1.
    [findByFingerprint] returns the lowest index whose item has the
    fingerprint, -1 when there is none. *)
Theorem scenario_capacity_three {Qt : QtApi} {Items : ClipboardItemApi}
    (A B C D : QMimeData) (id : QString) (cmds : list Command) :
  dataHash (mkItem C) ≠ dataHash (mkItem D) →
  dataHash (mkItem B) ≠ dataHash (mkItem D) →
  let h0 := mkBrowser ClipboardModel.new id (mkShared 3 cmds) [] in
  let h := insertAll [(A, true); (B, true); (C, true); (D, true)] h0 in
  history h = [mkItem D; mkItem C; mkItem B]
  ∧ (moveToFront 1 (m h)).1 = true
  ∧ m_clipboardList (moveToFront 1 (m h)).2 = [mkItem C; mkItem D; mkItem B]
  ∧ findByFingerprint (moveToFront 1 (m h)).2 (dataHash (mkItem D)) = 1
  ∧ (moveToFront 2 (m h)).1 = true
  ∧ m_clipboardList (moveToFront 2 (m h)).2 = [mkItem B; mkItem D; mkItem C]
  ∧ findByFingerprint (moveToFront 2 (m h)).2 (dataHash (mkItem D)) = 1
  ∧ ∀ (model : ClipboardModel) (fp : Z),
      let r := findByFingerprint model fp in
      (r = -1 ∧ Forall (λ item, dataHash item ≠ fp) (m_clipboardList model))
      ∨ (0 ≤ r
         ∧ ∃ item, m_clipboardList model !! Z.to_nat r = Some item
             ∧ dataHash item = fp
             ∧ Forall (λ item', dataHash item' ≠ fp)
                 (take (Z.to_nat r) (m_clipboardList model))).
Proof.
  intros HC HB h0 h.
  assert (Hh : history h = [mkItem D; mkItem C; mkItem B]) by reflexivity.
  assert (Hm : m h = mkModel [mkItem D; mkItem C; mkItem B] 100) by reflexivity.
  rewrite Hm.
  assert (H1 : moveToFront 1 (mkModel [mkItem D; mkItem C; mkItem B] 100)
               = (true, mkModel [mkItem C; mkItem D; mkItem B] 100)) by reflexivity.
  assert (H2 : moveToFront 2 (mkModel [mkItem D; mkItem C; mkItem B] 100)
               = (true, mkModel [mkItem B; mkItem D; mkItem C] 100)) by reflexivity.
  rewrite H1, H2. cbn [fst snd m_clipboardList].
  repeat split; try done.
  - unfold findByFingerprint, ClipboardModel.findItem.
    cbn [ClipboardModel.findItem_from m_clipboardList].
    destruct (Z.eqb_spec (dataHash (mkItem C)) (dataHash (mkItem D))); [done|].
    by rewrite Z.eqb_refl.
  - unfold findByFingerprint, ClipboardModel.findItem.
    cbn [ClipboardModel.findItem_from m_clipboardList].
    destruct (Z.eqb_spec (dataHash (mkItem B)) (dataHash (mkItem D))); [done|].
    by rewrite Z.eqb_refl.
  - intros model fp. apply findItem_lowest.
Qed.

(** The scenario on the texts "A", "B", "C", "D", hashed over their text. *)
Lemma scenario_capacity_three_witness :
  let h0 := mkBrowser ClipboardModel.new "tab" (mkShared 3 []) [] in
  let h :=
    @insertAll Qt4.api Sample.items
      [(Sample.A, true); (Sample.B, true); (Sample.C, true); (Sample.D, true)] h0 in
  history h = [mkItem Sample.D; mkItem Sample.C; mkItem Sample.B]
  ∧ m_clipboardList (moveToFront 1 (m h)).2
    = [mkItem Sample.C; mkItem Sample.D; mkItem Sample.B]
  ∧ @findByFingerprint Sample.items (moveToFront 1 (m h)).2
      (@dataHash Sample.items (mkItem Sample.D)) = 1.
Proof.
  intros h0 h.
  destruct (scenario_capacity_three (Qt := Qt4.api) (Items := Sample.items)
              Sample.A Sample.B Sample.C Sample.D "tab" [])
    as (Hh & _ & Hmove & Hfind & _).
  - vm_compute. discriminate.
  - vm_compute. discriminate.
  - exact (conj Hh (conj Hmove Hfind)).
Defined.

(** C9 as stated fails: with the history D, C, B, [moveToFront 1] never
    gives B, D, C when B and C differ, whatever the bundles; on the texts
    "A" to "D" it gives C, D, B. *)
Lemma scenario_counterexample :
  (∀ (Qt : QtApi) (Items : ClipboardItemApi) (A B C D : QMimeData),
     B ≠ C →
     let h0 := mkBrowser ClipboardModel.new "tab" (mkShared 3 []) [] in
     let h := insertAll [(A, true); (B, true); (C, true); (D, true)] h0 in
     m_clipboardList (moveToFront 1 (m h)).2 ≠ [mkItem B; mkItem D; mkItem C])
  ∧ (let h0 := mkBrowser ClipboardModel.new "tab" (mkShared 3 []) [] in
     let h :=
       @insertAll Qt4.api Sample.items
         [(Sample.A, true); (Sample.B, true); (Sample.C, true); (Sample.D, true)] h0 in
     m_clipboardList (moveToFront 1 (m h)).2
       = [mkItem Sample.C; mkItem Sample.D; mkItem Sample.B]
     ∧ m_clipboardList (moveToFront 1 (m h)).2
       ≠ [mkItem Sample.B; mkItem Sample.D; mkItem Sample.C]).
Proof.
  split.
  - intros Qt Items A B C D Hne h0 h.
    change (m_clipboardList (moveToFront 1 (m h)).2)
      with [mkItem C; mkItem D; mkItem B].
    intros Heq. apply Hne. congruence.
  - split; [reflexivity|]. vm_compute. discriminate.
Qed.

(** ** The content hash *)

Section hashing.
Context {Qt : QtApi}.

Lemma hash_fold_from (data : QMimeData) (formats : QStringList) (acc : Z) :
  fold_left (λ hash mime, Z.lxor hash (hash_term data mime)) formats acc
  = Z.lxor acc (foldr Z.lxor 0 (hash_term data <$> formats)).
Proof.
  revert acc. induction formats as [|mime formats IH]; intros acc; simpl.
  - by rewrite Z.lxor_0_r.
  - by rewrite IH, Z.lxor_assoc.
Qed.

Lemma xor_all_perm (l l' : list Z) :
  l ≡ₚ l' → foldr Z.lxor 0 l = foldr Z.lxor 0 l'.
Proof.
  induction 1 as [|x l l' _ IH|x y l|l l' l'' _ IH1 _ IH2]; simpl.
  - done.
  - by rewrite IH.
  - by rewrite <- (Z.lxor_assoc y x), <- (Z.lxor_assoc x y), (Z.lxor_comm y x).
  - by rewrite IH1.
Qed.

Lemma data_absent (data : QMimeData) (mime : QString) :
  MimeData.hasFormat data mime = false → MimeData.data data mime = [].
Proof.
  unfold MimeData.hasFormat, MimeData.formats.
  rewrite bool_decide_eq_false.
  induction data as [|[f bytes] data IH]; intros Hin; simpl; [done|].
  destruct (decide (f = mime)) as [->|Hne].
  - exfalso. apply Hin. simpl. left.
  - apply IH. intros Hin'. apply Hin. simpl. by right.
Qed.

End hashing.

(** C5 (as the code has it).  [hash] is the XOR, over all the requested
    formats, of [qHash(payload) + qHash(name)] taken modulo [2^32], where the
    payload of a format the bundle lacks is the empty array; so a missing
    format contributes [qHash] of the empty array plus [qHash] of its name.
    The order of the requested formats does not matter. *)
Theorem hash_xor_of_sums {Qt : QtApi} (data : QMimeData) (formats : QStringList) :
  ClientServer.hash data formats
    = foldr Z.lxor 0
        ((λ mime, to_uint (qHash_bytes (MimeData.data data mime) + qHash_string mime))
           <$> formats)
  ∧ (∀ mime, MimeData.hasFormat data mime = false →
       to_uint (qHash_bytes (MimeData.data data mime) + qHash_string mime)
       = to_uint (qHash_bytes [] + qHash_string mime))
  ∧ (∀ formats', formats ≡ₚ formats' →
       ClientServer.hash data formats = ClientServer.hash data formats').
Proof.
  assert (Hfold : ∀ fs, ClientServer.hash data fs
                        = foldr Z.lxor 0 (hash_term data <$> fs)).
  { intros fs. unfold ClientServer.hash.
    change (fold_left _ fs 0)
      with (fold_left (λ hash mime, Z.lxor hash (hash_term data mime)) fs 0).
    by rewrite hash_fold_from, Z.lxor_0_l. }
  split; [apply Hfold|]. split.
  - intros mime Habs. by rewrite data_absent.
  - intros formats' Hperm. rewrite !Hfold. apply xor_all_perm. by rewrite Hperm.
Qed.

(** The hash of the text "A" over two formats, one of them missing, in
    either order. *)
Lemma hash_xor_of_sums_witness :
  @ClientServer.hash Qt4.api Sample.A ["text/plain"; "text/html"]
  = @ClientServer.hash Qt4.api Sample.A ["text/html"; "text/plain"]
  ∧ to_uint (Qt4.qHash_bytes (MimeData.data Sample.A "text/html")
             + Qt4.qHash_string "text/html")
    = to_uint (Qt4.qHash_bytes [] + Qt4.qHash_string "text/html").
Proof.
  destruct (hash_xor_of_sums (Qt := Qt4.api) Sample.A ["text/plain"; "text/html"])
    as (_ & Habsent & Hperm).
  split.
  - apply Hperm. apply perm_swap.
  - apply (Habsent "text/html"). reflexivity.
Defined.

(** C5 as stated fails, with the hash functions of Qt 4.  A requested format
    that the bundle lacks is not skipped: over the empty bundle and the
    format "a", [hash] is 97 where the stated fingerprint is 0.  A format
    that is present contributes a sum, not an XOR: for the payload "x"
    under "a", [hash] is 217 where the stated fingerprint is 25. *)
Lemma hash_counterexample :
  (@ClientServer.hash Qt4.api [] ["a"] = 97
   ∧ @fingerprint_spec Qt4.api [] ["a"] = 0)
  ∧ (@ClientServer.hash Qt4.api [("a", ["x"%byte])] ["a"] = 217
     ∧ @fingerprint_spec Qt4.api [("a", ["x"%byte])] ["a"] = 25).
Proof. repeat split; reflexivity. Qed.

(** ** Persistence *)

Section persistence.
Context {Items : ClipboardItemApi}.

Lemma get_put_int (n : Z) (rest : QByteArray) :
  0 ≤ n < 2 ^ 31 → get_int (put_int n ++ rest) = (n, rest).
Proof.
  intros Hn. unfold get_int, put_int, to_uint.
  assert (Hu : uint_modulus = 2 ^ 32) by reflexivity.
  rewrite Z.mod_small by lia.
  rewrite get_put_quint32 by lia.
  unfold to_int. destruct (Z.ltb_spec n (2 ^ 31)); [|lia]. done.
Qed.

Lemma write_items_fold (items : list ClipboardItem) (stream : QByteArray) :
  fold_left (λ stream item, stream ++ item_put item) items stream
  = stream ++ concat (item_put <$> items).
Proof.
  revert stream. induction items as [|item items IH]; intros stream; simpl.
  - by rewrite app_nil_r.
  - by rewrite IH, <- app_assoc.
Qed.

(** The writer: the row count, then the items from row 0 on. *)
Lemma operator_out_eq (stream : QByteArray) (model : ClipboardModel) :
  ClipboardModel.operator_out stream model
  = stream ++ put_int (ClipboardModel.rowCount model)
      ++ concat (item_put <$> m_clipboardList model).
Proof.
  unfold ClipboardModel.operator_out. by rewrite write_items_fold, <- app_assoc.
Qed.

(** The loop of the reader takes the first [n] items of the stream, in
    their order, and puts them after the rows the model has. *)
Lemma readItems_spec (n : nat) : ∀ (items : list ClipboardItem) (rest : QByteArray)
    (model : ClipboardModel),
  (n ≤ length items)%nat →
  Forall readsBack items →
  ClipboardModel.readItems n (concat (item_put <$> items) ++ rest) model
  = (concat (item_put <$> drop n items) ++ rest,
     ClipboardModel.with_list model (m_clipboardList model ++ take n items)).
Proof.
  induction n as [|n IH]; intros items rest [l mx] Hn Hback.
  - simpl. unfold ClipboardModel.with_list. simpl. by rewrite app_nil_r.
  - destruct items as [|item items]; [simpl in Hn; lia|].
    apply Forall_cons in Hback as [Hitem Hback].
    cbn [ClipboardModel.readItems ClipboardModel.append].
    cbn [fmap list_fmap concat]. rewrite <- app_assoc, Hitem.
    unfold ClipboardModel.rowCount, ClipboardModel.with_list.
    cbn [m_clipboardList m_max]. rewrite Nat2Z.id.
    rewrite insert_app_r_alt by lia. rewrite Nat.sub_diag. cbn [insert list_insert].
    rewrite (IH items rest (mkModel (l ++ [item]) mx)) by (simpl in Hn; done || lia).
    unfold ClipboardModel.with_list. cbn [m_clipboardList m_max drop take].
    by rewrite <- app_assoc.
Qed.

(** Reading a written model into any model: the number of items appended
    is [min(N, maxItems) - rowCount] when that is positive, none
    otherwise. *)
Lemma operator_in_out (stored model : ClipboardModel) (rest : QByteArray) :
  ClipboardModel.rowCount stored < 2 ^ 31 →
  Forall readsBack (m_clipboardList stored) →
  let count :=
    Z.to_nat (Z.min (ClipboardModel.rowCount stored) (ClipboardModel.maxItems model)
              - ClipboardModel.rowCount model) in
  ClipboardModel.operator_in (ClipboardModel.operator_out [] stored ++ rest) model
  = (concat (item_put <$> drop count (m_clipboardList stored)) ++ rest,
     ClipboardModel.with_list model
       (m_clipboardList model ++ take count (m_clipboardList stored))).
Proof.
  intros HN Hback count.
  rewrite operator_out_eq. unfold ClipboardModel.operator_in.
  cbn [app]. rewrite <- app_assoc, get_put_int
    by (unfold ClipboardModel.rowCount in *; lia).
  fold count. apply readItems_spec; [|done].
  unfold count, ClipboardModel.rowCount. lia.
Qed.

End persistence.

(** C4.  Persistence round trip: the writer puts the number of items and
    then the items from index 0 to N-1; reading that into an empty model
    restores the first [min(N, capacity)] items in the same order, so with
    [N <= capacity] the same capacity gives back the same model. *)
Theorem persistence_round_trip {Items : ClipboardItemApi} (stored : ClipboardModel) :
  ClipboardModel.rowCount stored < 2 ^ 31 →
  Forall readsBack (m_clipboardList stored) →
  ClipboardModel.operator_out [] stored
    = put_int (ClipboardModel.rowCount stored)
        ++ concat (item_put <$> m_clipboardList stored)
  ∧ (∀ capacity : Z,
       (ClipboardModel.operator_in (ClipboardModel.operator_out [] stored)
          (mkModel [] capacity)).2
       = mkModel
           (take (Z.to_nat (Z.min (ClipboardModel.rowCount stored) capacity))
              (m_clipboardList stored))
           capacity)
  ∧ (ClipboardModel.rowCount stored ≤ ClipboardModel.maxItems stored →
     ClipboardModel.operator_in (ClipboardModel.operator_out [] stored)
       (mkModel [] (ClipboardModel.maxItems stored))
     = ([], stored)).
Proof.
  intros HN Hback. split; [by rewrite operator_out_eq|].
  assert (Hread : ∀ capacity,
    ClipboardModel.operator_in (ClipboardModel.operator_out [] stored) (mkModel [] capacity)
    = (concat (item_put <$>
                 drop (Z.to_nat (Z.min (ClipboardModel.rowCount stored) capacity))
                   (m_clipboardList stored)),
       mkModel
         (take (Z.to_nat (Z.min (ClipboardModel.rowCount stored) capacity))
            (m_clipboardList stored))
         capacity)).
  { intros capacity.
    pose proof (operator_in_out stored (mkModel [] capacity) [] HN Hback) as Hio.
    cbv zeta in Hio. rewrite !app_nil_r in Hio. rewrite Hio.
    unfold ClipboardModel.maxItems, ClipboardModel.rowCount, ClipboardModel.with_list.
    cbn [m_clipboardList m_max length app]. by rewrite Z.sub_0_r. }
  split.
  - intros capacity. by rewrite Hread.
  - intros Hcap. rewrite Hread.
    replace (Z.to_nat _) with (length (m_clipboardList stored))
      by (unfold ClipboardModel.rowCount, ClipboardModel.maxItems in *; lia).
    rewrite drop_all, firstn_all. by destruct stored.
Qed.

(** The round trip on the history D, C, B with the item format of the
    design. *)
Lemma persistence_round_trip_witness :
  let stored := mkModel [mkItem Sample.D; mkItem Sample.C; mkItem Sample.B] 3 in
  @ClipboardModel.operator_in Sample.items
    (@ClipboardModel.operator_out Sample.items [] stored) (mkModel [] 3)
  = ([], stored).
Proof.
  intros stored.
  apply (persistence_round_trip (Items := Sample.items) stored).
  - reflexivity.
  - repeat constructor; intros stream; reflexivity.
  - unfold stored, ClipboardModel.rowCount, ClipboardModel.maxItems. simpl. lia.
Defined.

(** C10.  Reading a stream that holds N items into a model that has k
    items and capacity c appends [max(0, min(N, c) - k)] items: the first
    ones of the stream, in stream order, after the k items of the model,
    which stay as they were.  With [k >= min(N, c)] the model does not
    change. *)
Theorem deserialize_appends {Items : ClipboardItemApi}
    (stored model : ClipboardModel) (rest : QByteArray) :
  ClipboardModel.rowCount stored < 2 ^ 31 →
  Forall readsBack (m_clipboardList stored) →
  let N := ClipboardModel.rowCount stored in
  let k := ClipboardModel.rowCount model in
  let c := ClipboardModel.maxItems model in
  let count := Z.to_nat (Z.max 0 (Z.min N c - k)) in
  let result :=
    (ClipboardModel.operator_in (ClipboardModel.operator_out [] stored ++ rest) model).2 in
  m_clipboardList result = m_clipboardList model ++ take count (m_clipboardList stored)
  ∧ Z.of_nat (length (m_clipboardList result)) = k + Z.max 0 (Z.min N c - k)
  ∧ m_max result = c
  ∧ (Z.min N c ≤ k → result = model).
Proof.
  intros HN Hback N k c count result.
  pose proof (operator_in_out stored model rest HN Hback) as Hio. cbv zeta in Hio.
  assert (Hcount :
    Z.to_nat (Z.min (ClipboardModel.rowCount stored) (ClipboardModel.maxItems model)
              - ClipboardModel.rowCount model) = count)
    by (unfold count, N, c, k; lia).
  rewrite Hcount in Hio. unfold result. rewrite Hio.
  cbn [snd ClipboardModel.with_list m_clipboardList m_max].
  split; [done|]. split; [|split; [done|]].
  - rewrite length_app, length_take.
    unfold count, N, k, c, ClipboardModel.rowCount in *. lia.
  - intros Hk. replace count with 0%nat by (unfold count; lia).
    rewrite take_0, app_nil_r. by destruct model.
Qed.

(** Reading the stored history D, C, B into a model that holds A and has
    capacity 2 appends one item, D. *)
Lemma deserialize_appends_witness :
  let stored := mkModel [mkItem Sample.D; mkItem Sample.C; mkItem Sample.B] 3 in
  let model := mkModel [mkItem Sample.A] 2 in
  m_clipboardList
    (@ClipboardModel.operator_in Sample.items
       (@ClipboardModel.operator_out Sample.items [] stored ++ []) model).2
  = [mkItem Sample.A; mkItem Sample.D].
Proof.
  intros stored model.
  apply (deserialize_appends (Items := Sample.items) stored model []).
  - reflexivity.
  - repeat constructor; intros stream; reflexivity.
Defined.

(** ** The server probe *)

Lemma waitForConnected_true (w : LocalSockets) (name : QString) (msecs : Z) :
  waitForConnected w name msecs = true
  ↔ ∃ responseMs, registry w !! name = Some (Live responseMs) ∧ responseMs ≤ msecs.
Proof.
  unfold waitForConnected. destruct (registry w !! name) as [[t|]|]; split.
  - intros Ht. apply bool_decide_eq_true in Ht. by exists t.
  - intros (t' & [= <-] & Ht). by apply bool_decide_eq_true.
  - done.
  - by intros (t' & ? & _).
  - done.
  - by intros (t' & ? & _).
Qed.

(** C8.  [newServer] probes, then binds.  When the connection to the name
    is made within 2000 ms, it writes one frame with length field 0 and no
    body (the four bytes [writeMessage] puts out for the empty message) to
    that server, registers nothing and returns a server that does not
    listen.  Otherwise it removes the registration of the name, stale or
    not, and listens: the returned server listens on the name, which is
    registered as live, and nothing is sent.  A stale registration would
    make [listen] fail if it were not removed first. *)
Theorem newServer_probe_then_bind (name : QString) (w : LocalSockets) :
  let server := (ClientServer.newServer name w).1 in
  let w' := (ClientServer.newServer name w).2 in
  let ping := ["000"; "000"; "000"; "000"]%byte in
  ((∃ responseMs, registry w !! name = Some (Live responseMs) ∧ responseMs ≤ 2000) →
     isListening server = false
     ∧ registry w' = registry w
     ∧ delivered w' !! name = Some (default [] (delivered w !! name) ++ ping)
     ∧ (∀ other, other ≠ name → delivered w' !! other = delivered w !! other)
     ∧ written (ClientServer.writeMessage (mkDevice [] [] []) []) = ping)
  ∧ (¬ (∃ responseMs, registry w !! name = Some (Live responseMs) ∧ responseMs ≤ 2000) →
     isListening server = true
     ∧ listeningOn server = Some name
     ∧ registry w' = <[name := Live 0]> (registry w)
     ∧ delivered w' = delivered w
     ∧ (registry w !! name = Some Stale →
        (listen (mkServer None) name w).1.1 = false)).
Proof.
  cbv zeta. unfold ClientServer.newServer.
  destruct (waitForConnected w name 2000) eqn:Hprobe.
  - apply waitForConnected_true in Hprobe. split; [|done].
    intros _. cbn [fst snd socketWrite registry delivered].
    split; [done|]. split; [done|]. split; [by rewrite lookup_insert_eq|].
    split; [|done]. intros other Hother. by rewrite lookup_insert_ne.
  - split.
    { intros Hlive. apply waitForConnected_true in Hlive. congruence. }
    intros _. unfold listen, removeServer. cbn [registry delivered].
    rewrite lookup_delete_eq. cbn [fst snd registry delivered listeningOn].
    rewrite insert_delete_eq.
    repeat split; try done.
    intros Hstale. by rewrite Hstale.
Qed.

(** The probe on a host where "CopyQ_server_alice" is live and answers in
    150 ms, and on one where that name is a stale registration. *)
Lemma newServer_probe_then_bind_witness :
  let name := ClientServer.clipboardServerName Q_OS_OTHER (λ _, "alice") in
  let running := mkSockets {[name := Live 150]} ∅ in
  let crashed := mkSockets {[name := Stale]} ∅ in
  (isListening (ClientServer.newServer name running).1 = false
   ∧ delivered (ClientServer.newServer name running).2 !! name
     = Some ["000"; "000"; "000"; "000"]%byte)
  ∧ (isListening (ClientServer.newServer name crashed).1 = true
     ∧ registry (ClientServer.newServer name crashed).2 = {[name := Live 0]}).
Proof.
  intros name running crashed. split.
  - destruct (proj1 (newServer_probe_then_bind name running))
      as (Hl & _ & Hd & _).
    + exists 150. split; [apply lookup_singleton_eq|lia].
    + split; [exact Hl|]. rewrite Hd. reflexivity.
  - destruct (proj2 (newServer_probe_then_bind name crashed))
      as (Hl & _ & Hr & _).
    + intros (t & Ht & _). unfold crashed in Ht. cbn [registry] in Ht.
      rewrite lookup_singleton_eq in Ht. discriminate.
    + split; [exact Hl|]. rewrite Hr. unfold crashed. cbn [registry].
      apply insert_singleton_eq.
Defined.

(** ** Sorting a selection *)

(** Qt 4's [qSort] only swaps elements: its result is a permutation. *)
Module Qt4Sort.
Section perm.
Context {A : Type} (lessThan : A → A → bool).

Lemma qSwap_perm (i j : nat) (l : list A) : Qt4.qSwap i j l ≡ₚ l.
Proof.
  unfold Qt4.qSwap.
  destruct (l !! i) as [x|] eqn:Hi; [|done].
  destruct (l !! j) as [y|] eqn:Hj; [|done].
  by apply Permutation_insert_swap.
Qed.

Lemma partitionLoop_perm (fuel : nat) : ∀ (l : list A) (low high end_ : nat),
  (Qt4.partitionLoop lessThan fuel l low high end_).1 ≡ₚ l.
Proof.
  induction fuel as [|fuel IH]; intros l low high end_;
    cbn [Qt4.partitionLoop]; cbv zeta; [done|].
  repeat match goal with
         | |- (if ?b then _ else _).1 ≡ₚ _ => destruct b
         end; try done.
  etransitivity; [apply IH|apply qSwap_perm].
Qed.

Lemma qSortHelper_perm (fuel : nat) : ∀ (l : list A) (start end_ : nat),
  Qt4.qSortHelper lessThan fuel l start end_ ≡ₚ l.
Proof.
  induction fuel as [|fuel IH]; intros l start end_;
    cbn [Qt4.qSortHelper]; cbv zeta; [done|].
  repeat match goal with
         | |- ?l ≡ₚ ?l => reflexivity
         | |- (if ?b then _ else _) ≡ₚ _ => destruct b
         | |- Qt4.qSwap _ _ _ ≡ₚ _ => etransitivity; [apply qSwap_perm|]
         | |- Qt4.qSortHelper _ _ _ _ _ ≡ₚ _ => etransitivity; [apply IH|]
         | |- (let '(_, _) := Qt4.partitionLoop ?lt ?f ?l0 ?a ?b ?c in _) ≡ₚ _ =>
             let Hp := fresh "Hp" in
             pose proof (partitionLoop_perm f l0 a b c) as Hp;
             destruct (Qt4.partitionLoop lt f l0 a b c); cbn [fst] in Hp
         | Hp : ?l4 ≡ₚ _ |- ?l4 ≡ₚ _ => etransitivity; [apply Hp|]; clear Hp
         end.
Qed.

Lemma qSort_perm (l : list A) : Qt4.qSort lessThan l ≡ₚ l.
Proof. apply qSortHelper_perm. Qed.

End perm.
End Qt4Sort.

Section sorting.
Context {Qt : QtApi}.

Lemma collectRows_in_range (items : list ClipboardItem) (indexList : list Z) :
  ∀ (list_ : list ComparisonItem) (rows : list Z),
  Forall (λ row, 0 ≤ row < Z.of_nat (length items)) indexList →
  ClipboardModel.collectRows items indexList list_ rows
  = Some (Some (list_ ++ ((λ row, (row, items !!! Z.to_nat row)) <$> indexList),
                rows ++ indexList)).
Proof.
  induction indexList as [|row indexList IH]; intros list_ rows Hrange; simpl.
  - by rewrite !app_nil_r.
  - apply Forall_cons in Hrange as [Hrow Hrange].
    destruct (Z.geb_spec row (Z.of_nat (length items))); [lia|].
    destruct (Z.ltb_spec row 0); [lia|].
    destruct (lookup_lt_is_Some_2 items (Z.to_nat row)) as [item Hitem]; [lia|].
    rewrite Hitem. simpl. rewrite IH by done.
    rewrite (list_lookup_total_correct _ _ _ Hitem), <- !app_assoc. done.
Qed.

(** The last loop: when the rows are distinct and every pair still holds
    the item of its row, each row ends up with the item paired with it by
    position, and the rows not listed keep theirs. *)
Lemma writeBack_spec (list_ : list ComparisonItem) :
  ∀ (rows : list Z) (cur : list ClipboardItem),
  length list_ = length rows →
  NoDup rows →
  Forall (λ row, 0 ≤ row < Z.of_nat (length cur)) rows →
  Forall (λ p, p.1 ∈ rows → cur !! Z.to_nat p.1 = Some p.2) list_ →
  let res := ClipboardModel.writeBack cur list_ rows in
  length res = length cur
  ∧ (∀ i row p, rows !! i = Some row → list_ !! i = Some p →
       res !! Z.to_nat row = Some p.2)
  ∧ (∀ j : nat, Z.of_nat j ∉ rows → res !! j = cur !! j).
Proof.
  induction list_ as [|[row1 item] list_ IH]; intros rows cur Hlen Hnodup Hrange Hpairs.
  - destruct rows; [|done]. simpl. split; [done|]. split; [|done].
    intros i row p Hrow. by rewrite lookup_nil in Hrow.
  - destruct rows as [|row2 rows]; [done|].
    apply NoDup_cons in Hnodup as [Hrow2 Hnodup].
    apply Forall_cons in Hrange as [Hr2 Hrange].
    apply Forall_cons in Hpairs as [Hhead Hpairs]. simpl in Hhead.
    cbn [ClipboardModel.writeBack].
    set (cur' := if row1 =? row2 then cur else <[Z.to_nat row2 := item]> cur).
    assert (Hlen' : length cur' = length cur).
    { unfold cur'. destruct (row1 =? row2); [done|apply length_insert]. }
    assert (Hat : cur' !! Z.to_nat row2 = Some item).
    { unfold cur'. destruct (Z.eqb_spec row1 row2) as [->|Hne].
      - apply Hhead. left.
      - apply list_lookup_insert_eq. lia. }
    assert (Hother : ∀ j, j ≠ Z.to_nat row2 → cur' !! j = cur !! j).
    { intros j Hj. unfold cur'. destruct (row1 =? row2); [done|].
      by apply list_lookup_insert_ne. }
    destruct (IH rows cur') as (IH1 & IH2 & IH3).
    + by simplify_eq/=.
    + done.
    + by rewrite Hlen'.
    + rewrite Forall_forall in Hpairs |- *. intros p Hp Hin.
      rewrite Forall_forall in Hrange. pose proof (Hrange _ Hin) as Hpr.
      rewrite Hother; [apply Hpairs; [done|by right]|].
      intros Heq. apply Hrow2. replace row2 with p.1 by lia. done.
    + cbv zeta in *. split; [by rewrite IH1|]. split.
      * intros [|i] row p Hrow Hp; simplify_eq/=.
        -- rewrite IH3; [done|]. by replace (Z.of_nat (Z.to_nat row)) with row by lia.
        -- by eapply IH2.
      * intros j Hj. rewrite IH3 by (intros Hin; apply Hj; by right).
        apply Hother. intros ->. apply Hj. rewrite Z2Nat.id by lia. left.
Qed.

End sorting.

(** C7 (as the code has it).  Let the listed positions be distinct and in
    range, and let [qSort] return a permutation of what it is given.  Then
    [sortItems] keeps the length of the history and every item that is not
    at a listed position; the listed positions, taken in the order [qSort]
    puts the row numbers, receive the items in the order [qSort] puts the
    pairs under the comparison; so the listed positions hold, after the
    call, the items they held before, rearranged.  Nothing is said about
    the order of items that compare equal. *)
Theorem sortItems_slots {Qt : QtApi} (indexList : list Z) (compare : CompareItems)
    (h : ClipboardModel) :
  (∀ (A : Type) (lessThan : A → A → bool) (l : list A), qSort lessThan l ≡ₚ l) →
  NoDup indexList →
  Forall (λ row, 0 ≤ row < ClipboardModel.rowCount h) indexList →
  let items := m_clipboardList h in
  let rows := qSort Z.ltb indexList in
  let sorted := qSort compare ((λ row, (row, items !!! Z.to_nat row)) <$> indexList) in
  ∃ h',
    ClipboardModel.sortItems indexList compare h = Some h'
    ∧ m_max h' = m_max h
    ∧ length (m_clipboardList h') = length items
    ∧ (∀ j : nat, Z.of_nat j ∉ indexList → m_clipboardList h' !! j = items !! j)
    ∧ (∀ i row p, rows !! i = Some row → sorted !! i = Some p →
         m_clipboardList h' !! Z.to_nat row = Some p.2)
    ∧ (λ row, m_clipboardList h' !!! Z.to_nat row) <$> indexList
      ≡ₚ (λ row, items !!! Z.to_nat row) <$> indexList.
Proof.
  intros Hsort Hnodup Hrange items rows sorted.
  unfold ClipboardModel.rowCount in Hrange. fold items in Hrange.
  pose proof (Hsort _ Z.ltb indexList) as Hrows. fold rows in Hrows.
  pose proof (Hsort _ compare ((λ row, (row, items !!! Z.to_nat row)) <$> indexList))
    as Hsorted. fold sorted in Hsorted.
  unfold ClipboardModel.sortItems. fold items.
  rewrite (collectRows_in_range items indexList [] [] Hrange). simpl.
  fold rows. fold sorted.
  destruct (writeBack_spec sorted rows items) as (Hlen & Hslots & Hrest).
  - by rewrite Hsorted, Hrows, length_fmap.
  - by rewrite Hrows.
  - by rewrite Hrows.
  - rewrite Forall_forall. intros p Hp _.
    rewrite Hsorted in Hp. apply list_elem_of_fmap in Hp as (row & -> & Hrow).
    rewrite Forall_forall in Hrange. pose proof (Hrange _ Hrow). simpl.
    apply list_lookup_lookup_total_lt. lia.
  - cbv zeta in Hlen, Hslots, Hrest.
    eexists. split; [done|].
    cbn [ClipboardModel.with_list m_clipboardList m_max].
    split; [done|]. split; [done|]. split.
    { intros j Hj. apply Hrest. by rewrite Hrows. }
    split; [done|].
    set (res := ClipboardModel.writeBack items sorted rows) in *.
    assert (Hlens : length sorted = length rows)
      by by rewrite Hsorted, Hrows, length_fmap.
    assert (Heq : (λ row, res !!! Z.to_nat row) <$> rows = snd <$> sorted).
    { apply list_eq. intros i. rewrite !list_lookup_fmap.
      destruct (rows !! i) as [row|] eqn:Hrow; simpl.
      - destruct (lookup_lt_is_Some_2 sorted i) as [p Hp].
        { rewrite Hlens. by eapply lookup_lt_Some. }
        transitivity (snd <$> Some p); [|by rewrite <- Hp].
        simpl. f_equal.
        apply list_lookup_total_correct. by eapply Hslots.
      - apply lookup_ge_None in Hrow.
        symmetry. apply fmap_None, lookup_ge_None.
        change (length sorted ≤ i)%nat. by rewrite Hlens. }
    transitivity ((λ row, res !!! Z.to_nat row) <$> rows); [by rewrite Hrows|].
    rewrite Heq, Hsorted, <- list_fmap_compose. done.
Qed.

(** Sorting the whole history b1, b2, a by text with Qt 4's [qSort]: the
    three rows keep the three items. *)
Lemma sortItems_slots_witness :
  let h := mkModel [mkItem Sample.b1; mkItem Sample.b2; mkItem Sample.a] 100 in
  ∃ h',
    @ClipboardModel.sortItems Qt4.api [0; 1; 2] (@ClipboardBrowser.alphaSort Qt4.api) h
      = Some h'
    ∧ length (m_clipboardList h') = 3%nat
    ∧ (λ row, m_clipboardList h' !!! Z.to_nat row) <$> [0; 1; 2]
      ≡ₚ [mkItem Sample.b1; mkItem Sample.b2; mkItem Sample.a].
Proof.
  intros h.
  destruct (sortItems_slots (Qt := Qt4.api) [0; 1; 2]
              (@ClipboardBrowser.alphaSort Qt4.api) h)
    as (h' & Hrun & _ & Hlen & _ & _ & Hperm).
  - intros A lessThan l. apply Qt4Sort.qSort_perm.
  - apply NoDup_ListNoDup. repeat constructor; simpl; lia.
  - repeat constructor; simpl; lia.
  - exists h'. split; [exact Hrun|]. split; [exact Hlen|exact Hperm].
Defined.

(** C7 as stated fails on stability, with Qt 4's [qSort]: b1 and b2 have the
    same text, so neither is less than the other under [alphaSort]; b1 is
    before b2 in the history b1, b2, a, and after sorting all three rows b2
    is before b1. *)
Lemma sortItems_unstable_counterexample :
  let h := mkModel [mkItem Sample.b1; mkItem Sample.b2; mkItem Sample.a] 100 in
  @ClipboardBrowser.alphaSort Qt4.api (0, mkItem Sample.b1) (1, mkItem Sample.b2) = false
  ∧ @ClipboardBrowser.alphaSort Qt4.api (1, mkItem Sample.b2) (0, mkItem Sample.b1) = false
  ∧ @ClipboardModel.sortItems Qt4.api [0; 1; 2] (@ClipboardBrowser.alphaSort Qt4.api) h
    = Some (mkModel [mkItem Sample.a; mkItem Sample.b2; mkItem Sample.b1] 100).
Proof. intros h. repeat split; reflexivity. Qed.

(** A position listed twice breaks the rearrangement: sorting rows 0, 0, 1,
    2 of b1, b2, a by descending row loses a and leaves b1 in two rows. *)
Lemma sortItems_repeated_position :
  let h := mkModel [mkItem Sample.b1; mkItem Sample.b2; mkItem Sample.a] 100 in
  @ClipboardModel.sortItems Qt4.api [0; 0; 1; 2] ClipboardBrowser.reverseSort h
  = Some (mkModel [mkItem Sample.b2; mkItem Sample.b1; mkItem Sample.b1] 100).
Proof. reflexivity. Qed.

(** ** More on framing: what [readBytes] hands out, truncated frames, runs
    of messages *)

Section framing_more.
Import ClientServer.

(** Whatever the loop of [readBytes] returns, the bytes it collected
    followed by what is still pending are the bytes that were pending: it
    loses, invents and reorders nothing.  On success it collected what was
    left of the request; on failure it collected less and the read buffer
    is empty. *)
Lemma readBytes_loop_conserves (fuel : nat) : ∀ socket size read_ bytes ok socket' out,
  readBytes_loop fuel socket size read_ bytes = Some (ok, socket', out) →
  ∃ got,
    out = bytes ++ got
    ∧ got ++ pendingBytes socket' = pendingBytes socket
    ∧ written socket' = written socket
    ∧ (if ok then Z.of_nat (length got) = Z.max 0 (size - read_)
       else Z.of_nat (length got) < size - read_ ∧ readBuffer socket' = []).
Proof.
  induction fuel as [|fuel IH]; intros socket size read_ bytes ok socket' out;
    cbn [readBytes_loop].
  - destruct (Z.ltb_spec read_ size); [done|].
    intros [= <- <- <-]. exists []. rewrite app_nil_r. repeat split; simpl; lia.
  - destruct (Z.ltb_spec read_ size) as [Hlt|Hge].
    2: { intros [= <- <- <-]. exists []. rewrite app_nil_r.
         repeat split; simpl; lia. }
    destruct socket as [buf inc wr]. unfold bytesAvailable. cbn [readBuffer].
    assert (Hstep : ∀ buf1 inc1,
      readBytes_loop fuel
        (mkDevice (drop (Z.to_nat (Z.of_nat (length buf1) `min` (size - read_))) buf1)
           inc1 wr)
        size (read_ + Z.of_nat (length buf1) `min` (size - read_))
        (bytes ++ take (Z.to_nat (Z.of_nat (length buf1) `min` (size - read_))) buf1)
      = Some (ok, socket', out) →
      ∃ got, out = bytes ++ got
        ∧ got ++ pendingBytes socket' = buf1 ++ concat inc1.*2
        ∧ written socket' = wr
        ∧ (if ok then Z.of_nat (length got) = Z.max 0 (size - read_)
           else Z.of_nat (length got) < size - read_ ∧ readBuffer socket' = [])).
    { intros buf1 inc1 Hrun.
      set (k := Z.to_nat (Z.of_nat (length buf1) `min` (size - read_))) in *.
      apply IH in Hrun as (got & -> & Hpend & Hwr & Hlen).
      unfold pendingBytes in Hpend at 2. cbn [readBuffer incoming written] in *.
      exists (take k buf1 ++ got). rewrite <- !app_assoc.
      split; [done|]. split.
      { rewrite Hpend, app_assoc, take_drop. done. }
      split; [done|].
      assert (Hk : Z.of_nat k = Z.of_nat (length buf1) `min` (size - read_))
        by (unfold k; lia).
      assert (length (take k buf1) = k) by (rewrite length_take; lia).
      rewrite length_app.
      destruct ok; [lia|]. destruct Hlen. split; [lia|done]. }
    destruct buf as [|b buf]; cbn [length].
    + change (Z.of_nat 0 =? 0) with true. cbv iota.
      unfold waitForReadyRead. cbn [incoming readBuffer written].
      destruct inc as [|[delay chunk] inc].
      { cbn. intros [= <- <- <-]. exists []. rewrite app_nil_r.
        repeat split; simpl; lia. }
      destruct (delay <=? 1000).
      * cbn [negb app]. unfold read, bytesAvailable. cbn [readBuffer incoming written].
        intros Hrun. apply Hstep in Hrun. exact Hrun.
      * cbn. intros [= <- <- <-]. exists []. rewrite app_nil_r.
        repeat split; simpl; lia.
    + destruct (Z.eqb_spec (Z.of_nat (S (length buf))) 0); [lia|].
      cbn [negb]. unfold read, bytesAvailable. cbn [readBuffer incoming written].
      intros Hrun. apply (Hstep (b :: buf) inc) in Hrun. exact Hrun.
Qed.

Lemma readBytes_returns (socket : QIODevice) (size : Z) :
  ∃ ok socket' bytes,
    readBytes socket size = Some (ok, socket', bytes)
    ∧ bytes ++ pendingBytes socket' = pendingBytes socket
    ∧ written socket' = written socket
    ∧ (if ok then Z.of_nat (length bytes) = Z.max 0 size
       else Z.of_nat (length bytes) < size ∧ readBuffer socket' = []).
Proof.
  destruct (readBytes_total socket size) as [[[ok socket'] bytes] Hrun].
  exists ok, socket', bytes. split; [done|].
  unfold readBytes in Hrun.
  apply readBytes_loop_conserves in Hrun as (got & Hout & Hpend & Hwr & Hlen).
  simpl in Hout. subst got. rewrite Z.sub_0_r in Hlen. done.
Qed.

Lemma length_put_quint32 n : length (put_quint32 n) = 4%nat.
Proof. reflexivity. Qed.

Lemma writeMessages_written (msgs : list QByteArray) : ∀ socket,
  Forall (λ msg, Z.of_nat (length msg) < uint_modulus) msgs →
  written (writeMessages socket msgs)
  = written socket
      ++ concat ((λ msg, put_quint32 (Z.of_nat (length msg)) ++ msg) <$> msgs).
Proof.
  induction msgs as [|msg msgs IH]; intros socket Hlen; simpl.
  - by rewrite app_nil_r.
  - apply Forall_cons in Hlen as [Hmsg Hlen].
    unfold writeMessages in *. simpl. rewrite IH by done.
    rewrite writeMessage_written by done. by rewrite <- !app_assoc.
Qed.

Lemma readMessages_frames (msgs : list QByteArray) : ∀ reader rest,
  Forall (λ msg, Z.of_nat (length msg) < uint_modulus) msgs →
  timely reader →
  pendingBytes reader
  = concat ((λ msg, put_quint32 (Z.of_nat (length msg)) ++ msg) <$> msgs) ++ rest →
  ∃ reader',
    readMessages (length msgs) reader = Some (msgs, reader')
    ∧ timely reader' ∧ pendingBytes reader' = rest.
Proof.
  induction msgs as [|msg msgs IH]; intros reader rest Hlen Htime Hpend.
  - exists reader. by repeat split.
  - apply Forall_cons in Hlen as [Hmsg Hlen].
    cbn [fmap list_fmap concat] in Hpend. rewrite <- app_assoc in Hpend.
    destruct (readMessage_frame reader msg _ Hmsg Htime Hpend) as (r1 & Hr1 & Ht1 & Hp1).
    destruct (IH r1 rest Hlen Ht1 Hp1) as (r2 & Hr2 & Ht2 & Hp2).
    exists r2. cbn [length readMessages]. rewrite Hr1, Hr2. done.
Qed.

End framing_more.

(** X1.  [readBytes] always returns, and the bytes it hands out followed by
    the bytes still pending on the device are exactly the bytes that were
    pending before the call; nothing written is touched.  When it returns
    true it hands out exactly [size] bytes (none for a size that is not
    positive); when it returns false it hands out fewer than [size] bytes
    and has emptied the read buffer. *)
Theorem readBytes_conserves (socket : QIODevice) (size : Z) :
  ∃ ok socket' bytes,
    ClientServer.readBytes socket size = Some (ok, socket', bytes)
    ∧ bytes ++ pendingBytes socket' = pendingBytes socket
    ∧ written socket' = written socket
    ∧ (if ok then Z.of_nat (length bytes) = Z.max 0 size
       else Z.of_nat (length bytes) < size ∧ readBuffer socket' = []).
Proof. apply readBytes_returns. Qed.

(** X2.  A truncated frame is never delivered: when the bytes a reader can
    obtain are a frame with something missing at its end (part of the
    length prefix, or part of the body), [readMessage] returns false,
    however the bytes are split and timed. *)
Theorem readMessage_truncated (reader : QIODevice) (b missing : QByteArray) :
  Z.of_nat (length b) < uint_modulus →
  missing ≠ [] →
  pendingBytes reader ++ missing = put_quint32 (Z.of_nat (length b)) ++ b →
  ∃ reader' msg, ClientServer.readMessage reader = Some (false, reader', msg).
Proof.
  intros Hlen Hmiss Hpend. unfold ClientServer.readMessage.
  destruct (readBytes_returns reader 4) as (ok1 & r1 & hdr & -> & Hp1 & _ & Hl1).
  destruct ok1; [|by eauto].
  rewrite <- Hp1, <- app_assoc in Hpend.
  apply app_inj_1 in Hpend as [-> Hbody]; [|rewrite length_put_quint32; lia].
  pose proof (get_put_quint32 (Z.of_nat (length b)) []) as Hget.
  rewrite app_nil_r in Hget. cbv zeta. rewrite Hget by lia.
  destruct (readBytes_returns r1 (Z.of_nat (length b)))
    as (ok2 & r2 & msg & -> & Hp2 & _ & Hl2).
  destruct ok2; [|by eauto].
  exfalso.
  assert (length missing ≠ 0%nat) by (by destruct missing).
  apply (f_equal length) in Hbody, Hp2. rewrite !length_app in *. lia.
Qed.

(** A frame for "hi" that lacks its last byte, and a length prefix cut
    after two bytes. *)
Lemma readMessage_truncated_witness :
  (∃ reader' msg,
     ClientServer.readMessage
       (mkDevice ["000"; "000"]%byte [(5, ["000"; "002"; "h"]%byte)] [])
     = Some (false, reader', msg))
  ∧ (∃ reader' msg,
       ClientServer.readMessage (mkDevice ["000"; "000"]%byte [] [])
       = Some (false, reader', msg)).
Proof.
  split.
  - apply (readMessage_truncated _ ["h"; "i"]%byte ["i"]%byte); [|done|reflexivity].
    unfold uint_modulus. simpl. lia.
  - apply (readMessage_truncated _ [] ["000"; "000"]%byte); [|done|reflexivity].
    unfold uint_modulus. simpl. lia.
Defined.

(** X3.  Messages arrive whole and in the order they were sent: after any
    run of [writeMessage] calls, a reader fed with the bytes the run added
    (in chunks that arrive within the poll timeout) gets from as many
    [readMessage] calls exactly the messages written, in order, and
    nothing is left over. *)
Theorem messages_in_order (msgs : list QByteArray) (writer reader : QIODevice) :
  Forall (λ msg, Z.of_nat (length msg) < uint_modulus) msgs →
  timely reader →
  written (writeMessages writer msgs) = written writer ++ pendingBytes reader →
  ∃ reader',
    readMessages (length msgs) reader = Some (msgs, reader')
    ∧ pendingBytes reader' = [].
Proof.
  intros Hlen Htime Hw.
  rewrite writeMessages_written in Hw by done. apply app_inv_head in Hw.
  destruct (readMessages_frames msgs reader [] Hlen Htime) as (r & Hr & _ & Hp).
  - by rewrite app_nil_r.
  - by exists r.
Qed.

(** The messages "hi", the empty message and "x", read from one chunk that
    holds all three frames. *)
Lemma messages_in_order_witness :
  let msgs := [["h"; "i"]; []; ["x"]]%byte in
  let frames :=
    ["000"; "000"; "000"; "002"; "h"; "i"; "000"; "000"; "000"; "000";
     "000"; "000"; "000"; "001"; "x"]%byte in
  ∃ reader',
    readMessages 3 (mkDevice [] [(10, frames)] []) = Some (msgs, reader')
    ∧ pendingBytes reader' = [].
Proof.
  intros msgs frames.
  apply (messages_in_order msgs (mkDevice [] [] []) (mkDevice [] [(10, frames)] [])).
  - unfold uint_modulus. repeat constructor; simpl; lia.
  - unfold timely; simpl. repeat constructor; simpl; lia.
  - reflexivity.
Defined.

(** ** More on the list model: rows inserted and removed, row numbers,
    moves *)

Section rows.
Context {A : Type}.
Implicit Types l : list A.

Lemma iter_delete (k p : nat) l :
  (p + k ≤ length l)%nat →
  Nat.iter k (delete p) l = take p l ++ drop (p + k) l.
Proof.
  induction k as [|k IH]; intros Hk.
  - simpl. by rewrite Nat.add_0_r, take_drop.
  - rewrite Nat.iter_succ, IH by lia.
    rewrite delete_take_drop.
    rewrite take_app_length' by (rewrite length_take; lia).
    rewrite drop_app_ge by (rewrite length_take; lia).
    rewrite length_take, drop_drop. do 2 f_equal. lia.
Qed.

Lemma iter_QList_insert (k : nat) (position : Z) (x : A) l :
  Nat.iter k (QList_insert position x) l
  = take (Z.to_nat position) l ++ replicate k x ++ drop (Z.to_nat position) l.
Proof.
  induction k as [|k IH].
  - simpl. by rewrite take_drop.
  - rewrite Nat.iter_succ, IH. unfold QList_insert.
    set (p := Z.to_nat position).
    destruct (Nat.le_gt_cases p (length l)) as [Hp|Hp].
    + rewrite take_app_length' by (rewrite length_take; lia).
      rewrite drop_app_length' by (rewrite length_take; lia). done.
    + rewrite (take_ge l p), (drop_ge l p) by lia. rewrite !app_nil_r.
      rewrite take_app_ge, drop_app_ge by lia.
      rewrite take_replicate, drop_replicate, <- !app_assoc. f_equal.
      rewrite replicate_cons_app, app_assoc, <- replicate_add, <- replicate_S_end.
      f_equal. lia.
Qed.

Lemma QList_move_perm (from to : nat) l : QList_move from to l ≡ₚ l.
Proof.
  unfold QList_move. destruct (l !! from) as [x|] eqn:Hx; [|done].
  rewrite <- Permutation_middle, take_drop. symmetry. by apply delete_Permutation.
Qed.

Lemma QList_move_spec (from to : nat) l x :
  l !! from = Some x →
  (to < length l)%nat →
  QList_move from to l !! to = Some x
  ∧ delete to (QList_move from to l) = delete from l
  ∧ length (QList_move from to l) = length l.
Proof.
  intros Hx Hto. unfold QList_move. rewrite Hx.
  assert (Hfrom : (from < length l)%nat) by (by eapply lookup_lt_Some).
  assert (Hlen : length (take to (delete from l)) = to).
  { rewrite length_take, length_delete by eauto. lia. }
  split; [|split].
  - by apply list_lookup_middle.
  - rewrite <- Hlen at 1. by rewrite delete_middle, take_drop.
  - rewrite length_app. cbn [length]. rewrite length_take, length_drop.
    rewrite length_delete by eauto. lia.
Qed.

End rows.

Lemma removeRows_eval (position rows : Z) (h : ClipboardModel) :
  let items := m_clipboardList h in
  let n := Z.of_nat (length items) in
  ClipboardModel.removeRows position rows h =
    if position >=? n then (false, h)
    else if position <? 0 then ClipboardModel.removeRows position rows h
    else
      let k := Z.to_nat (Z.min rows (n - position)) in
      (true, ClipboardModel.with_list h
               (take (Z.to_nat position) items ++ drop (Z.to_nat position + k) items)).
Proof.
  cbv zeta. unfold ClipboardModel.removeRows, ClipboardModel.rowCount.
  destruct (Z.geb_spec position (Z.of_nat (length (m_clipboardList h)))); [done|].
  destruct (Z.ltb_spec position 0); [done|].
  rewrite iter_delete by lia. do 4 f_equal. lia.
Qed.

(** The row [move] takes and the row it puts it at are rows of the list
    whenever the list is not empty. *)
Lemma getRowNumber_range (h : ClipboardModel) (row : Z) (cycle : bool) :
  let n := Z.of_nat (length (m_clipboardList h)) in
  let r := ClipboardModel.getRowNumber h row cycle in
  if n =? 0 then r = -1
  else 0 ≤ r < n
       ∧ (0 ≤ row < n → r = row)
       ∧ (row < 0 → r = if cycle then n - 1 else 0)
       ∧ (n ≤ row → r = if cycle then 0 else n - 1).
Proof.
  cbv zeta. unfold ClipboardModel.getRowNumber, ClipboardModel.rowCount.
  destruct (Z.eqb_spec (Z.of_nat (length (m_clipboardList h))) 0); [done|].
  destruct (Z.geb_spec row (Z.of_nat (length (m_clipboardList h))));
    destruct (Z.ltb_spec row 0); destruct cycle; lia.
Qed.

(** [move] in closed form: it fails on an empty list and when the row taken
    is the row it would be put at; otherwise it is [QList::move]. *)
Lemma move_eval (pos newpos : Z) (h : ClipboardModel) :
  let n := Z.of_nat (length (m_clipboardList h)) in
  let from := ClipboardModel.getRowNumber h pos true in
  let to := ClipboardModel.getRowNumber h newpos true in
  ClipboardModel.move pos newpos h =
    if (n =? 0) || (from =? to) then (false, h)
    else (true, ClipboardModel.with_list h
                  (QList_move (Z.to_nat from) (Z.to_nat to) (m_clipboardList h))).
Proof.
  cbv zeta. unfold ClipboardModel.move, beginMoveRows.
  pose proof (getRowNumber_range h pos true) as Hf.
  pose proof (getRowNumber_range h newpos true) as Ht. cbv zeta in Hf, Ht.
  set (from := ClipboardModel.getRowNumber h pos true) in *.
  set (to := ClipboardModel.getRowNumber h newpos true) in *.
  destruct (Z.eqb_spec (Z.of_nat (length (m_clipboardList h))) 0) as [Hn|Hn].
  - rewrite Hf. done.
  - destruct Hf as [Hf _], Ht as [Ht _].
    destruct (Z.eqb_spec from (-1)); [lia|]. destruct (Z.eqb_spec to (-1)); [lia|].
    cbn [orb].
    destruct (Z.eqb_spec from to) as [->|Hne].
    + destruct (Z.ltb_spec to to); [lia|].
      destruct (Z.leb_spec to to); [|lia]. destruct (Z.leb_spec to (to + 1)); [|lia].
      done.
    + destruct (Z.ltb_spec from to).
      * destruct (Z.leb_spec (to + 1) (from + 1)); [lia|]. by rewrite andb_false_r.
      * destruct (Z.leb_spec from to); [lia|]. done.
Qed.

Lemma move_perm (pos newpos : Z) (h : ClipboardModel) :
  m_clipboardList (ClipboardModel.move pos newpos h).2 ≡ₚ m_clipboardList h
  ∧ m_max (ClipboardModel.move pos newpos h).2 = m_max h
  ∧ ((ClipboardModel.move pos newpos h).1 = false →
     (ClipboardModel.move pos newpos h).2 = h).
Proof.
  rewrite move_eval. cbv zeta. destruct (_ || _); [done|].
  cbn [snd fst ClipboardModel.with_list m_clipboardList m_max].
  split; [apply QList_move_perm|done].
Qed.



(** X5.  [insertRows] never fails: it puts [rows] new empty items at
    [position] (at the front for a position that is not positive, at the
    end for one past the end), keeps the items it had in their order, and
    the list grows by [rows] (by nothing for a count that is not
    positive). *)
Theorem insertRows_grows (position rows : Z) (h : ClipboardModel) :
  let items := m_clipboardList h in
  ClipboardModel.insertRows position rows h
  = (true, ClipboardModel.with_list h
             (take (Z.to_nat position) items
                ++ replicate (Z.to_nat rows) newClipboardItem
                ++ drop (Z.to_nat position) items))
  ∧ Z.of_nat (length (m_clipboardList (ClipboardModel.insertRows position rows h).2))
    = Z.of_nat (length items) + Z.max 0 rows.
Proof.
  cbv zeta. unfold ClipboardModel.insertRows. rewrite iter_QList_insert.
  split; [done|].
  cbn [snd ClipboardModel.with_list m_clipboardList].
  rewrite !length_app, length_take, length_replicate, length_drop. lia.
Qed.

(** X6.  [getRowNumber] on a list that is not empty always returns one of
    its rows: a row of the list is returned as it is; without [cycle] a
    row outside is clamped to the nearest end; with [cycle] a negative row
    becomes the last row and a row past the end becomes row 0.  On an empty
    list it returns -1. *)
Theorem getRowNumber_valid (h : ClipboardModel) (row : Z) (cycle : bool) :
  let n := Z.of_nat (length (m_clipboardList h)) in
  let r := ClipboardModel.getRowNumber h row cycle in
  if n =? 0 then r = -1
  else 0 ≤ r < n
       ∧ (0 ≤ row < n → r = row)
       ∧ (cycle = false → r = Z.max 0 (Z.min row (n - 1)))
       ∧ (cycle = true → row < 0 → r = n - 1)
       ∧ (cycle = true → n ≤ row → r = 0).
Proof.
  pose proof (getRowNumber_range h row cycle) as Hr. cbv zeta in *.
  destruct (Z.of_nat (length (m_clipboardList h)) =? 0); [done|].
  destruct Hr as (H1 & H2 & H3 & H4). split; [done|]. split; [done|].
  split; [|split].
  - intros ->.
    destruct (Z.lt_ge_cases row 0); [rewrite H3 by done; lia|].
    destruct (Z.lt_ge_cases row (Z.of_nat (length (m_clipboardList h))));
      [rewrite H2 by lia; lia|rewrite H4 by done; lia].
  - intros -> Hrow. by apply H3.
  - intros -> Hrow. by apply H4.
Qed.

(** Row numbers on the three items D, C, B. *)
Lemma getRowNumber_valid_witness :
  let h := mkModel [mkItem Sample.D; mkItem Sample.C; mkItem Sample.B] 9 in
  ClipboardModel.getRowNumber h 1 true = 1
  ∧ ClipboardModel.getRowNumber h 7 false = 2
  ∧ ClipboardModel.getRowNumber h (-2) true = 2
  ∧ ClipboardModel.getRowNumber h 3 true = 0.
Proof.
  intros h.
  pose proof (getRowNumber_valid h 1 true) as H1.
  pose proof (getRowNumber_valid h 7 false) as H2.
  pose proof (getRowNumber_valid h (-2) true) as H3.
  pose proof (getRowNumber_valid h 3 true) as H4.
  cbv zeta in H1, H2, H3, H4.
  change (Z.of_nat (length (m_clipboardList h)) =? 0) with false in H1, H2, H3, H4.
  destruct H1 as (_ & H1 & _), H2 as (_ & _ & H2 & _), H3 as (_ & _ & _ & H3 & _),
    H4 as (_ & _ & _ & _ & H4).
  split; [apply H1; simpl; lia|]. split; [rewrite H2 by done; reflexivity|].
  split; [rewrite H3 by (done || lia); reflexivity|]. apply H4; [done|simpl; lia].
Defined.

(** X7.  [move(pos, newpos)], with both rows taken through
    [getRowNumber(_, true)]: it returns false and changes nothing exactly
    when the list is empty or the two rows are the same row.  Otherwise it
    returns true, the item taken is at the target row, the other items
    keep their order, and the list has the same items and the same
    length. *)
Theorem move_relocates (pos newpos : Z) (h : ClipboardModel) :
  let items := m_clipboardList h in
  let from := ClipboardModel.getRowNumber h pos true in
  let to := ClipboardModel.getRowNumber h newpos true in
  let result := ClipboardModel.move pos newpos h in
  (result.1 = false ↔ items = [] ∨ from = to)
  ∧ (result.1 = false → result.2 = h)
  ∧ m_max result.2 = m_max h
  ∧ m_clipboardList result.2 ≡ₚ items
  ∧ (result.1 = true →
     m_clipboardList result.2 !! Z.to_nat to = items !! Z.to_nat from
     ∧ delete (Z.to_nat to) (m_clipboardList result.2) = delete (Z.to_nat from) items).
Proof.
  cbv zeta.
  destruct (move_perm pos newpos h) as (Hperm & Hmax & Hfalse).
  split; [|split; [done|split; [done|split; [done|]]]].
  - rewrite move_eval. cbv zeta.
    destruct (Z.eqb_spec (Z.of_nat (length (m_clipboardList h))) 0) as [Hn|Hn]; cbn [orb].
    + split; [|done]. intros _. left. apply length_zero_iff_nil. lia.
    + destruct (Z.eqb_spec (ClipboardModel.getRowNumber h pos true)
                  (ClipboardModel.getRowNumber h newpos true)) as [Heq|Hne]; cbn [fst].
      * split; [by right|done].
      * split; [done|]. intros [Hnil|?]; [|done]. rewrite Hnil in Hn. done.
  - rewrite move_eval. cbv zeta.
    pose proof (getRowNumber_range h pos true) as Hf.
    pose proof (getRowNumber_range h newpos true) as Ht. cbv zeta in Hf, Ht.
    destruct (Z.eqb_spec (Z.of_nat (length (m_clipboardList h))) 0) as [Hn|Hn];
      cbn [orb]; [done|].
    destruct (_ =? _); [done|]. intros _.
    cbn [snd ClipboardModel.with_list m_clipboardList].
    destruct Hf as [Hf _], Ht as [Ht _].
    destruct (lookup_lt_is_Some_2 (m_clipboardList h)
                (Z.to_nat (ClipboardModel.getRowNumber h pos true))) as [x Hx]; [lia|].
    destruct (QList_move_spec (Z.to_nat (ClipboardModel.getRowNumber h pos true))
                (Z.to_nat (ClipboardModel.getRowNumber h newpos true))
                (m_clipboardList h) x Hx) as (Hat & Hdel & _); [lia|].
    by rewrite Hat, Hx.
Qed.

(** Moving row 0 of D, C, B to row 2, and onto itself. *)
Lemma move_relocates_witness :
  let h := mkModel [mkItem Sample.D; mkItem Sample.C; mkItem Sample.B] 9 in
  (ClipboardModel.move 1 1 h).2 = h
  ∧ m_clipboardList (ClipboardModel.move 0 2 h).2 !! 2%nat = Some (mkItem Sample.D)
  ∧ delete 2%nat (m_clipboardList (ClipboardModel.move 0 2 h).2)
    = [mkItem Sample.C; mkItem Sample.B].
Proof.
  intros h.
  destruct (move_relocates 1 1 h) as (Hiff & Hsame & _).
  destruct (move_relocates 0 2 h) as (_ & _ & _ & _ & Hmoved).
  cbv zeta in *. split.
  - apply Hsame, Hiff. by right.
  - destruct Hmoved as [Hat Hdel]; [reflexivity|]. split; [exact Hat|exact Hdel].
Defined.

Lemma moveItems_loop_perm (key : Key) (list_ : list Z) : ∀ (i d : Z) (res : bool)
    (h : ClipboardModel),
  m_clipboardList (ClipboardModel.moveItems_loop key list_ i d res h).2
    ≡ₚ m_clipboardList h
  ∧ m_max (ClipboardModel.moveItems_loop key list_ i d res h).2 = m_max h.
Proof.
  induction list_ as [|row list_ IH]; intros i d res h; [done|].
  cbn [ClipboardModel.moveItems_loop]. cbv zeta.
  set (to := match key with
             | Key_Down => _ | Key_Up => _ | Key_End => _ | Key_Home => _
             end).
  destruct (move_perm (row + d) to h) as (Hperm & Hmax & _).
  destruct (ClipboardModel.move (row + d) to h) as [moved h'].
  cbn [snd] in Hperm, Hmax.
  destruct moved; cbn [negb]; [|done].
  destruct (IH (i + 1)
              (if to <? 0 then d - 1
               else if to >=? ClipboardModel.rowCount h then d + 1 else d)
              (if res then res
               else (to =? 0) || (row + d =? 0) || (to =? ClipboardModel.rowCount h'))
              h') as [IHp IHm].
  split; [by rewrite IHp|by rewrite IHm].
Qed.

(** X8.  [moveItems] never loses or duplicates an item: whatever the
    selection, the key and the order [qSort] gives the rows, the list
    afterwards has the same items and the same length, also when the call
    returns false after some of the moves. *)
Theorem moveItems_keeps_items {Qt : QtApi} (indexList : list Z) (key : Key)
    (h : ClipboardModel) :
  m_clipboardList (ClipboardModel.moveItems indexList key h).2 ≡ₚ m_clipboardList h
  ∧ length (m_clipboardList (ClipboardModel.moveItems indexList key h).2)
    = length (m_clipboardList h)
  ∧ m_max (ClipboardModel.moveItems indexList key h).2 = m_max h.
Proof.
  unfold ClipboardModel.moveItems. cbv zeta.
  destruct (moveItems_loop_perm key
              (match key with
               | Key_Down | Key_End => qSort Z.gtb indexList
               | _ => qSort Z.ltb indexList
               end) 0 0 false h) as [Hperm Hmax].
  split; [done|]. split; [by rewrite Hperm|done].
Qed.

(** X9.  A selection that already touches the end it is sent to does not
    move at all: with the Home key, when the lowest selected row is row 0,
    and with the End key, when the highest selected row is the last row,
    the first [move] is refused, so [moveItems] returns false and leaves
    every item, selected or not, where it was. *)
Theorem moveItems_blocked {Qt : QtApi} (indexList rest : list Z) (h : ClipboardModel) :
  (qSort Z.ltb indexList = 0 :: rest →
   ClipboardModel.moveItems indexList Key_Home h = (false, h))
  ∧ (qSort Z.gtb indexList = (ClipboardModel.rowCount h - 1) :: rest →
     ClipboardModel.moveItems indexList Key_End h = (false, h)).
Proof.
  unfold ClipboardModel.moveItems. cbv zeta. split; intros ->;
    cbn [ClipboardModel.moveItems_loop]; cbv zeta.
  - change (0 + 0) with 0.
    pose proof (move_eval 0 0 h) as Hmove. cbv zeta in Hmove.
    rewrite Z.eqb_refl, orb_true_r in Hmove. by rewrite Hmove.
  - rewrite Z.add_0_r, Z.sub_0_r.
    pose proof (move_eval (ClipboardModel.rowCount h - 1) (ClipboardModel.rowCount h - 1) h)
      as Hmove. cbv zeta in Hmove.
    rewrite Z.eqb_refl, orb_true_r in Hmove. by rewrite Hmove.
Qed.

(** Rows 2 and 0 of D, C, B sent to the front, and rows 0 and 2 sent to
    the end, with Qt 4's [qSort]: nothing moves. *)
Lemma moveItems_blocked_witness :
  let h := mkModel [mkItem Sample.D; mkItem Sample.C; mkItem Sample.B] 9 in
  @ClipboardModel.moveItems Qt4.api [2; 0] Key_Home h = (false, h)
  ∧ @ClipboardModel.moveItems Qt4.api [0; 2] Key_End h = (false, h).
Proof.
  intros h. split.
  - apply (proj1 (moveItems_blocked (Qt := Qt4.api) [2; 0] [2] h)). reflexivity.
  - apply (proj2 (moveItems_blocked (Qt := Qt4.api) [0; 2] [0] h)). reflexivity.
Defined.

(** X10.  [moveItems] with one selected row of a list of two items or
    more: Down and Up move the item to the next or the previous row and
    wrap around at the ends (Down on the last row puts it in row 0, Up on
    row 0 puts it in the last row); Home and End move it to row 0 and to
    the last row, and are refused (false, no change) when it is there
    already.  When the item moves, the result is true exactly when the move
    takes the item out of row 0 or puts it there, that is, when row 0 gets
    another item. *)
Theorem moveItems_single {Qt : QtApi} (row : Z) (key : Key) (h : ClipboardModel) :
  (∀ lessThan : Z → Z → bool, qSort lessThan [row] = [row]) →
  let items := m_clipboardList h in
  let n := Z.of_nat (length items) in
  0 ≤ row < n →
  2 ≤ n →
  let target :=
    match key with
    | Key_Down => if row =? n - 1 then 0 else row + 1
    | Key_Up => if row =? 0 then n - 1 else row - 1
    | Key_End => n - 1
    | Key_Home => 0
    end in
  ClipboardModel.moveItems [row] key h =
    if row =? target then (false, h)
    else (bool_decide (row = 0 ∨ target = 0),
          ClipboardModel.with_list h (QList_move (Z.to_nat row) (Z.to_nat target) items)).
Proof.
  intros Hsort items n Hrow Hn target.
  unfold ClipboardModel.moveItems. cbv zeta.
  assert (Hlist : match key with
                  | Key_Down | Key_End => qSort Z.gtb [row]
                  | _ => qSort Z.ltb [row]
                  end = [row]) by (destruct key; apply Hsort).
  rewrite Hlist. cbn [ClipboardModel.moveItems_loop]. cbv zeta.
  rewrite Z.add_0_r, Z.sub_0_r, Z.add_0_l.
  set (to := match key with
             | Key_Down => row + 1 | Key_Up => row - 1
             | Key_End => ClipboardModel.rowCount h - 1 | Key_Home => 0
             end).
  assert (Hcount : ClipboardModel.rowCount h = n) by done.
  pose proof (getRowNumber_range h row true) as Hf.
  pose proof (getRowNumber_range h to true) as Ht. cbv zeta in Hf, Ht.
  fold items in Hf, Ht. fold n in Hf, Ht.
  destruct (Z.eqb_spec n 0) as [|_]; [lia|].
  destruct Hf as (_ & Hf & _). specialize (Hf Hrow).
  destruct Ht as (_ & Ht1 & Ht2 & Ht3).
  assert (Hto : ClipboardModel.getRowNumber h to true = target).
  { unfold to, target. rewrite Hcount. destruct key.
    - destruct (Z.eqb_spec row (n - 1)) as [->|]; [apply Ht3|apply Ht1];
        unfold to; lia.
    - destruct (Z.eqb_spec row 0) as [->|]; [apply Ht2|apply Ht1]; unfold to; lia.
    - apply Ht1. unfold to. rewrite Hcount. lia.
    - apply Ht1. unfold to. lia. }
  assert (Htarget : 0 ≤ target < n).
  { unfold target. destruct key; repeat case_match; lia. }
  rewrite move_eval. cbv zeta. fold items. fold n. rewrite Hf, Hto.
  destruct (Z.eqb_spec n 0) as [|_]; [lia|]. cbn [orb].
  destruct (Z.eqb_spec row target) as [Heq|Hne]; [done|].
  cbn [negb]. f_equal.
  destruct (lookup_lt_is_Some_2 items (Z.to_nat row)) as [x Hx]; [unfold n in *; lia|].
  destruct (QList_move_spec (Z.to_nat row) (Z.to_nat target) items x Hx)
    as (_ & _ & Hlen); [unfold n in *; lia|].
  unfold ClipboardModel.rowCount, ClipboardModel.with_list. cbn [m_clipboardList].
  rewrite Hlen. fold n.
  destruct (bool_decide_reflect (row = 0 ∨ target = 0)) as [Hd|Hd];
    destruct (Z.eqb_spec to 0), (Z.eqb_spec row 0), (Z.eqb_spec to n);
    cbn [orb]; try done; exfalso.
  all: revert Hd Hne; unfold to, target in *; rewrite ?Hcount in *; destruct key;
    repeat case_match; lia.
Qed.

(** One selected row of D, C, B with Qt 4's [qSort]: Down on the last row
    wraps it to the front and reports true; Down on row 1 moves it to row 2
    and reports false. *)
Lemma moveItems_single_witness :
  let h := mkModel [mkItem Sample.D; mkItem Sample.C; mkItem Sample.B] 9 in
  @ClipboardModel.moveItems Qt4.api [2] Key_Down h
  = (true, mkModel [mkItem Sample.B; mkItem Sample.D; mkItem Sample.C] 9)
  ∧ @ClipboardModel.moveItems Qt4.api [1] Key_Down h
    = (false, mkModel [mkItem Sample.D; mkItem Sample.B; mkItem Sample.C] 9).
Proof.
  intros h. split.
  - rewrite (moveItems_single (Qt := Qt4.api) 2 Key_Down h);
      [reflexivity|done|simpl; lia|simpl; lia].
  - rewrite (moveItems_single (Qt := Qt4.api) 1 Key_Down h);
      [reflexivity|done|simpl; lia|simpl; lia].
Defined.

(** X11.  [setMaxItems] with a limit that is not negative keeps the first
    [max] rows and drops the ones after them, and the model's limit becomes
    [max]; a limit at or above the row count changes no row.  With a
    negative limit the cropping loop runs [takeLast] on a list it has
    already emptied. *)
Theorem setMaxItems_limit (max : Z) (h : ClipboardModel) :
  (0 ≤ max →
   ClipboardModel.setMaxItems max h
   = Some (mkModel (take (Z.to_nat max) (m_clipboardList h)) max))
  ∧ (Z.of_nat (length (m_clipboardList h)) ≤ max →
     ClipboardModel.setMaxItems max h = Some (mkModel (m_clipboardList h) max))
  ∧ (max < 0 → ClipboardModel.setMaxItems max h = None).
Proof.
  destruct (setMaxItems_crops max h) as [Hcrop Hneg].
  split; [done|]. split; [|done].
  intros Hmax. rewrite Hcrop by lia. by rewrite take_ge by lia.
Qed.

(** The limit 2 on the rows D, C, B, and a negative limit. *)
Lemma setMaxItems_limit_witness :
  let h := mkModel [mkItem Sample.D; mkItem Sample.C; mkItem Sample.B] 100 in
  ClipboardModel.setMaxItems 2 h = Some (mkModel [mkItem Sample.D; mkItem Sample.C] 2)
  ∧ ClipboardModel.setMaxItems 5 h = Some (mkModel (m_clipboardList h) 5)
  ∧ ClipboardModel.setMaxItems (-1) h = None.
Proof.
  intros h.
  destruct (setMaxItems_limit 2 h) as (H2 & _ & _).
  destruct (setMaxItems_limit 5 h) as (_ & H5 & _).
  destruct (setMaxItems_limit (-1) h) as (_ & _ & Hneg).
  split; [apply H2; lia|]. split; [apply H5; simpl; lia|apply Hneg; lia].
Defined.

(** ** More on the browser: insertion at any row, rejection, runs of
    insertions, selection by hash *)

Section adding.
Context {Qt : QtApi} {Items : ClipboardItemApi}.

Lemma removeRow_last_row (l : list ClipboardItem) (mx : Z) :
  l ≠ [] →
  ClipboardModel.removeRow (ClipboardModel.rowCount (mkModel l mx) - 1) (mkModel l mx)
  = (true, mkModel (take (length l - 1) l) mx).
Proof.
  destruct l as [|item l]; [done|]. intros _. rewrite removeRow_last.
  do 3 f_equal. cbn [length]. lia.
Qed.

(** The model part of [add] at any row. *)
Lemma insert_row_model (model : ClipboardModel) (data : QMimeData) (row max : Z) :
  let items := m_clipboardList model in
  let p := Z.to_nat (Z.max 0 (Z.min row (Z.of_nat (length items)))) in
  let inserted := take p items ++ mkItem data :: drop p items in
  let newRow := Z.max 0 (Z.min row (ClipboardModel.rowCount model)) in
  let model1 := (ClipboardModel.insertRow newRow model).2 in
  let model2 := (ClipboardModel.setData newRow data model1).2 in
  let model3 :=
    if ClipboardModel.rowCount model2 >? max
    then (ClipboardModel.removeRow (ClipboardModel.rowCount model2 - 1) model2).2
    else model2 in
  model3 = mkModel (if Z.of_nat (length items) + 1 >? max
                    then take (length items) inserted else inserted)
                   (m_max model).
Proof.
  destruct model as [l mx]. cbv zeta. cbn [m_clipboardList m_max].
  change (ClipboardModel.rowCount (mkModel l mx)) with (Z.of_nat (length l)).
  set (newRow := Z.max 0 (Z.min row (Z.of_nat (length l)))).
  set (p := Z.to_nat newRow).
  assert (Hp : (p ≤ length l)%nat) by (unfold p, newRow; lia).
  assert (Hins : ClipboardModel.insertRow newRow (mkModel l mx)
                 = (true, mkModel (take p l ++ newClipboardItem :: drop p l) mx)).
  { unfold ClipboardModel.insertRow, ClipboardModel.insertRows, ClipboardModel.with_list.
    cbn [m_clipboardList m_max]. change (Z.to_nat 1) with 1%nat.
    by rewrite iter_QList_insert. }
  rewrite Hins. cbn [snd].
  assert (Hlen : length (take p l ++ newClipboardItem :: drop p l) = S (length l)).
  { rewrite length_app. cbn [length]. rewrite length_take, length_drop. lia. }
  assert (Hset : ClipboardModel.setData newRow data
                   (mkModel (take p l ++ newClipboardItem :: drop p l) mx)
                 = (true, mkModel (take p l ++ mkItem data :: drop p l) mx)).
  { unfold ClipboardModel.setData, ClipboardModel.rowCount, ClipboardModel.with_list.
    cbn [m_clipboardList m_max]. rewrite Hlen.
    destruct (Z.leb_spec 0 newRow); [|unfold newRow in *; lia].
    destruct (Z.ltb_spec newRow (Z.of_nat (S (length l)))); [|unfold newRow in *; lia].
    cbn [andb]. do 2 f_equal. fold p.
    rewrite alter_app_r_alt by (rewrite length_take; lia).
    rewrite length_take. replace (p - p `min` length l)%nat with 0%nat by lia.
    done. }
  rewrite Hset. cbn [snd].
  assert (Hlen' : length (take p l ++ mkItem data :: drop p l) = S (length l)).
  { rewrite length_app. cbn [length]. rewrite length_take, length_drop. lia. }
  rewrite removeRow_last_row by (by destruct (take p l)).
  unfold ClipboardModel.rowCount. cbn [m_clipboardList snd]. rewrite Hlen'.
  replace (Z.of_nat (S (length l))) with (Z.of_nat (length l) + 1) by lia.
  destruct (_ >? max); [|done].
  do 2 f_equal. lia.
Qed.

(** What one call of [add] does to the history, at any row. *)
Lemma add_step (data : QMimeData) (force : bool) (row : Z) (c : ClipboardBrowser) :
  let items := history c in
  let p := Z.to_nat (Z.max 0 (Z.min row (Z.of_nat (length items)))) in
  let inserted := take p items ++ mkItem data :: drop p items in
  let r := ClipboardBrowser.add data force row c in
  m_sharedData r.2 = m_sharedData c
  ∧ m_id r.2 = m_id c
  ∧ m r.2 =
      if r.1 then
        mkModel (if Z.of_nat (length items) + 1 >? maxItems (m_sharedData c)
                 then take (length items) inserted else inserted)
                (m_max (m c))
      else m c.
Proof.
  cbv zeta. unfold ClipboardBrowser.add, history.
  destruct (negb force && _ && _); [done|].
  destruct (if negb force && hasText data then _ else _) as [signals ignored].
  destruct ignored; [done|].
  cbn [fst snd ClipboardBrowser.with_model ClipboardBrowser.emit m m_sharedData m_id].
  pose proof (insert_row_model (m c) data row (maxItems (m_sharedData c))) as Hm.
  cbv zeta in Hm. by rewrite Hm.
Qed.

(** The commands can stop an insertion only through a command that has
    [ignore] set and matches the text and the window title. *)
Lemma runCommands_ignored (cs : list Command) (id : QString) (data : QMimeData)
    (text_ windowTitle : QString) :
  (ClipboardBrowser.runCommands cs id data text_ windowTitle).2 = true →
  ∃ cmd, cmd ∈ cs ∧ ignore cmd = true ∧ re cmd text_ ≠ -1
         ∧ (isNull windowTitle = true ∨ wndre cmd windowTitle ≠ -1).
Proof.
  induction cs as [|cmd cs IH]; cbn [ClipboardBrowser.runCommands]; [done|].
  destruct (_ && _ && _) eqn:Hmatch.
  - destruct (ignore cmd) eqn:Hign.
    + intros _. exists cmd. split; [left|]. split; [done|].
      apply andb_true_iff in Hmatch as [Hmatch Hwnd].
      apply andb_true_iff in Hmatch as [_ Hre].
      apply negb_true_iff, Z.eqb_neq in Hre. split; [done|].
      apply orb_true_iff in Hwnd as [?|Hw]; [by left|right].
      by apply negb_true_iff, Z.eqb_neq in Hw.
    + destruct (ClipboardBrowser.runCommands cs id data text_ windowTitle)
        as [s ignored]. cbn [snd] in *. intros Hi.
      destruct (IH Hi) as (cmd' & ? & ?). exists cmd'. split; [by right|done].
  - intros Hi. destruct (IH Hi) as (cmd' & ? & ?). exists cmd'. split; [by right|done].
Qed.


End adding.

(** X12.  A forced [add] at any row always returns true.  The new item goes
    to the given row, or to the nearest end when the row is outside the
    list, and the other items keep their order; if the list then has more
    than [maxItems] items its last row is removed.  So adding at the end of
    a history that is already full returns true and leaves the history as
    it was: the row removed is the new item. *)
Theorem add_at_row {Qt : QtApi} {Items : ClipboardItemApi}
    (data : QMimeData) (row : Z) (c : ClipboardBrowser) :
  let items := history c in
  let n := Z.of_nat (length items) in
  let p := Z.to_nat (Z.max 0 (Z.min row n)) in
  let inserted := take p items ++ mkItem data :: drop p items in
  let result := ClipboardBrowser.add data true row c in
  result.1 = true
  ∧ history result.2 =
      (if n + 1 >? maxItems (m_sharedData c) then take (length items) inserted
       else inserted)
  ∧ (n ≤ row → maxItems (m_sharedData c) ≤ n → history result.2 = items).
Proof.
  cbv zeta.
  destruct (add_step data true row c) as (_ & _ & Hm). cbv zeta in Hm.
  assert (Hr : (ClipboardBrowser.add data true row c).1 = true).
  { unfold ClipboardBrowser.add. by cbn. }
  rewrite Hr in Hm. split; [done|].
  assert (Hh : history (ClipboardBrowser.add data true row c).2
    = if Z.of_nat (length (history c)) + 1 >? maxItems (m_sharedData c)
      then take (length (history c))
             (take (Z.to_nat (0 `max` (row `min` Z.of_nat (length (history c)))))
                (history c)
              ++ mkItem data
                 :: drop (Z.to_nat (0 `max` (row `min` Z.of_nat (length (history c)))))
                      (history c))
      else take (Z.to_nat (0 `max` (row `min` Z.of_nat (length (history c)))))
             (history c)
           ++ mkItem data
              :: drop (Z.to_nat (0 `max` (row `min` Z.of_nat (length (history c)))))
                   (history c)).
  { unfold history at 1. by rewrite Hm. }
  split; [done|].
  intros Hrow Hfull. rewrite Hh.
  destruct (Z.gtb_spec (Z.of_nat (length (history c)) + 1) (maxItems (m_sharedData c)));
    [|lia].
  replace (Z.to_nat _) with (length (history c)) by lia.
  rewrite (take_ge (history c)), drop_all by lia. by rewrite take_app_length.
Qed.

(** Adding "D" at the end of the full history C, B, A of capacity 3. *)
Lemma add_at_row_witness :
  let c := mkBrowser (mkModel [mkItem Sample.C; mkItem Sample.B; mkItem Sample.A] 100)
             "tab" (mkShared 3 []) [] in
  (@ClipboardBrowser.add Qt4.api Sample.items Sample.D true 3 c).1 = true
  ∧ history (@ClipboardBrowser.add Qt4.api Sample.items Sample.D true 3 c).2 = history c.
Proof.
  intros c.
  destruct (add_at_row (Qt := Qt4.api) (Items := Sample.items) Sample.D 3 c)
    as (Hok & _ & Hfull).
  split; [exact Hok|]. apply Hfull; simpl; lia.
Defined.

(** X13.  [add] returns false only for an unforced call, and only for one of
    two reasons: the first item compares equal to the bundle, or the bundle
    has text and a command with [ignore] set matches its text and its
    window title.  In both cases the history and the settings are as they
    were. *)
Theorem add_rejected {Qt : QtApi} {Items : ClipboardItemApi}
    (data : QMimeData) (force : bool) (row : Z) (c c' : ClipboardBrowser) :
  ClipboardBrowser.add data force row c = (false, c') →
  force = false
  ∧ m c' = m c
  ∧ m_sharedData c' = m_sharedData c
  ∧ ((∃ first, history c !! 0%nat = Some first ∧ item_eq_data first data = true)
     ∨ (hasText data = true
        ∧ ∃ cmd, cmd ∈ commands (m_sharedData c) ∧ ignore cmd = true
            ∧ re cmd (text data) ≠ -1
            ∧ let windowTitle :=
                fromUtf8 (MimeData.data data "application/x-copyq-owner-window-title") in
              isNull windowTitle = true ∨ wndre cmd windowTitle ≠ -1)).
Proof.
  intros Hadd.
  destruct (add_step data force row c) as (Hs & _ & Hm). cbv zeta in Hs, Hm.
  rewrite Hadd in Hs, Hm. cbn [fst snd] in Hs, Hm.
  unfold ClipboardBrowser.add in Hadd.
  destruct force; cbn [negb andb] in Hadd.
  { by destruct (ClipboardModel.insertRow _ _). }
  split; [done|]. split; [done|]. split; [done|].
  destruct (ClipboardModel.rowCount (m c) >? 0) eqn:Hcount; cbn [andb] in Hadd.
  - change (ClipboardModel.at_ (m c) 0) with (history c !! 0%nat) in Hadd.
    destruct (history c !! 0%nat) as [first|] eqn:Hfirst.
    + destruct (item_eq_data first data) eqn:Heq; [left; by exists first|].
      right. revert Hadd. destruct (hasText data) eqn:Htext.
      * pose proof (runCommands_ignored (commands (m_sharedData c)) (m_id c) data
                      (text data)
                      (fromUtf8 (MimeData.data data
                                   "application/x-copyq-owner-window-title"))) as Hign.
        destruct (ClipboardBrowser.runCommands _ _ _ _ _) as [signals ignored].
        destruct ignored; [|done]. intros _. split; [done|]. by apply Hign.
      * done.
    + right. revert Hadd. destruct (hasText data) eqn:Htext.
      * pose proof (runCommands_ignored (commands (m_sharedData c)) (m_id c) data
                      (text data)
                      (fromUtf8 (MimeData.data data
                                   "application/x-copyq-owner-window-title"))) as Hign.
        destruct (ClipboardBrowser.runCommands _ _ _ _ _) as [signals ignored].
        destruct ignored; [|done]. intros _. split; [done|]. by apply Hign.
      * done.
  - right. revert Hadd. destruct (hasText data) eqn:Htext.
    + pose proof (runCommands_ignored (commands (m_sharedData c)) (m_id c) data
                    (text data)
                    (fromUtf8 (MimeData.data data
                                 "application/x-copyq-owner-window-title"))) as Hign.
      destruct (ClipboardBrowser.runCommands _ _ _ _ _) as [signals ignored].
      destruct ignored; [|done]. intros _. split; [done|]. by apply Hign.
    + done.
Qed.

(** An unforced [add] of the text "A" into an empty history, with a command
    that ignores every text. *)
Lemma add_rejected_witness :
  let c := mkBrowser ClipboardModel.new "tab" (mkShared 3 [SampleMore.ignoreAll]) [] in
  @ClipboardBrowser.add Qt4.api Sample.items Sample.A false 0 c = (false, c)
  ∧ ∃ cmd, cmd ∈ commands (m_sharedData c) ∧ ignore cmd = true.
Proof.
  intros c.
  assert (Hadd : @ClipboardBrowser.add Qt4.api Sample.items Sample.A false 0 c
                 = (false, c)) by reflexivity.
  split; [exact Hadd|].
  destruct (add_rejected (Qt := Qt4.api) (Items := Sample.items) Sample.A false 0 c c Hadd)
    as (_ & _ & _ & [(first & Hfirst & _)|(_ & cmd & Hin & Hign & _)]).
  - discriminate Hfirst.
  - exists cmd. split; [exact Hin|exact Hign].
Defined.

(** X14.  Offering the same bundle again is rejected: after a forced
    insertion of a bundle at the front of a history with room for at least
    one item, an unforced insertion of that bundle returns false and
    changes nothing, provided an item compares equal to the bundle it
    holds. *)
Theorem insert_again_rejected {Qt : QtApi} {Items : ClipboardItemApi}
    (x : QMimeData) (h : ClipboardBrowser) :
  1 ≤ maxItems (m_sharedData h) →
  item_eq_data (mkItem x) x = true →
  let h' := (insertAtFront x true h).2 in
  history h' !! 0%nat = Some (mkItem x)
  ∧ insertAtFront x false h' = (false, h').
Proof.
  intros Hmax Heq h'.
  assert (Hfirst : history h' !! 0%nat = Some (mkItem x)).
  { destruct (insertAtFront_step h x true) as (_ & _ & Hh). cbv zeta in Hh.
    destruct (insertAtFront_force h x) as [Hr _]. rewrite Hr in Hh.
    unfold h'. rewrite Hh.
    destruct (Z.gtb_spec (Z.of_nat (length (history h)) + 1) (maxItems (m_sharedData h)));
      [|done].
    destruct (history h) as [|y l]; [simpl in *; lia|]. done. }
  split; [done|]. by apply (insertAtFront_same h' x (mkItem x)).
Qed.

(** The text "A" inserted twice into the history B of capacity 3. *)
Lemma insert_again_rejected_witness :
  let h := mkBrowser (mkModel [mkItem Sample.B] 100) "tab" (mkShared 3 []) [] in
  let h' := (@insertAtFront Qt4.api Sample.items Sample.A true h).2 in
  @insertAtFront Qt4.api Sample.items Sample.A false h' = (false, h').
Proof.
  intros h h'.
  apply (insert_again_rejected (Qt := Qt4.api) (Items := Sample.items) Sample.A h).
  - simpl. lia.
  - reflexivity.
Defined.



Section selecting.
Context {Items : ClipboardItemApi}.

Lemma findItem_from_skip (before l : list ClipboardItem) (fp i : Z) :
  Forall (λ item, dataHash item ≠ fp) before →
  ClipboardModel.findItem_from i (before ++ l) fp
  = ClipboardModel.findItem_from (i + Z.of_nat (length before)) l fp.
Proof.
  revert i. induction before as [|item before IH]; intros i Hne.
  - simpl. by rewrite Z.add_0_r.
  - apply Forall_cons in Hne as [Hitem Hne].
    cbn [app ClipboardModel.findItem_from].
    destruct (Z.eqb_spec (dataHash item) fp); [done|].
    rewrite IH by done. f_equal. cbn [length]. lia.
Qed.

Lemma with_model_same (c : ClipboardBrowser) : ClipboardBrowser.with_model c (m c) = c.
Proof. by destruct c. Qed.

End selecting.

(** X16.  [select] by hash: when no item has the hash it returns false and
    changes nothing; when the first item that has it is already in row 0 it
    also returns false and changes nothing; when the first item that has it
    is further down, that item is moved to row 0, the items that were
    before it follow in their order, and the call returns true. *)
Theorem select_first_match {Items : ClipboardItemApi} (item_hash : Z)
    (c : ClipboardBrowser) :
  (Forall (λ item, dataHash item ≠ item_hash) (history c) →
   ClipboardBrowser.select item_hash c = (false, c))
  ∧ (∀ first rest,
       history c = first :: rest → dataHash first = item_hash →
       ClipboardBrowser.select item_hash c = (false, c))
  ∧ (∀ before item after,
       history c = before ++ item :: after →
       before ≠ [] →
       Forall (λ item', dataHash item' ≠ item_hash) before →
       dataHash item = item_hash →
       ClipboardBrowser.select item_hash c
       = (true, ClipboardBrowser.with_model c
                  (ClipboardModel.with_list (m c) (item :: before ++ after)))).
Proof.
  unfold ClipboardBrowser.select, ClipboardModel.findItem, history.
  split; [|split].
  - intros Hnone.
    rewrite <- (app_nil_r (m_clipboardList (m c))), findItem_from_skip by done.
    done.
  - intros first rest Hl Hfp. rewrite Hl. cbn [ClipboardModel.findItem_from].
    rewrite Hfp, Z.eqb_refl. cbn.
    pose proof (moveToFront_eval (m c) 0) as Hmove. cbv zeta in Hmove.
    unfold moveToFront in Hmove. rewrite Hmove, Hl.
    cbn [length]. change (0 <? 0) with false.
    destruct (0 >=? Z.of_nat (S (length rest)));
      rewrite Z.eqb_refl, orb_true_r; by rewrite with_model_same.
  - intros before item after Hl Hne Hbefore Hfp.
    rewrite Hl, findItem_from_skip by done. cbn [ClipboardModel.findItem_from].
    rewrite Hfp, Z.eqb_refl. rewrite Z.add_0_l.
    assert (Hpos : 0 < Z.of_nat (length before)) by (destruct before; [done|simpl; lia]).
    destruct (Z.ltb_spec (Z.of_nat (length before)) 0); [lia|].
    pose proof (moveToFront_eval (m c) (Z.of_nat (length before))) as Hmove.
    cbv zeta in Hmove. unfold moveToFront in Hmove. rewrite Hmove, Hl.
    rewrite length_app. cbn [length].
    destruct (Z.geb_spec (Z.of_nat (length before))
                (Z.of_nat (length before + S (length after)))); [lia|].
    destruct (Z.ltb_spec (Z.of_nat (length before)) 0); [lia|].
    destruct (Z.eqb_spec (Z.of_nat (length before + S (length after))) 0); [lia|].
    destruct (Z.eqb_spec (Z.of_nat (length before)) 0); [lia|].
    cbn [orb]. rewrite Nat2Z.id.
    rewrite (QList_move_front _ _ item) by (by apply list_lookup_middle).
    by rewrite delete_middle.
Qed.

(** Selecting by the hash of "B", of "D" and of "A" in the history D, C,
    B. *)
Lemma select_first_match_witness :
  let c := mkBrowser (mkModel [mkItem Sample.D; mkItem Sample.C; mkItem Sample.B] 100)
             "tab" (mkShared 3 []) [] in
  (@ClipboardBrowser.select Sample.items (@dataHash Sample.items (mkItem Sample.B)) c).1
    = true
  ∧ history (@ClipboardBrowser.select Sample.items
               (@dataHash Sample.items (mkItem Sample.B)) c).2
    = [mkItem Sample.B; mkItem Sample.D; mkItem Sample.C]
  ∧ @ClipboardBrowser.select Sample.items (@dataHash Sample.items (mkItem Sample.D)) c
    = (false, c)
  ∧ @ClipboardBrowser.select Sample.items (@dataHash Sample.items (mkItem Sample.A)) c
    = (false, c).
Proof.
  intros c.
  destruct (select_first_match (Items := Sample.items)
              (@dataHash Sample.items (mkItem Sample.B)) c) as (_ & _ & HB).
  destruct (select_first_match (Items := Sample.items)
              (@dataHash Sample.items (mkItem Sample.D)) c) as (_ & HD & _).
  destruct (select_first_match (Items := Sample.items)
              (@dataHash Sample.items (mkItem Sample.A)) c) as (HA & _ & _).
  rewrite (HB [mkItem Sample.D; mkItem Sample.C] (mkItem Sample.B) []);
    [|reflexivity|done| |reflexivity].
  - split; [reflexivity|]. split; [reflexivity|]. split.
    + by apply (HD (mkItem Sample.D) [mkItem Sample.C; mkItem Sample.B]).
    + apply HA. repeat constructor; vm_compute; discriminate.
  - repeat constructor; vm_compute; discriminate.
Defined.

(** X17.  [moveToClipboard(i)] with automatic update announces, as the new
    clipboard, the item that was at the row [getRowNumber] gives for [i]
    (row [i] itself when it is a row of the list, the last row for a
    negative [i], row 0 for [i] past the end); that item is in row 0
    afterwards and the history has the same items.  Without automatic
    update, or on an empty history, nothing is announced. *)
Theorem moveToClipboard_announces (autoUpdate : bool) (i : Z) (c : ClipboardBrowser) :
  let items := history c in
  let row := ClipboardModel.getRowNumber (m c) i true in
  let result := ClipboardBrowser.moveToClipboard autoUpdate i c in
  history result.1 ≡ₚ items
  ∧ (autoUpdate = false → result.2 = None)
  ∧ (items = [] → result.2 = None ∧ result.1 = c)
  ∧ (items ≠ [] →
     history result.1 !! 0%nat = items !! Z.to_nat row
     ∧ (autoUpdate = true → result.2 = items !! Z.to_nat row)).
Proof.
  cbv zeta. unfold ClipboardBrowser.moveToClipboard, ClipboardBrowser.updateClipboard,
    history, ClipboardModel.rowCount, ClipboardModel.at_.
  cbn [fst snd ClipboardBrowser.with_model m].
  destruct (move_perm i 0 (m c)) as (Hperm & _ & _).
  split; [done|]. split; [by intros ->|].
  pose proof (Permutation_length Hperm) as Hlen.
  rewrite move_eval in *. cbv zeta in *.
  pose proof (getRowNumber_range (m c) i true) as Hf.
  pose proof (getRowNumber_range (m c) 0 true) as Ht. cbv zeta in Hf, Ht.
  set (from := ClipboardModel.getRowNumber (m c) i true) in *.
  set (to := ClipboardModel.getRowNumber (m c) 0 true) in *.
  destruct (Z.eqb_spec (Z.of_nat (length (m_clipboardList (m c)))) 0) as [Hz|Hz].
  - cbn [orb snd] in *. rewrite with_model_same.
    assert (Hnil : m_clipboardList (m c) = []) by (apply length_zero_iff_nil; lia).
    split; [|done]. intros _. rewrite Hnil. cbn. by destruct autoUpdate.
  - split; [intros Hnil; by rewrite Hnil in Hz|]. intros _.
    destruct Hf as (Hf & _), Ht as (_ & Ht & _). rewrite Ht in * by lia.
    cbn [orb] in *.
    assert (Hfront :
      m_clipboardList
        (if from =? 0 then (false, m c)
         else (true, ClipboardModel.with_list (m c)
                       (QList_move (Z.to_nat from) (Z.to_nat 0) (m_clipboardList (m c))))).2
        !! 0%nat
      = m_clipboardList (m c) !! Z.to_nat from).
    { destruct (Z.eqb_spec from 0) as [->|Hrow]; [done|].
      cbn [snd ClipboardModel.with_list m_clipboardList].
      destruct (lookup_lt_is_Some_2 (m_clipboardList (m c)) (Z.to_nat from)) as [x Hx];
        [lia|].
      change (Z.to_nat 0) with 0%nat.
      rewrite (QList_move_front _ _ x Hx). by rewrite Hx. }
    split; [done|]. intros ->.
    match goal with |- (if ?b then _ else _) = _ => destruct (Z.gtb_spec
      (Z.of_nat (length (m_clipboardList
        (if from =? 0 then (false, m c)
         else (true, ClipboardModel.with_list (m c)
                (QList_move (Z.to_nat from) (Z.to_nat 0) (m_clipboardList (m c))))).2))) 0)
      as [_|Hle] end; [|lia].
    exact Hfront.
Qed.

(** Moving row 2 and row -1 of D, C, B to the clipboard. *)
Lemma moveToClipboard_announces_witness :
  let c := mkBrowser (mkModel [mkItem Sample.D; mkItem Sample.C; mkItem Sample.B] 100)
             "tab" (mkShared 3 []) [] in
  (ClipboardBrowser.moveToClipboard true 2 c).2 = Some (mkItem Sample.B)
  ∧ (ClipboardBrowser.moveToClipboard true (-1) c).2 = Some (mkItem Sample.B)
  ∧ (ClipboardBrowser.moveToClipboard false 2 c).2 = None.
Proof.
  intros c.
  destruct (moveToClipboard_announces true 2 c) as (_ & _ & _ & H2).
  destruct (moveToClipboard_announces true (-1) c) as (_ & _ & _ & Hneg).
  destruct (moveToClipboard_announces false 2 c) as (_ & Hoff & _).
  cbv zeta in *.
  destruct H2 as [_ H2]; [done|]. destruct Hneg as [_ Hneg]; [done|].
  split; [by rewrite H2|]. split; [by rewrite Hneg|by apply Hoff].
Defined.

(** X18.  [clear] empties the history, whatever it held, and keeps the
    limit of the model and the settings. *)
Theorem clear_empties (c : ClipboardBrowser) :
  history (ClipboardBrowser.clear c) = []
  ∧ m_max (m (ClipboardBrowser.clear c)) = m_max (m c)
  ∧ m_sharedData (ClipboardBrowser.clear c) = m_sharedData c.
Proof.
  unfold ClipboardBrowser.clear, history. rewrite removeRows_eval. cbv zeta.
  unfold ClipboardModel.rowCount.
  destruct (Z.geb_spec 0 (Z.of_nat (length (m_clipboardList (m c))))) as [Hz|Hz].
  - cbn. split; [|done]. apply length_zero_iff_nil. lia.
  - change (0 <? 0) with false. cbn [snd ClipboardBrowser.with_model
      ClipboardModel.with_list m m_clipboardList m_max m_sharedData].
    split; [|done]. rewrite Z.sub_0_r, Z.min_id, Nat2Z.id.
    change (Z.to_nat 0) with 0%nat. rewrite Nat.add_0_l. by rewrite take_0, drop_all.
Qed.



(** ** Cloning bundles, hashes and server names *)

Section cloning.

Lemma data_setData (d : QMimeData) (mime mime' : QString) (bytes : QByteArray) :
  MimeData.data (MimeData.setData d mime bytes) mime'
  = if decide (mime = mime') then bytes else MimeData.data d mime'.
Proof.
  induction d as [|[f b] d IH]; simpl.
  - by destruct (decide (mime = mime')).
  - destruct (decide (f = mime)) as [->|Hf]; simpl.
    + by destruct (decide (mime = mime')).
    + destruct (decide (f = mime')) as [->|Hf'].
      * destruct (decide (mime = mime')); [congruence|done].
      * done.
Qed.

(** The loop both branches of [cloneData] run: copy the payload of every
    listed format that passes a test. *)
Lemma clone_loop_data (d : QMimeData) (keep : QString → bool) (fs : QStringList) :
  ∀ (acc : QMimeData) (mime : QString),
    MimeData.data
      (fold_left (λ newdata f,
         if keep f then MimeData.setData newdata f (MimeData.data d f) else newdata)
         fs acc) mime
    = if bool_decide (mime ∈ fs) && keep mime then MimeData.data d mime
      else MimeData.data acc mime.
Proof.
  induction fs as [|f fs IH]; intros acc mime; [done|].
  cbn [fold_left]. rewrite IH.
  destruct (decide (mime ∈ fs)) as [Hin|Hin].
  - rewrite (bool_decide_eq_true_2 (mime ∈ fs)), (bool_decide_eq_true_2 (mime ∈ f :: fs))
      by (done || by right).
    cbn [andb]. destruct (keep mime) eqn:Hk; [done|].
    destruct (keep f) eqn:Hf; [|done].
    rewrite data_setData. destruct (decide (f = mime)); [congruence|done].
  - rewrite (bool_decide_eq_false_2 (mime ∈ fs)) by done. cbn [andb].
    destruct (decide (f = mime)) as [->|Hne].
    + rewrite (bool_decide_eq_true_2 (mime ∈ mime :: fs)) by left. cbn [andb].
      destruct (keep mime); [|done].
      rewrite data_setData. by destruct (decide (mime = mime)).
    + rewrite (bool_decide_eq_false_2 (mime ∈ f :: fs))
        by (intros [?|?]%elem_of_cons; congruence).
      cbn [andb]. destruct (keep f); [|done].
      rewrite data_setData. by destruct (decide (f = mime)).
Qed.

Lemma data_not_in (d : QMimeData) (mime : QString) :
  mime ∉ MimeData.formats d → MimeData.data d mime = [].
Proof.
  intros Hin. apply data_absent.
  unfold MimeData.hasFormat. by apply bool_decide_eq_false.
Qed.

Lemma cloneData_some_data `{QtTextApi} (d : QMimeData) (fs : QStringList)
    (mime : QString) :
  MimeData.data (ClientServer.cloneData d (Some fs)) mime
  = if bool_decide (mime ∈ fs) then MimeData.data d mime else [].
Proof.
  unfold ClientServer.cloneData.
  rewrite (clone_loop_data d (λ f, negb (bool_decide (MimeData.data d f = [])))).
  destruct (bool_decide (mime ∈ fs)); [|done]. cbn [andb].
  destruct (decide (MimeData.data d mime = [])) as [Hd|Hd].
  - by rewrite (bool_decide_eq_true_2 _ Hd), Hd.
  - by rewrite (bool_decide_eq_false_2 _ Hd).
Qed.

End cloning.

(** X20.  [cloneData] with a list of formats gives a bundle in which each
    listed format has the payload it has in the original and every other
    format has none.  Without a list, each format whose name starts with a
    lower-case character has the payload it has in the original, and every
    other format (upper-case names such as TARGETS, and the empty name) has
    none. *)
Theorem cloneData_payloads {Text : QtTextApi} (data : QMimeData) (formats : QStringList)
    (mime : QString) :
  MimeData.data (ClientServer.cloneData data (Some formats)) mime
    = (if bool_decide (mime ∈ formats) then MimeData.data data mime else [])
  ∧ MimeData.data (ClientServer.cloneData data None) mime
    = (if startsLower mime then MimeData.data data mime else []).
Proof.
  split; [apply cloneData_some_data|].
  unfold ClientServer.cloneData.
  change (fold_left _ (MimeData.formats data) [])
    with (fold_left (λ newdata f,
            if startsLower f then MimeData.setData newdata f (MimeData.data data f)
            else newdata) (MimeData.formats data) []).
  rewrite (clone_loop_data data startsLower).
  destruct (decide (mime ∈ MimeData.formats data)) as [Hin|Hin].
  - by rewrite (bool_decide_eq_true_2 _ Hin).
  - rewrite (bool_decide_eq_false_2 _ Hin). cbn [andb].
    rewrite (data_not_in _ _ Hin). by destruct (startsLower mime).
Qed.

(** X21.  A clone made for a list of formats has the same [hash] as the
    original over any formats taken from that list. *)
Theorem cloneData_keeps_hash {Qt : QtApi} {Text : QtTextApi} (data : QMimeData)
    (formats hashed : QStringList) :
  hashed ⊆ formats →
  ClientServer.hash (ClientServer.cloneData data (Some formats)) hashed
  = ClientServer.hash data hashed.
Proof.
  intros Hsub. unfold ClientServer.hash.
  generalize 0. induction hashed as [|mime hashed IH]; intros acc; [done|].
  cbn [fold_left]. cbv zeta.
  rewrite cloneData_some_data.
  rewrite bool_decide_eq_true_2 by (apply Hsub; left).
  apply IH. intros x Hx. apply Hsub. by right.
Qed.

(** The clone of "b" with its markup, made for text only, hashed over
    text. *)
Lemma cloneData_keeps_hash_witness :
  @ClientServer.hash Qt4.api
    (@ClientServer.cloneData SampleMore.text_api Sample.b1 (Some ["text/plain"]))
    ["text/plain"]
  = @ClientServer.hash Qt4.api Sample.b1 ["text/plain"].
Proof.
  apply (cloneData_keeps_hash (Qt := Qt4.api) (Text := SampleMore.text_api)).
  set_solver.
Defined.

Section hash_range.

Lemma lxor_uint (a b : Z) :
  0 ≤ a < 2 ^ 32 → 0 ≤ b < 2 ^ 32 → 0 ≤ Z.lxor a b < 2 ^ 32.
Proof.
  intros Ha Hb.
  assert (Hnn : 0 ≤ Z.lxor a b) by (apply Z.lxor_nonneg; lia).
  split; [done|].
  destruct (Z.eq_dec (Z.lxor a b) 0) as [->|Hz]; [lia|].
  apply Z.log2_lt_pow2; [lia|].
  pose proof (Z.log2_lxor a b ltac:(lia) ltac:(lia)) as Hlog.
  assert (Hla : Z.log2 a < 32).
  { destruct (Z.eq_dec a 0) as [->|]; [done|]. apply Z.log2_lt_pow2; lia. }
  assert (Hlb : Z.log2 b < 32).
  { destruct (Z.eq_dec b 0) as [->|]; [done|]. apply Z.log2_lt_pow2; lia. }
  lia.
Qed.

End hash_range.

(** X22.  [hash] stays an unsigned 32-bit value whatever [qHash] returns;
    over no formats it is 0; and listing the same formats a second time
    cancels them, so the hash over a list followed by itself is 0. *)
Theorem hash_uint_and_cancel {Qt : QtApi} (data : QMimeData) (formats : QStringList) :
  0 ≤ ClientServer.hash data formats < 2 ^ 32
  ∧ ClientServer.hash data [] = 0
  ∧ ClientServer.hash data (formats ++ formats) = 0.
Proof.
  split; [|split; [done|]].
  - unfold ClientServer.hash.
    assert (Hall : ∀ acc, 0 ≤ acc < 2 ^ 32 →
              0 ≤ fold_left (λ hash mime, Z.lxor hash
                    (to_uint (qHash_bytes (MimeData.data data mime) + qHash_string mime)))
                    formats acc < 2 ^ 32); [|apply Hall; lia].
    induction formats as [|mime formats IH]; intros acc Hacc; [done|].
    cbn [fold_left]. apply IH. apply lxor_uint; [done|].
    unfold to_uint. apply Z.mod_pos_bound. lia.
  - unfold ClientServer.hash. rewrite fold_left_app.
    change (λ hash mime, Z.lxor hash
              (to_uint (qHash_bytes (MimeData.data data mime) + qHash_string mime)))
      with (λ hash mime, Z.lxor hash (hash_term data mime)).
    rewrite !hash_fold_from, Z.lxor_0_l. apply Z.lxor_nilpotent.
Qed.

(** X23.  The server and the monitor never share a socket name, for any
    user and on either platform; and a server name determines the user
    name it was made from. *)
Theorem server_names_apart (platform : Platform) (env env' : QString → QString)
    (name : QString) :
  ClientServer.clipboardServerName platform env
    ≠ ClientServer.clipboardMonitorServerName platform env'
  ∧ (ClientServer.serverName platform env name = ClientServer.serverName platform env' name
     ↔ env (match platform with Q_OS_WIN => "USERNAME" | Q_OS_OTHER => "USER" end)
       = env' (match platform with Q_OS_WIN => "USERNAME" | Q_OS_OTHER => "USER" end)).
Proof.
  split.
  - unfold ClientServer.clipboardServerName, ClientServer.clipboardMonitorServerName,
      ClientServer.serverName. simpl. intros Heq. discriminate Heq.
  - unfold ClientServer.serverName. cbv zeta.
    destruct platform; (split; [|intros Heq; by rewrite Heq]).
    all: intros Heq; induction name as [|ch name IH]; simpl in Heq;
      [by injection Heq|injection Heq as Heq; by apply IH].
Qed.

(** X24.  Starting the application twice: when nobody answers on the name
    (it is free, stale, or too slow), the first [newServer] listens, and a
    second [newServer] on the same name then finds it: the second server
    does not listen, the registration is left to the first, and the first
    is sent the four bytes of an empty message. *)
Theorem newServer_second_instance (name : QString) (w : LocalSockets) :
  waitForConnected w name 2000 = false →
  let first := ClientServer.newServer name w in
  let second := ClientServer.newServer name first.2 in
  isListening first.1 = true
  ∧ isListening second.1 = false
  ∧ registry second.2 = registry first.2
  ∧ delivered second.2 !! name
    = Some (default [] (delivered w !! name) ++ put_quint32 0).
Proof.
  intros Hprobe. cbv zeta.
  assert (Hfirst : ClientServer.newServer name w
                   = (mkServer (Some name),
                      mkSockets (<[name := Live 0]> (delete name (registry w)))
                        (delivered w))).
  { unfold ClientServer.newServer. rewrite Hprobe.
    unfold listen, removeServer. cbn [registry delivered].
    by rewrite lookup_delete_eq. }
  rewrite Hfirst. cbn [fst snd].
  unfold ClientServer.newServer, waitForConnected. cbn [registry].
  rewrite lookup_insert_eq.
  rewrite bool_decide_eq_true_2 by lia.
  cbn [fst snd socketWrite registry delivered].
  split; [done|]. split; [done|]. split; [done|].
  by rewrite lookup_insert_eq.
Qed.

(** Two starts on a host where a crashed server left the name behind. *)
Lemma newServer_second_instance_witness :
  let w := mkSockets {["CopyQ_server_u" := Stale]} ∅ in
  isListening (ClientServer.newServer "CopyQ_server_u" w).1 = true
  ∧ isListening
      (ClientServer.newServer "CopyQ_server_u"
         (ClientServer.newServer "CopyQ_server_u" w).2).1 = false.
Proof.
  intros w.
  destruct (newServer_second_instance "CopyQ_server_u" w) as (H1 & H2 & _);
    [reflexivity|].
  by split.
Defined.

(** ** Menu texts *)

Section ampersands.

Lemma noAmpersand_cons (c : Ascii.ascii) (s : QString) :
  noAmpersand (String c s) ↔ Ascii.eqb c ClientServer.ampersand = false ∧ noAmpersand s.
Proof.
  unfold noAmpersand. cbn [String.list_ascii_of_string]. rewrite Forall_cons.
  by rewrite Ascii.eqb_neq.
Qed.

Lemma replace_noAmpersand (after pre s : QString) :
  noAmpersand pre →
  QString_replace ClientServer.ampersand after (pre +:+ s)
  = pre +:+ QString_replace ClientServer.ampersand after s.
Proof.
  induction pre as [|c pre IH]; [done|].
  intros [Hc Hpre]%noAmpersand_cons. simpl. rewrite Hc. by rewrite IH.
Qed.

Lemma replace_none (after s : QString) :
  noAmpersand s → QString_replace ClientServer.ampersand after s = s.
Proof.
  induction s as [|c s IH]; [done|].
  intros [Hc Hs]%noAmpersand_cons. cbn [QString_replace]. rewrite Hc. by rewrite IH.
Qed.

Lemma indexOf_noAmpersand (s : QString) (i : Z) :
  noAmpersand s → QString_indexOf_from ClientServer.ampersand s i = -1.
Proof.
  revert i. induction s as [|c s IH]; intros i; [done|].
  intros [Hc Hs]%noAmpersand_cons. simpl. rewrite Hc. by apply IH.
Qed.

Lemma indexOf_first (pre post : QString) (i : Z) :
  noAmpersand pre →
  QString_indexOf_from ClientServer.ampersand
    (pre +:+ String ClientServer.ampersand post) i
  = i + Z.of_nat (String.length pre).
Proof.
  revert i. induction pre as [|c pre IH]; intros i.
  - intros _.
    change (EmptyString +:+ String ClientServer.ampersand post)
      with (String ClientServer.ampersand post).
    cbn [QString_indexOf_from String.length].
    rewrite Ascii.eqb_refl. lia.
  - intros [Hc Hpre]%noAmpersand_cons.
    change (String c pre +:+ String ClientServer.ampersand post)
      with (String c (pre +:+ String ClientServer.ampersand post)).
    cbn [QString_indexOf_from]. rewrite Hc, IH by done. cbn [String.length]. lia.
Qed.

Lemma string_take_app (pre s : QString) :
  string_take (String.length pre) (pre +:+ s) = pre.
Proof.
  induction pre as [|c pre IH]; simpl; [by destruct s|by rewrite IH].
Qed.

Lemma string_drop_app (pre s : QString) :
  string_drop (String.length pre) (pre +:+ s) = s.
Proof.
  induction pre as [|c pre IH]; simpl; [by destruct s|done].
Qed.

Lemma string_drop_0 (s : QString) : string_drop 0 s = s.
Proof. by destruct s. Qed.

End ampersands.

(** X25.  [elideText] escapes every ampersand but the first.  With [shown]
    the trimmed, cut, simplified and elided text: when [shown] holds no
    ampersand it is the result; otherwise the result is [shown] up to and
    including its first ampersand, followed by the rest of [shown] with
    every ampersand doubled. *)
Theorem elideText_ampersands {Text : QtTextApi} (actText : QString) :
  let shown := elidedText (simplified (QString_left 512 (trimmed actText))) 240 in
  (noAmpersand shown → ClientServer.elideText actText = shown)
  ∧ (∀ pre post,
       shown = pre +:+ String ClientServer.ampersand post →
       noAmpersand pre →
       ClientServer.elideText actText
       = pre +:+ String ClientServer.ampersand
                   (QString_replace ClientServer.ampersand "&&" post)).
Proof.
  cbv zeta. unfold ClientServer.elideText. cbv zeta.
  set (shown := elidedText (simplified (QString_left 512 (trimmed actText))) 240).
  split.
  - intros Hnone.
    rewrite replace_none by done.
    unfold QString_indexOf. rewrite indexOf_noAmpersand by done.
    change (Z.max 0 (-1)) with 0. change (-1 + 1) with 0.
    unfold QString_left, QString_mid. change (0 <? 0) with false.
    change (Z.to_nat 0) with 0%nat. rewrite string_drop_0. by destruct shown.
  - intros pre post Hshown Hpre. rewrite Hshown.
    rewrite replace_noAmpersand by done.
    cbn [QString_replace]. rewrite Ascii.eqb_refl.
    change ("&&" +:+ ?s) with (String ClientServer.ampersand (String ClientServer.ampersand s)).
    unfold QString_indexOf. rewrite indexOf_first by done. rewrite Z.add_0_l.
    unfold QString_left, QString_mid.
    destruct (Z.ltb_spec (Z.max 0 (Z.of_nat (String.length pre))) 0); [lia|].
    replace (Z.to_nat (Z.max 0 (Z.of_nat (String.length pre)))) with (String.length pre)
      by lia.
    replace (Z.to_nat (Z.of_nat (String.length pre) + 1)) with (S (String.length pre))
      by lia.
    rewrite string_take_app. f_equal.
    change (S (String.length pre))
      with (String.length (String ClientServer.ampersand pre)).
    clear. induction pre as [|c pre IH]; [done|]. exact IH.
Qed.

(** The menu text "a&b&c" becomes "a&b&&c", and "abc" stays. *)
Lemma elideText_ampersands_witness :
  @ClientServer.elideText SampleMore.text_api "a&b&c" = "a&b&&c"
  ∧ @ClientServer.elideText SampleMore.text_api "abc" = "abc".
Proof.
  destruct (elideText_ampersands (Text := SampleMore.text_api) "a&b&c") as [_ Hfirst].
  destruct (elideText_ampersands (Text := SampleMore.text_api) "abc") as [Hnone _].
  split.
  - apply (Hfirst "a" "b&c"); [reflexivity|].
    repeat constructor. intros Heq. discriminate Heq.
  - apply Hnone. repeat constructor; intros Heq; discriminate Heq.
Defined.

(** ** Sorting, reversing and removing a selection *)

Section selection.
Context {Qt : QtApi}.

Lemma collectRows_past_end (items : list ClipboardItem) (before after : list Z)
    (row : Z) :
  ∀ (list_ : list ComparisonItem) (rows : list Z),
  Forall (λ row, 0 ≤ row < Z.of_nat (length items)) before →
  Z.of_nat (length items) ≤ row →
  ClipboardModel.collectRows items (before ++ row :: after) list_ rows = Some None.
Proof.
  induction before as [|r before IH]; intros list_ rows Hrange Hrow; simpl.
  - by destruct (Z.geb_spec row (Z.of_nat (length items))); [|lia].
  - apply Forall_cons in Hrange as [Hr Hrange].
    destruct (Z.geb_spec r (Z.of_nat (length items))); [lia|].
    destruct (Z.ltb_spec r 0); [lia|].
    destruct (lookup_lt_is_Some_2 items (Z.to_nat r)) as [item Hitem]; [lia|].
    rewrite Hitem. simpl. by apply IH.
Qed.

(** A list sorted in descending order of rows is the reverse of the list
    sorted in ascending order. *)
Lemma descending_is_reverse (rows desc : list Z) :
  Sorted Z.lt rows → Sorted (flip Z.lt) desc → desc ≡ₚ rows → desc = reverse rows.
Proof.
  intros Hasc Hdesc Hperm.
  assert (Htrans : Transitive (flip Z.lt)) by (intros x y z; unfold flip; lia).
  apply (Sorted_unique_strong (flip Z.lt)).
  - unfold flip. intros. lia.
  - done.
  - by apply Sorted_reverse.
  - by rewrite reverse_Permutation.
Qed.

Lemma withoutRows_below {A} (rows : list Z) (i : Z) (l : list A) :
  Forall (λ r, r < i) rows → withoutRows rows i l = l.
Proof.
  revert i. induction l as [|x l IH]; intros i Hrows; [done|].
  cbn [withoutRows]. destruct (decide (i ∈ rows)) as [Hin|_].
  - rewrite Forall_forall in Hrows. pose proof (Hrows _ Hin). lia.
  - f_equal. apply IH. eapply Forall_impl; [done|]. simpl. lia.
Qed.

Lemma withoutRows_delete {A} (rows : list Z) (r : Z) (l : list A) :
  ∀ i, Forall (λ r', r' < r) rows →
  i ≤ r →
  withoutRows (r :: rows) i l = withoutRows rows i (delete (Z.to_nat (r - i)) l).
Proof.
  induction l as [|x l IH]; intros i Hrows Hr; [done|].
  cbn [withoutRows].
  destruct (Z.eq_dec r i) as [->|Hne].
  - replace (Z.to_nat (i - i)) with 0%nat by lia. cbn [delete].
    rewrite decide_True by left.
    assert (Hb : Forall (λ r, r < i + 1) (i :: rows)).
    { constructor; [lia|]. eapply Forall_impl; [done|]. simpl. lia. }
    rewrite (withoutRows_below _ _ _ Hb). symmetry. by apply withoutRows_below.
  - replace (Z.to_nat (r - i)) with (S (Z.to_nat (r - (i + 1)))) by lia.
    change (delete (S (Z.to_nat (r - (i + 1)))) (x :: l))
      with (x :: delete (Z.to_nat (r - (i + 1))) l).
    cbn [withoutRows].
    destruct (decide (i ∈ rows)) as [Hin|Hin].
    + rewrite decide_True by (by right). apply IH; [done|lia].
    + rewrite decide_False by (intros [?|?]%elem_of_cons; [lia|done]).
      f_equal. apply IH; [done|lia].
Qed.

(** Taking rows out one at a time from the highest to the lowest. *)
Lemma remove_descending (h : ClipboardModel) (rows : list Z) :
  ∀ items, m_clipboardList h = items →
  Sorted (flip Z.lt) rows →
  Forall (λ r, 0 ≤ r < Z.of_nat (length items)) rows →
  m_clipboardList
    (fold_left (λ model row, (ClipboardModel.removeRow row model).2) rows h)
  = withoutRows rows 0 items.
Proof.
  revert h. induction rows as [|r rows IH]; intros h items Hitems Hsorted Hrange.
  - simpl. symmetry. subst. by apply withoutRows_below.
  - apply Forall_cons in Hrange as [Hr Hrange].
    assert (Hlower : Forall (λ r', r' < r) rows).
    { apply Sorted_StronglySorted in Hsorted;
        [|intros x y z; unfold flip; lia].
      by apply StronglySorted_inv in Hsorted as [_ Hall]. }
    apply Sorted_inv in Hsorted as [Hsorted _].
    cbn [fold_left].
    assert (Hstep : m_clipboardList (ClipboardModel.removeRow r h).2
                    = delete (Z.to_nat r) items).
    { unfold ClipboardModel.removeRow. rewrite removeRows_eval. cbv zeta.
      rewrite Hitems.
      destruct (Z.geb_spec r (Z.of_nat (length items))); [lia|].
      destruct (Z.ltb_spec r 0); [lia|].
      cbn [snd ClipboardModel.with_list m_clipboardList].
      rewrite delete_take_drop. do 2 f_equal. lia. }
    rewrite (IH _ _ Hstep Hsorted).
    + rewrite withoutRows_delete by (done || lia). by rewrite Z.sub_0_r.
    + rewrite length_delete by (apply lookup_lt_is_Some_2; lia).
      rewrite Forall_forall in Hrange, Hlower |- *. intros x Hx.
      pose proof (Hrange x Hx). pose proof (Hlower x Hx). lia.
Qed.

Lemma fold_removeRow_visible (isRowHidden : Z → bool) (rows : list Z) :
  ∀ h,
  fold_left (λ model row,
     if negb (isRowHidden row) then (ClipboardModel.removeRow row model).2 else model)
    rows h
  = fold_left (λ model row, (ClipboardModel.removeRow row model).2)
      (filter (λ row, isRowHidden row = false) rows) h.
Proof.
  induction rows as [|r rows IH]; intros h; [done|].
  cbn [fold_left]. rewrite IH.
  destruct (isRowHidden r) eqn:Hr.
  - by rewrite filter_cons_False by (by rewrite Hr).
  - by rewrite filter_cons_True by done.
Qed.

Lemma withoutRows_ext {A} (rows rows' : list Z) (l : list A) :
  ∀ i, (∀ r, r ∈ rows ↔ r ∈ rows') → withoutRows rows i l = withoutRows rows' i l.
Proof.
  induction l as [|x l IH]; intros i Hext; [done|].
  cbn [withoutRows]. rewrite (IH _ Hext).
  destruct (decide (i ∈ rows)) as [Hin|Hin].
  - by rewrite decide_True by (by apply Hext).
  - by rewrite decide_False by (by rewrite <- Hext).
Qed.

End selection.

(** X26.  [sortItems] gives up at the first listed row that is at or past
    the end of the list: when the rows listed before it are rows of the
    list, nothing is sorted and the model is unchanged, whatever rows
    follow. *)
Theorem sortItems_past_end {Qt : QtApi} (before after : list Z) (row : Z)
    (compare : CompareItems) (h : ClipboardModel) :
  Forall (λ row, 0 ≤ row < ClipboardModel.rowCount h) before →
  ClipboardModel.rowCount h ≤ row →
  ClipboardModel.sortItems (before ++ row :: after) compare h = Some h.
Proof.
  intros Hbefore Hrow. unfold ClipboardModel.sortItems.
  by rewrite collectRows_past_end.
Qed.

(** Sorting rows 1, 3, 0 of a, b1, b2: row 3 is past the end. *)
Lemma sortItems_past_end_witness :
  let h := mkModel [mkItem Sample.b1; mkItem Sample.b2; mkItem Sample.a] 100 in
  @ClipboardModel.sortItems Qt4.api [1; 3; 0] (@ClipboardBrowser.alphaSort Qt4.api) h
  = Some h.
Proof.
  intros h.
  apply (sortItems_past_end (Qt := Qt4.api) [1] [0] 3).
  - repeat constructor; unfold ClipboardModel.rowCount; simpl; lia.
  - unfold ClipboardModel.rowCount. simpl. lia.
Defined.

(** X27.  [reverseItems] reverses the selected items in place.  Let the
    selected rows be distinct rows of the list, and let [qSort] sort (the
    rows come out ascending, the pairs descending by row, each a
    rearrangement of what went in).  Then the row that is i-th from the top
    of the selection receives the item of the row that is i-th from its
    bottom; the rows not selected keep their items. *)
Theorem reverseItems_reverses {Qt : QtApi} (indexes : list Z) (c : ClipboardBrowser) :
  let items := history c in
  let rows := qSort Z.ltb indexes in
  let pairs := qSort ClipboardBrowser.reverseSort
                 ((λ row, (row, items !!! Z.to_nat row)) <$> indexes) in
  NoDup indexes →
  Forall (λ row, 0 ≤ row < Z.of_nat (length items)) indexes →
  rows ≡ₚ indexes → Sorted Z.lt rows →
  pairs ≡ₚ (λ row, (row, items !!! Z.to_nat row)) <$> indexes →
  Sorted (λ p q, ClipboardBrowser.reverseSort p q = true) pairs →
  ∃ c',
    ClipboardBrowser.reverseItems indexes c = Some c'
    ∧ length (history c') = length items
    ∧ (∀ j : nat, Z.of_nat j ∉ indexes → history c' !! j = items !! j)
    ∧ (∀ i row row', rows !! i = Some row → reverse rows !! i = Some row' →
         history c' !! Z.to_nat row = items !! Z.to_nat row').
Proof.
  intros items rows pairs Hnodup Hrange Hrows HrowsS Hpairs HpairsS.
  unfold ClipboardBrowser.reverseItems, ClipboardModel.sortItems.
  unfold history in items. fold items.
  rewrite (collectRows_in_range items indexes [] [] Hrange). simpl.
  fold rows. fold pairs.
  assert (Hfst : pairs.*1 = reverse rows).
  { apply descending_is_reverse; [done| |].
    - eapply (Sorted_fmap fst); [|exact HpairsS].
      intros p q. unfold ClipboardBrowser.reverseSort, flip. lia.
    - rewrite Hpairs, Hrows, <- list_fmap_compose. simpl.
      by rewrite list_fmap_id. }
  assert (Hsnd : ∀ p, p ∈ pairs → p.1 ∈ indexes ∧ items !! Z.to_nat p.1 = Some p.2).
  { intros p Hp. rewrite Hpairs in Hp.
    apply list_elem_of_fmap in Hp as (row & -> & Hrow). split; [done|].
    rewrite Forall_forall in Hrange. pose proof (Hrange _ Hrow). simpl.
    apply list_lookup_lookup_total_lt. lia. }
  destruct (writeBack_spec pairs rows items) as (Hlen & Hslots & Hrest).
  - by rewrite Hpairs, Hrows, length_fmap.
  - by rewrite Hrows.
  - by rewrite Hrows.
  - rewrite Forall_forall. intros p Hp _. by apply Hsnd.
  - cbv zeta in Hlen, Hslots, Hrest.
    eexists. split; [done|].
    unfold history. cbn [ClipboardBrowser.with_model ClipboardModel.with_list m
      m_clipboardList].
    split; [done|]. split.
    { intros j Hj. apply Hrest. by rewrite Hrows. }
    intros i row row' Hrow Hrow'.
    rewrite <- Hfst, list_lookup_fmap in Hrow'.
    apply fmap_Some in Hrow' as (p & Hp & ->).
    rewrite (Hslots i row p Hrow Hp). symmetry.
    apply Hsnd. by eapply list_elem_of_lookup_2.
Qed.

(** Reversing rows 2, 0, 1 of D, C, B, A with Qt 4's [qSort]. *)
Lemma reverseItems_reverses_witness :
  let c := mkBrowser
             (mkModel [mkItem Sample.D; mkItem Sample.C; mkItem Sample.B; mkItem Sample.A]
                100) "tab" (mkShared 100 []) [] in
  ∃ c', @ClipboardBrowser.reverseItems Qt4.api [2; 0; 1] c = Some c'
        ∧ length (history c') = 4%nat
        ∧ history c' !! 0%nat = Some (mkItem Sample.B)
        ∧ history c' !! 2%nat = Some (mkItem Sample.D)
        ∧ history c' !! 3%nat = Some (mkItem Sample.A).
Proof.
  intros c.
  destruct (reverseItems_reverses (Qt := Qt4.api) [2; 0; 1] c)
    as (c' & Hrun & Hlen & Hrest & Hsel).
  - apply NoDup_ListNoDup. repeat constructor; simpl; lia.
  - repeat constructor; simpl; lia.
  - apply Qt4Sort.qSort_perm.
  - vm_compute. repeat constructor.
  - apply Qt4Sort.qSort_perm.
  - vm_compute. repeat constructor.
  - exists c'. split; [exact Hrun|]. split; [exact Hlen|].
    split; [exact (Hsel 0%nat 0 2 eq_refl eq_refl)|].
    split; [exact (Hsel 2%nat 2 0 eq_refl eq_refl)|].
    apply (Hrest 3%nat). intros Hin.
    repeat (apply elem_of_cons in Hin as [Hin|Hin]; [discriminate Hin|]).
    by apply elem_of_nil in Hin.
Defined.

(** X28.  [remove] deletes exactly the selected rows that are not hidden.
    Let the selection be rows of the list and let [qSort] sort it (strictly
    descending, a rearrangement of the selection).  Then the history
    afterwards is the old one without the items at the visible selected
    rows, the others keeping their order; an empty selection changes
    nothing, and nothing is announced when automatic update is off. *)
Theorem remove_selected {Qt : QtApi} (autoUpdate : bool) (isRowHidden : Z → bool)
    (list_ : list Z) (c : ClipboardBrowser) :
  let items := history c in
  let rows := qSort Z.gtb list_ in
  let result := ClipboardBrowser.remove autoUpdate isRowHidden list_ c in
  Forall (λ row, 0 ≤ row < Z.of_nat (length items)) list_ →
  rows ≡ₚ list_ → Sorted (flip Z.lt) rows →
  history result.1
    = withoutRows (filter (λ row, isRowHidden row = false) list_) 0 items
  ∧ (list_ = [] → result = (c, None))
  ∧ (autoUpdate = false → result.2 = None).
Proof.
  intros items rows result Hrange Hperm Hsorted. subst result.
  unfold ClipboardBrowser.remove.
  destruct list_ as [|row0 list_].
  { split; [|done]. cbn [fst filter]. unfold items.
    symmetry. by apply withoutRows_below. }
  fold rows. set (sel := row0 :: list_) in *.
  cbn [fst snd]. split; [|split; [done|by intros ->]].
  unfold history. cbn [ClipboardBrowser.with_model m].
  rewrite fold_removeRow_visible.
  rewrite (remove_descending _ _ items eq_refl).
  - apply withoutRows_ext. intros r.
    rewrite !list_elem_of_filter. by rewrite Hperm.
  - apply Sorted_StronglySorted in Hsorted; [|intros x y z; unfold flip; lia].
    apply StronglySorted_Sorted.
    clear -Hsorted. induction Hsorted as [|x l Hl IH Hx]; [constructor|].
    destruct (isRowHidden x) eqn:Hh.
    + by rewrite filter_cons_False by (by rewrite Hh).
    + rewrite filter_cons_True by done. constructor; [done|].
      rewrite Forall_forall in Hx |- *. intros y [_ Hy]%list_elem_of_filter. by apply Hx.
  - rewrite Forall_forall in Hrange |- *. intros r [_ Hr]%list_elem_of_filter.
    apply Hrange. by rewrite <- Hperm.
Qed.

(** Removing rows 1, 3 and the hidden row 2 of D, C, B, A. *)
Lemma remove_selected_witness :
  let c := mkBrowser
             (mkModel [mkItem Sample.D; mkItem Sample.C; mkItem Sample.B; mkItem Sample.A]
                100) "tab" (mkShared 100 []) [] in
  history (@ClipboardBrowser.remove Qt4.api true (λ row, row =? 2) [1; 3; 2] c).1
  = [mkItem Sample.D; mkItem Sample.B].
Proof.
  intros c.
  destruct (remove_selected (Qt := Qt4.api) true (λ row, row =? 2) [1; 3; 2] c)
    as (Hhist & _ & _).
  - repeat constructor; simpl; lia.
  - apply Qt4Sort.qSort_perm.
  - vm_compute. repeat constructor.
  - exact Hhist.
Defined.

(** X29.  [loadSettings] with an item limit that is not negative crops the
    history to its first [maxItems] items and gives the model that limit;
    the history is then within the limit, and stays within it through any
    run of insertions.  With a negative limit the cropping loop runs into
    [takeLast] on an empty list. *)
Theorem loadSettings_crops {Qt : QtApi} {Items : ClipboardItemApi}
    (c : ClipboardBrowser) :
  (0 ≤ maxItems (m_sharedData c) →
   ∃ c', ClipboardBrowser.loadSettings c = Some c'
         ∧ history c' = take (Z.to_nat (maxItems (m_sharedData c))) (history c)
         ∧ m_max (m c') = maxItems (m_sharedData c)
         ∧ m_sharedData c' = m_sharedData c
         ∧ ∀ calls, within_capacity (insertAll calls c'))
  ∧ (maxItems (m_sharedData c) < 0 → ClipboardBrowser.loadSettings c = None).
Proof.
  unfold ClipboardBrowser.loadSettings.
  destruct (setMaxItems_crops (maxItems (m_sharedData c)) (m c)) as [Hcrop Hneg].
  split; intros Hmax.
  - rewrite Hcrop by done. eexists. split; [done|].
    unfold history. cbn [ClipboardBrowser.with_model m m_clipboardList m_max m_sharedData].
    split; [done|]. split; [done|]. split; [done|].
    intros calls. apply insertAll_within_capacity.
    unfold within_capacity, history.
    cbn [ClipboardBrowser.with_model m m_clipboardList m_sharedData].
    rewrite length_take. lia.
  - by rewrite Hneg.
Qed.

(** Loading the limit 2 over the history D, C, B. *)
Lemma loadSettings_crops_witness :
  let c := mkBrowser (mkModel [mkItem Sample.D; mkItem Sample.C; mkItem Sample.B] 100)
             "tab" (mkShared 2 []) [] in
  ∃ c', ClipboardBrowser.loadSettings c = Some c'
        ∧ history c' = [mkItem Sample.D; mkItem Sample.C].
Proof.
  intros c.
  destruct (loadSettings_crops (Qt := Qt4.api) (Items := Sample.items) c) as [Hcrop _].
  destruct Hcrop as (c' & Hrun & Hhist & _); [simpl; lia|].
  exists c'. by split.
Defined.
